(** * deep-research-mcp: orchestration engine, shallow embedding

  The development follows the TypeScript sources:
  - [PerformanceMetrics] and [AdaptiveSearchClient]
    (src/infrastructure/metrics/PerformanceMetrics.ts,
     src/infrastructure/search/AdaptiveSearchClient.ts);
  - [LRUContentCache], [BatchedModelProvider], [MultiLevelCache];
  - [DefaultSourceEvaluationService], [DefaultResearchService];
  - the two variants of the MCP server (tool schemas and handlers).

  JavaScript numbers that the code only counts, adds and compares
  (timestamps, durations, counters, TTLs) are integers [Z]; ratios
  are exact rationals [Q]; the one place where the code can produce
  NaN (a division 0/0) has an explicit NaN. *)

From Stdlib Require Import ZArith QArith Qround Lia Bool Ascii String.
From stdpp Require Import gmap strings list sorting.

Set Warnings "-register-all".
Open Scope Z_scope.

(** ** Shared: Result, domain errors *)

Module Shared.

(** src/shared/Result.ts: [{success: true, data} | {success: false, error}] *)
Inductive Result (T E : Type) : Type :=
| Ok (data : T)
| Err (error : E).
Arguments Ok {T E} data.
Arguments Err {T E} error.

Definition isOk {T E} (r : Result T E) : bool :=
  match r with Ok _ => true | Err _ => false end.

(** A thrown JavaScript value, as far as the code looks at it. *)
Record JsError := { js_name : string; js_message : string }.

(** src/shared/errors.ts: [ResearchError] and its subclasses differ by
    the [name] the constructor assigns. *)
Record ResearchError := {
  name : string;
  message : string;
  cause : option JsError
}.

Definition new_ResearchError (msg : string) (c : option JsError) : ResearchError :=
  {| name := "ResearchError"; message := msg; cause := c |}.

Definition new_SearchError (msg : string) (c : option JsError) : ResearchError :=
  {| name := "SearchError"; message := msg; cause := c |}.

Definition new_AIModelError (msg : string) (c : option JsError) : ResearchError :=
  {| name := "AIModelError"; message := msg; cause := c |}.

Definition isAIModelError (e : ResearchError) : bool :=
  String.eqb (name e) "AIModelError".

(** JavaScript values as they come out of [JSON.parse]. *)
Inductive JsValue :=
| JNull
| JBool (b : bool)
| JNum (q : Q)
| JStr (s : string)
| JArr (items : list JsValue)
| JObj (fields : list (string * JsValue)).

(** Truthiness, as tested by [if (v)]. *)
Definition truthy (v : JsValue) : bool :=
  match v with
  | JNull => false
  | JBool b => b
  | JNum q => negb (Qeq_bool q 0)
  | JStr s => negb (String.eqb s "")
  | JArr _ => true
  | JObj _ => true
  end.

(** A computation that returns or throws. *)
Inductive Exc (A : Type) : Type :=
| Return (a : A)
| Throw (e : JsError).
Arguments Return {A} a.
Arguments Throw {A} e.

Definition bind {A B} (c : Exc A) (k : A -> Exc B) : Exc B :=
  match c with
  | Return a => k a
  | Throw e => Throw e
  end.

(** [try { body } catch (error) { handler(error) }] *)
Definition try_catch {A} (body : Exc A) (handler : JsError -> Exc A) : Exc A :=
  match body with
  | Return a => Return a
  | Throw e => handler e
  end.

Declare Scope exc_scope.
Delimit Scope exc_scope with exc.
Notation "'let!' x ':=' c 'in' k" := (bind c (fun x => k))
  (at level 10, x name, c at level 100, k at level 200) : exc_scope.

End Shared.

(** ** PerformanceMetrics *)

Module PerformanceMetrics.

Record OperationMetrics := {
  name : string;
  count : Z;
  totalDuration : Z;
  errors : Z;
  lastError : option string;
  durations : list Z
}.

Record MetricsSummary := {
  s_name : string;
  s_count : Z;
  s_errors : Z;
  errorRate : Q;
  avgDuration : Q;
  p50Duration : Z;
  p95Duration : Z;
  p99Duration : Z
}.

(** [private metrics = new Map<string, OperationMetrics>()] *)
Abbreviation t := (gmap string OperationMetrics).

Definition maxDurations : nat := 1000.

(** [arr.slice(-n)]: the last [n] elements. *)
Definition slice_last {A} (n : nat) (l : list A) : list A :=
  drop (length l - n)%nat l.

Definition getOrCreateMetric (operation : string) (ms : t) : OperationMetrics :=
  match ms !! operation with
  | Some m => m
  | None => {| name := operation; count := 0; totalDuration := 0;
               errors := 0; lastError := None; durations := [] |}
  end.

Definition recordSuccess (operation : string) (duration : Z) (ms : t) : t :=
  let metric := getOrCreateMetric operation ms in
  let ds := durations metric ++ [duration] in
  let ds' := if Nat.ltb maxDurations (length ds) then slice_last maxDurations ds else ds in
  <[operation := {| name := name metric;
                    count := count metric + 1;
                    totalDuration := totalDuration metric + duration;
                    errors := errors metric;
                    lastError := lastError metric;
                    durations := ds' |}]> ms.

Definition recordError (operation : string) (error_message : string)
           (duration : option Z) (ms : t) : t :=
  let metric := getOrCreateMetric operation ms in
  <[operation := {| name := name metric;
                    count := count metric + 1;
                    totalDuration :=
                      match duration with
                      | Some d => totalDuration metric + d
                      | None => totalDuration metric
                      end;
                    errors := errors metric + 1;
                    lastError := Some error_message;
                    durations :=
                      match duration with
                      | Some d => durations metric ++ [d]
                      | None => durations metric
                      end |}]> ms.

(** [percentile(sortedArray, p)]:
    [index = Math.ceil(sortedArray.length * p) - 1],
    [sortedArray[Math.max(0, index)]], and 0 on the empty array.
    [p] is the exact rational of the literal (0.5, 0.95, 0.99); for
    [0 < p <= 1] the index is in range (lemma [percentile_index_in_range]),
    so the array read never yields [undefined]. *)
Definition percentile_index (len : nat) (p : Q) : Z :=
  Z.max 0 (Qceiling (inject_Z (Z.of_nat len) * p) - 1).

Definition percentile (sortedArray : list Z) (p : Q) : Z :=
  match sortedArray with
  | [] => 0
  | _ => default 0 (sortedArray !! Z.to_nat (percentile_index (length sortedArray) p))
  end.

(** [[...metric.durations].sort((a, b) => a - b)] *)
Definition sortedDurations (m : OperationMetrics) : list Z :=
  merge_sort Z.le (durations m).

Definition getMetrics (operation : string) (ms : t) : option MetricsSummary :=
  match ms !! operation with
  | None => None
  | Some metric =>
      if Z.eqb (count metric) 0 then None
      else
        let sorted := sortedDurations metric in
        Some {| s_name := operation;
                s_count := count metric;
                s_errors := errors metric;
                errorRate := inject_Z (errors metric) / inject_Z (count metric);
                avgDuration := inject_Z (totalDuration metric) / inject_Z (count metric);
                p50Duration := percentile sorted (1 # 2);
                p95Duration := percentile sorted (95 # 100);
                p99Duration := percentile sorted (99 # 100) |}
  end.

End PerformanceMetrics.

(** ** AdaptiveSearchClient *)

Module AdaptiveSearchClient.
Import PerformanceMetrics.

Definition adjustmentInterval : Z := 10000.
Definition minConcurrency : Z := 1.
Definition maxConcurrency : Z := 8.

(** The mutable fields of the client. [limit] is the capacity of the
    current [pLimit] gate. *)
Record t := {
  concurrency : Z;
  limit : Z;
  metrics : PerformanceMetrics.t;
  lastAdjustment : Z
}.

(** [new AdaptiveSearchClient(baseClient)] at time [now]. *)
Definition create (now : Z) : t :=
  {| concurrency := 2; limit := 2; metrics := ∅; lastAdjustment := now |}.

Definition gtQ (a b : Q) : bool := negb (Qle_bool a b).
Definition ltQ (a b : Q) : bool := negb (Qle_bool b a).

(** The three-way rule of [adjustConcurrencyIfNeeded], on the summary. *)
Definition adjusted (m : MetricsSummary) (c : Z) : Z :=
  if gtQ (errorRate m) (2 # 10) then Z.max minConcurrency (c - 1)
  else if ltQ (errorRate m) (5 # 100) && (p95Duration m <? 5000)
       then Z.min maxConcurrency (c + 1)
  else if p95Duration m >? 10000 then Z.max minConcurrency (c - 1)
  else c.

Definition adjustConcurrencyIfNeeded (now : Z) (s : t) : t :=
  if now - lastAdjustment s <? adjustmentInterval then s
  else
    match getMetrics "search" (metrics s) with
    | None => s
    | Some m =>
        if s_count m <? 5 then s
        else
          let oldConcurrency := concurrency s in
          let newConcurrency := adjusted m oldConcurrency in
          if Z.eqb newConcurrency oldConcurrency
          then s
          else {| concurrency := newConcurrency;
                  limit := newConcurrency;
                  metrics := metrics s;
                  lastAdjustment := now |}
    end.

(** What [baseClient.search] did inside one [search] call. *)
Inductive Outcome :=
| Succeeded                      (* result.success *)
| Unsuccessful                   (* result.success === false *)
| Threw (error_message : string).  (* exception *)

(** One completed [search] call: the outcome, [start], the clock when
    the duration is taken and the clock read by the adjustment. *)
Record Call := {
  outcome : Outcome;
  start : Z;
  finished : Z;
  adjustedAt : Z
}.

Definition with_metrics (ms : PerformanceMetrics.t) (s : t) : t :=
  {| concurrency := concurrency s; limit := limit s;
     metrics := ms; lastAdjustment := lastAdjustment s |}.

(** The state change of one [search] call: the code after the
    [await] runs without interruption, so calls are atomic steps in
    completion order. *)
Definition search (c : Call) (s : t) : t :=
  let duration := finished c - start c in
  let ms :=
    match outcome c with
    | Succeeded => recordSuccess "search" duration (metrics s)
    | Unsuccessful =>
        recordError "search" "Search returned success=false" (Some duration) (metrics s)
    | Threw msg => recordError "search" msg (Some duration) (metrics s)
    end in
  adjustConcurrencyIfNeeded (adjustedAt c) (with_metrics ms s).

(** Any sequence of calls on a client created at [t0]. *)
Definition run (t0 : Z) (calls : list Call) : t :=
  fold_left (fun s c => search c s) calls (create t0).

Definition getConcurrency (s : t) : Z := concurrency s.

End AdaptiveSearchClient.

(** ** LRUContentCache *)

Module LRUContentCache.

Record CacheEntry (T : Type) := {
  value : T;
  timestamp : Z;
  accessCount : Z
}.
Arguments value {T} _.
Arguments timestamp {T} _.
Arguments accessCount {T} _.

(** A JavaScript [Map] keeps insertion order, which the eviction relies
    on: an association list with distinct keys, oldest first. *)
Definition map_get {V} (key : string) (m : list (string * V)) : option V :=
  snd <$> find (fun kv => String.eqb (fst kv) key) m.

Definition map_delete {V} (key : string) (m : list (string * V)) : list (string * V) :=
  filter (fun kv => fst kv <> key) m.

Fixpoint map_set {V} (key : string) (v : V) (m : list (string * V)) : list (string * V) :=
  match m with
  | [] => [(key, v)]
  | (k, w) :: rest =>
      if String.eqb k key then (k, v) :: rest else (k, w) :: map_set key v rest
  end.

Record t (T : Type) := {
  cache : list (string * CacheEntry T);
  maxSize : nat;
  ttl : Z
}.
Arguments cache {T} _.
Arguments maxSize {T} _.
Arguments ttl {T} _.

(** [new LRUContentCache(maxSize = 100, ttlMs = 30 * 60 * 1000)] *)
Definition create {T} (maxSize : option nat) (ttlMs : option Z) : t T :=
  {| cache := []; maxSize := default 100%nat maxSize;
     ttl := default (30 * 60 * 1000) ttlMs |}.

Definition with_cache {T} (m : list (string * CacheEntry T)) (c : t T) : t T :=
  {| cache := m; maxSize := maxSize c; ttl := ttl c |}.

Definition get {T} (now : Z) (key : string) (c : t T) : option T * t T :=
  match map_get key (cache c) with
  | None => (None, c)
  | Some entry =>
      if now - timestamp entry >? ttl c
      then (None, with_cache (map_delete key (cache c)) c)
      else
        let entry' := {| value := value entry; timestamp := timestamp entry;
                         accessCount := accessCount entry + 1 |} in
        (Some (value entry),
         with_cache (map_set key entry' (map_delete key (cache c))) c)
  end.

Definition set {T} (now : Z) (key : string) (v : T) (c : t T) : t T :=
  let m1 := match map_get key (cache c) with
            | Some _ => map_delete key (cache c)
            | None => cache c
            end in
  let m2 := if Nat.leb (maxSize c) (length m1)
            then match m1 with
                 | (firstKey, _) :: _ => map_delete firstKey m1
                 | [] => m1
                 end
            else m1 in
  with_cache (map_set key {| value := v; timestamp := now; accessCount := 1 |} m2) c.

Definition clear {T} (c : t T) : t T := with_cache [] c.

Definition size {T} (c : t T) : nat := length (cache c).

End LRUContentCache.

(** ** BatchedModelProvider *)

Module BatchedModelProvider.
Import Shared.

Record GenerationParams := {
  model : string;
  system : option string;
  prompt : string;
  schema : string   (* [JSON.stringify(params.schema)] *)
}.

Record CacheEntry := {
  result : JsValue;
  timestamp : Z;
  ttl : Z
}.

Record UsageStats := {
  totalCalls : Z;
  totalTokens : Z;
  cacheHits : Z;
  averageLatency : Q
}.

Record t := {
  cache : gmap string CacheEntry;
  stats : UsageStats
}.

Definition create : t :=
  {| cache := ∅;
     stats := {| totalCalls := 0; totalTokens := 0; cacheHits := 0;
                 averageLatency := 0 |} |}.

(** [Buffer.from(key).toString('base64')] over the bytes of the string. *)
Definition base64_alphabet : list ascii :=
  list_ascii_of_string
    "ABCDEFGHIJKLMNOPQRSTUVWXYZabcdefghijklmnopqrstuvwxyz0123456789+/".

Definition base64_digit (n : N) : ascii :=
  nth (N.to_nat n) base64_alphabet "="%char.

Fixpoint base64_bytes (bytes : list N) : list ascii :=
  match bytes with
  | [] => []
  | [a] =>
      let n := (a * 65536)%N in
      [base64_digit (n / 262144); base64_digit ((n / 4096) mod 64);
       "="%char; "="%char]
  | [a; b] =>
      let n := (a * 65536 + b * 256)%N in
      [base64_digit (n / 262144); base64_digit ((n / 4096) mod 64);
       base64_digit ((n / 64) mod 64); "="%char]
  | a :: b :: c :: rest =>
      let n := (a * 65536 + b * 256 + c)%N in
      [base64_digit (n / 262144); base64_digit ((n / 4096) mod 64);
       base64_digit ((n / 64) mod 64); base64_digit (n mod 64)]
        ++ base64_bytes rest
  end.

Definition base64 (s : string) : string :=
  string_of_list_ascii
    (base64_bytes (map Ascii.N_of_ascii (list_ascii_of_string s))).

(** [`${params.system || ''}|${params.prompt}|${JSON.stringify(params.schema)}`],
    base64, first 64 characters. *)
Definition getCacheKey (params : GenerationParams) : string :=
  let key := (default "" (system params) +:+ "|" +:+ prompt params
              +:+ "|" +:+ schema params)%string in
  String.substring 0 64 (base64 key).

Definition with_cache (m : gmap string CacheEntry) (s : t) : t :=
  {| cache := m; stats := stats s |}.

Definition with_stats (u : UsageStats) (s : t) : t :=
  {| cache := cache s; stats := u |}.

Definition expired (now : Z) (entry : CacheEntry) : bool :=
  now >? timestamp entry + ttl entry.

(** [getFromCache]: [null] when there is no entry or it has expired. *)
Definition getFromCache (key : string) (now : Z) (s : t) : JsValue * t :=
  match cache s !! key with
  | None => (JNull, s)
  | Some entry =>
      if expired now entry
      then (JNull, with_cache (delete key (cache s)) s)
      else (result entry, s)
  end.

Definition cleanupCache (now : Z) (s : t) : t :=
  with_cache (filter (fun kv => expired now (snd kv) = false) (cache s)) s.

Definition setCache (key : string) (v : JsValue) (ttl : Z) (now cleanupAt : Z) (s : t) : t :=
  let s' := with_cache (<[key := {| result := v; timestamp := now; ttl := ttl |}]> (cache s)) s in
  if Nat.ltb 1000 (size (cache s')) then cleanupCache cleanupAt s' else s'.

(** [updateStats(duration, usage)]; [totalCalls] was already incremented. *)
Definition updateStats (duration : Z) (usage_totalTokens : option Z) (s : t) : t :=
  let u := stats s in
  with_stats
    {| totalCalls := totalCalls u;
       totalTokens := match usage_totalTokens with
                      | Some n => if Z.eqb n 0 then totalTokens u else totalTokens u + n
                      | None => totalTokens u
                      end;
       cacheHits := cacheHits u;
       averageLatency :=
         ((averageLatency u * inject_Z (totalCalls u - 1) + inject_Z duration)
            / inject_Z (totalCalls u))%Q |} s.

(** What the underlying [generateObject] of the model SDK does when it
    is invoked. *)
Inductive ModelReply :=
| Generated (object : JsValue) (usage_totalTokens : option Z)
| Failed (error : JsError).

(** The clock readings of one call, in program order, and the model. *)
Record Env := {
  t_start : Z;      (* [const start = Date.now()] *)
  t_lookup : Z;     (* [Date.now()] in [getFromCache] *)
  t_done : Z;       (* [Date.now() - start], after the model call or in the handler *)
  t_store : Z;      (* [timestamp: Date.now()] in [setCache] *)
  t_cleanup : Z;    (* [const now = Date.now()] in [cleanupCache] *)
  sdk_generateObject : GenerationParams -> ModelReply
}.

Record Outcome := {
  returned : Result JsValue ResearchError;
  modelCalls : list GenerationParams;   (* invocations of the SDK, in order *)
  after : t
}.

Definition generateObject (params : GenerationParams) (env : Env) (s : t) : Outcome :=
  let u := stats s in
  let s0 := with_stats {| totalCalls := totalCalls u + 1; totalTokens := totalTokens u;
                          cacheHits := cacheHits u; averageLatency := averageLatency u |} s in
  let cacheKey := getCacheKey params in
  let '(cached, s1) := getFromCache cacheKey (t_lookup env) s0 in
  if truthy cached then
    let u1 := stats s1 in
    {| returned := Ok cached;
       modelCalls := [];
       after := with_stats {| totalCalls := totalCalls u1; totalTokens := totalTokens u1;
                              cacheHits := cacheHits u1 + 1;
                              averageLatency := averageLatency u1 |} s1 |}
  else
    match sdk_generateObject env params with
    | Generated object usage =>
        let duration := t_done env - t_start env in
        let s2 := updateStats duration usage s1 in
        let s3 := setCache cacheKey object (5 * 60 * 1000) (t_store env) (t_cleanup env) s2 in
        {| returned := Ok object; modelCalls := [params]; after := s3 |}
    | Failed error =>
        let duration := t_done env - t_start env in
        {| returned := Err (new_AIModelError "Failed to generate object" (Some error));
           modelCalls := [params];
           after := updateStats duration None s1 |}
    end.

Definition getUsageStats (s : t) : UsageStats := stats s.

End BatchedModelProvider.

(** ** CacheService and MultiLevelCache *)

Module CacheService.

(** [interface CacheService]: a tier is a state [S] with these
    operations; [get] answers [None] for [null]. Values are [V]. *)
Class CacheService (V S : Type) := {
  get : string -> S -> option V * S;
  set : string -> V -> option Z -> S -> S;     (* [ttlSeconds?] *)
  delete : string -> S -> S;
  clear : S -> S;
  exists_ : string -> S -> bool * S
}.

Record CacheStats := {
  hits : Z;
  misses : Z;
  hitRate : Q;
  size : Z
}.

End CacheService.

Module MultiLevelCache.
Import CacheService.

Record Counters := { c_hits : Z; c_misses : Z }.

Definition hit (c : Counters) : Counters :=
  {| c_hits := c_hits c + 1; c_misses := c_misses c |}.

Definition miss (c : Counters) : Counters :=
  {| c_hits := c_hits c; c_misses := c_misses c + 1 |}.

Record Stats := { s_l1 : Counters; s_l2 : Counters; s_l3 : Counters }.

(** [l1]: fast, small (memory); [l2]: medium, shared (Redis);
    [l3?]: slow, persistent. *)
Record t (S1 S2 S3 : Type) := {
  l1 : S1;
  l2 : S2;
  l3 : option S3;
  stats : Stats
}.
Arguments l1 {S1 S2 S3} _.
Arguments l2 {S1 S2 S3} _.
Arguments l3 {S1 S2 S3} _.
Arguments stats {S1 S2 S3} _.

Section Tiers.
Context {V S1 S2 S3 : Type}.
Context `{!CacheService V S1, !CacheService V S2, !CacheService V S3}.

Definition create (a : S1) (b : S2) (c : option S3) : t S1 S2 S3 :=
  {| l1 := a; l2 := b; l3 := c;
     stats := {| s_l1 := {| c_hits := 0; c_misses := 0 |};
                 s_l2 := {| c_hits := 0; c_misses := 0 |};
                 s_l3 := {| c_hits := 0; c_misses := 0 |} |} |}.

Definition ml_get (key : string) (c : t S1 S2 S3) : option V * t S1 S2 S3 :=
  let st := stats c in
  let '(value1, a) := get key (l1 c) in
  match value1 with
  | Some v =>
      (Some v, {| l1 := a; l2 := l2 c; l3 := l3 c;
                  stats := {| s_l1 := hit (s_l1 st); s_l2 := s_l2 st; s_l3 := s_l3 st |} |})
  | None =>
      let '(value2, b) := get key (l2 c) in
      match value2 with
      | Some v =>
          (Some v, {| l1 := set key v (Some 300) a; l2 := b; l3 := l3 c;
                      stats := {| s_l1 := miss (s_l1 st); s_l2 := hit (s_l2 st);
                                  s_l3 := s_l3 st |} |})
      | None =>
          match l3 c with
          | Some d =>
              let '(value3, d') := get key d in
              match value3 with
              | Some v =>
                  (Some v, {| l1 := set key v (Some 300) a;
                              l2 := set key v (Some 3600) b;
                              l3 := Some d';
                              stats := {| s_l1 := miss (s_l1 st); s_l2 := miss (s_l2 st);
                                          s_l3 := hit (s_l3 st) |} |})
              | None =>
                  (None, {| l1 := a; l2 := b; l3 := Some d';
                            stats := {| s_l1 := miss (s_l1 st); s_l2 := miss (s_l2 st);
                                        s_l3 := miss (s_l3 st) |} |})
              end
          | None =>
              (None, {| l1 := a; l2 := b; l3 := None;
                        stats := {| s_l1 := miss (s_l1 st); s_l2 := miss (s_l2 st);
                                    s_l3 := s_l3 st |} |})
          end
      end
  end.

(** [set(key, value, ttlSeconds = 3600)] *)
Definition ml_set (key : string) (v : V) (ttl : option Z) (c : t S1 S2 S3) : t S1 S2 S3 :=
  let ttlSeconds := default 3600 ttl in
  {| l1 := set key v (Some (Z.min ttlSeconds 300)) (l1 c);
     l2 := set key v (Some ttlSeconds) (l2 c);
     l3 := match l3 c with
           | Some d => Some (set key v (Some (ttlSeconds * 2)) d)
           | None => None
           end;
     stats := stats c |}.

Definition ml_delete (key : string) (c : t S1 S2 S3) : t S1 S2 S3 :=
  {| l1 := delete key (l1 c);
     l2 := delete key (l2 c);
     l3 := match l3 c with Some d => Some (delete key d) | None => None end;
     stats := stats c |}.

Definition ml_clear (c : t S1 S2 S3) : t S1 S2 S3 :=
  {| l1 := clear (l1 c);
     l2 := clear (l2 c);
     l3 := match l3 c with Some d => Some (clear d) | None => None end;
     stats := stats c |}.

Definition ml_exists (key : string) (c : t S1 S2 S3) : bool * t S1 S2 S3 :=
  let '(e1, a) := exists_ key (l1 c) in
  if e1 then (true, {| l1 := a; l2 := l2 c; l3 := l3 c; stats := stats c |})
  else
    let '(e2, b) := exists_ key (l2 c) in
    if e2 then (true, {| l1 := a; l2 := b; l3 := l3 c; stats := stats c |})
    else
      match l3 c with
      | Some d =>
          let '(e3, d') := exists_ key d in
          (e3, {| l1 := a; l2 := b; l3 := Some d'; stats := stats c |})
      | None => (false, {| l1 := a; l2 := b; l3 := None; stats := stats c |})
      end.

(** [implements CacheService] *)
#[export] Instance MultiLevelCache_CacheService : CacheService V (t S1 S2 S3) :=
  {| get := ml_get; set := ml_set; delete := ml_delete;
     clear := ml_clear; exists_ := ml_exists |}.

Definition calculateStats (c : Counters) : CacheStats :=
  let total := c_hits c + c_misses c in
  {| hits := c_hits c;
     misses := c_misses c;
     hitRate := if total >? 0 then (inject_Z (c_hits c) / inject_Z total)%Q else 0%Q;
     size := -1 |}.

Definition getStats (c : t S1 S2 S3) : CacheStats * CacheStats * option CacheStats :=
  (calculateStats (s_l1 (stats c)),
   calculateStats (s_l2 (stats c)),
   match l3 c with
   | Some _ => Some (calculateStats (s_l3 (stats c)))
   | None => None
   end).

End Tiers.

End MultiLevelCache.

(** ** DefaultSourceEvaluationService *)

Module DefaultSourceEvaluationService.
Import Shared.
Local Open Scope string_scope.
Local Open Scope exc_scope.

Record SourceItem := {
  url : option string;
  title : option string;
  markdown : option string
}.

Record ReliabilityAssessment := {
  score : Q;
  reasoning : string;
  use : bool;
  preferenceReason : option string;
  domain : string
}.

Record SourceEvaluationParams := {
  item : SourceItem;
  query : string;
  sourcePreferences : option string
}.

(** The request handed to the SDK's [generateObject]; the schema is the
    fixed object schema [{score, reasoning, use, preferenceReason?}]. *)
Record GenerateRequest := {
  req_model : string;
  req_system : string;
  req_prompt : string
}.

Record GeneratedObject := {
  o_score : Q;
  o_reasoning : string;
  o_use : bool;
  o_preferenceReason : option string
}.

(** The reply [res]; [res.object] may be missing. *)
Record GenerateReply := { object : option GeneratedObject }.

(** What the service calls and does not define: the URL parser, the
    imports [trimPrompt] and [systemPrompt], and the model SDK. Each
    may throw. *)
Record Capabilities := {
  URL_hostname : string -> Exc string;            (* [new URL(url).hostname] *)
  trimPrompt : string -> Z -> Exc string;
  systemPrompt : unit -> Exc string;
  generateObject : GenerateRequest -> Exc GenerateReply
}.

Definition nl : string := String (ascii_of_nat 10) "".
Definition dq : string := String (ascii_of_nat 34) "".

(** Strings hold UTF-8 text. [after_whitespace s] is the rest of [s]
    behind one leading character that [String.prototype.trim] strips
    (white space or a line terminator), if [s] starts with one:
    U+0009..U+000D and U+0020 (one byte); U+00A0 (C2 A0);
    U+1680 (E1 9A 80); U+2000..U+200A, U+2028, U+2029, U+202F
    (E2 80 80..8A, A8, A9, AF); U+205F (E2 81 9F); U+3000 (E3 80 80);
    U+FEFF (EF BB BF). *)
Definition after_whitespace (s : string) : option string :=
  match s with
  | EmptyString => None
  | String a r1 =>
      let a := N_of_ascii a in
      if ((a =? 32) || (9 <=? a) && (a <=? 13))%N then Some r1
      else
        match r1 with
        | EmptyString => None
        | String b r2 =>
            let b := N_of_ascii b in
            if ((a =? 194) && (b =? 160))%N then Some r2
            else
              match r2 with
              | EmptyString => None
              | String c r3 =>
                  let c := N_of_ascii c in
                  if ((a =? 225) && (b =? 154) && (c =? 128)
                      || (a =? 226) && (b =? 128)
                         && ((128 <=? c) && (c <=? 138)
                             || (c =? 168) || (c =? 169) || (c =? 175))
                      || (a =? 226) && (b =? 129) && (c =? 159)
                      || (a =? 227) && (b =? 128) && (c =? 128)
                      || (a =? 239) && (b =? 187) && (c =? 191))%N
                  then Some r3
                  else None
              end
        end
  end.

(** Leading white space removed; every step consumes at least one
    byte, so [fuel = length s] is enough. *)
Fixpoint trim_start_within (fuel : nat) (s : string) : string :=
  match fuel with
  | O => s
  | S fuel' =>
      match after_whitespace s with
      | Some rest => trim_start_within fuel' rest
      | None => s
      end
  end.

Definition trim_start (s : string) : string :=
  trim_start_within (String.length s) s.

(** [s.trim().length > 0]: some character is not white space. *)
Definition trimmed_nonempty (s : string) : bool :=
  negb (String.eqb (trim_start s) "").

Definition prefBlock (sourcePreferences : option string) : string :=
  match sourcePreferences with
  | Some p =>
      if negb (String.eqb p "") && trimmed_nonempty p
      then "User preferences to avoid (apply holistically, not via keywords):" ++ nl
           ++ "<preferences>" ++ p ++ "</preferences>" ++ nl ++ nl
           ++ "Also return whether this source should be USED given these preferences."
      else "No special user preferences provided."
  | None => "No special user preferences provided."
  end.

Definition evaluationPrompt (prefs query url domain title contentSnippet : string) : string :=
  "Evaluate the reliability and suitability of this source for the research query. "
  ++ "Provide a reliability score and a brief reasoning. "
  ++ "If user preferences are provided, judge suitability holistically against them."
  ++ nl ++ nl ++ prefs ++ nl ++ nl
  ++ "Research query:" ++ nl ++ "<query>" ++ query ++ "</query>" ++ nl ++ nl
  ++ "Source:" ++ nl
  ++ "- URL: " ++ url ++ nl
  ++ "- Domain: " ++ domain ++ nl
  ++ "- Title: " ++ title ++ nl
  ++ "- Content (truncated):" ++ nl
  ++ dq ++ dq ++ dq ++ nl ++ contentSnippet ++ nl ++ dq ++ dq ++ dq ++ nl ++ nl
  ++ "Return JSON: { " ++ dq ++ "score" ++ dq ++ ": number (0..1), "
  ++ dq ++ "reasoning" ++ dq ++ ": string, "
  ++ dq ++ "use" ++ dq ++ ": boolean, "
  ++ dq ++ "preferenceReason" ++ dq ++ "?: string }".

Definition TypeError_object_undefined : JsError :=
  {| js_name := "TypeError";
     js_message := "Cannot read properties of undefined (reading 'score')" |}.

Definition evaluateReliability (cap : Capabilities) (params : SourceEvaluationParams)
           (model : string) : Exc (Result ReliabilityAssessment ResearchError) :=
  try_catch
    (let url := default "" (url (item params)) in
     let title := default "" (title (item params)) in
     let! domain :=
        try_catch (if String.eqb url "" then Return "" else URL_hostname cap url)
                  (fun _ => Return "") in
     let! contentSnippet := trimPrompt cap (default "" (markdown (item params))) 4000 in
     let prefs := prefBlock (sourcePreferences params) in
     let! sys := systemPrompt cap tt in
     let! res := generateObject cap
                   {| req_model := model; req_system := sys;
                      req_prompt := evaluationPrompt prefs (query params) url domain
                                                     title contentSnippet |} in
     match object res with
     | None => Throw TypeError_object_undefined
     | Some o =>
         Return (Ok {| score := o_score o;
                       reasoning := o_reasoning o;
                       use := o_use o;
                       preferenceReason := o_preferenceReason o;
                       domain := domain |})
     end)
    (fun error =>
       Return (Err (new_AIModelError "Failed to evaluate source reliability" (Some error)))).

End DefaultSourceEvaluationService.

(** ** Research service: types and DefaultResearchService *)

Module ResearchTypes.

Record ResearchParams := {
  query : string;
  depth : Z;
  breadth : Z;
  tokenBudget : option Z;
  sourcePreferences : option string
}.

Record ResearchDirection := {
  question : string;
  priority : Z;
  parentGoal : option string
}.

Record SourceMetadata := {
  url : string;
  title : string;
  domain : string;
  reliabilityScore : Q;
  reliabilityReasoning : string
}.

Record LearningWithReliability := {
  content : string;
  reliability : Q
}.

Record SearchQuery := {
  sq_query : string;
  sq_limit : option Z
}.

Record SearchOptions := {
  timeout : Z;
  limit : Z
}.

Record SearchResult := {
  data : list DefaultSourceEvaluationService.SourceItem;
  success : bool
}.

End ResearchTypes.

Module ResearchContext.
Import ResearchTypes.

Record t := {
  learnings : list string;
  learningReliabilities : list Q;
  visitedUrls : list string;
  researchDirections : list ResearchDirection
}.

End ResearchContext.

Module ResearchResult.
Import ResearchTypes.

Record t := {
  learnings : list string;
  learningReliabilities : list Q;
  visitedUrls : list string;
  sourceMetadata : list SourceMetadata;
  weightedLearnings : list LearningWithReliability
}.

End ResearchResult.

Module DefaultResearchService.
Import Shared ResearchTypes.
Local Open Scope exc_scope.

Record QueryGenerationContext := {
  g_query : string;
  g_context : ResearchContext.t;
  g_breadth : Z;
  g_sourcePreferences : option string
}.

(** The value [processSearchResults] resolves to. *)
Record Processed := {
  newLearnings : list string;
  newReliabilities : list Q;
  newUrls : list string;
  p_sourceMetadata : list SourceMetadata;
  followUpDirections : list ResearchDirection
}.

Record Config := {
  maxConcurrency : Z;
  defaultTimeout : Z
}.

(** [x || d] on a number that may be [undefined]: 0 is falsy. *)
Definition number_or (x : option Q) (d : Q) : Q :=
  match x with
  | Some q => if Qeq_bool q 0 then d else q
  | None => d
  end.

(** [learnings.map((learning, i) => ({content: learning,
      reliability: learningReliabilities[i] || 0.5}))] *)
Definition weighted (learnings : list string) (learningReliabilities : list Q)
  : list LearningWithReliability :=
  imap (fun i learning =>
          {| content := learning;
             reliability := number_or (learningReliabilities !! i) (1 # 2) |})
       learnings.

(** The body of [processSearchResults] as the source has it, marked
    there as a placeholder: it reports nothing. *)
Definition processSearchResults (searchResults : list SearchResult)
           (params : ResearchParams) (correlationId : string) : Processed :=
  {| newLearnings := []; newReliabilities := []; newUrls := [];
     p_sourceMetadata := []; followUpDirections := [] |}.

Definition thrown (e : ResearchError) : JsError :=
  {| js_name := name e; js_message := message e |}.

(** Evaluating an identifier that no declaration or import binds. *)
Definition ReferenceError_pLimit : JsError :=
  {| js_name := "ReferenceError"; js_message := "pLimit is not defined" |}.

Definition pLimit_not_defined (concurrency : Z) : Exc unit :=
  Throw ReferenceError_pLimit.

Section Service.

(** The constructor's dependencies. [modelProvider_generateQueries]
    stands for the [modelProvider.generateObject] call inside
    [generateQueries], whose arguments the source elides;
    [process] is the processing step of a level (in the source the
    placeholder [processSearchResults] above).

    [pLimit] is what the module scope makes of the call
    [pLimit(this.config.maxConcurrency)] in [executeSearches]. The
    identifier is free in the file: its imports (lines 957-968) bind
    [Result], [Ok], [Err], [ResearchError], [logger] and types only,
    so in the file as written the call throws a [ReferenceError]
    ([pLimit_not_defined] above). Bound to the p-limit package it
    throws a [TypeError] unless the concurrency is a positive integer,
    and otherwise returns a limiter; [limit(task)] bounds how many
    tasks run at once and resolves to what [task] resolves to. *)
Variable searchClient_search :
  string -> SearchOptions -> Exc (Result SearchResult ResearchError).
Variable modelProvider_generateQueries :
  QueryGenerationContext -> Exc (list SearchQuery).
Variable pLimit : Z -> Exc unit.
Variable process : list SearchResult -> ResearchParams -> string -> Processed.
Variable config : Config.

Definition generateQueries (context : QueryGenerationContext)
  : Result (list SearchQuery) ResearchError :=
  match modelProvider_generateQueries context with
  | Return result => Ok result
  | Throw error => Err (new_ResearchError "Query generation failed" (Some error))
  end.

(** [Promise.all(queries.map(query => limit(async () => ...)))]: a
    failed search becomes [{data: [], success: false}], a rejected one
    rejects the whole. *)
Fixpoint searchAll (queries : list SearchQuery) (correlationId : string)
  : Exc (list SearchResult) :=
  match queries with
  | [] => Return []
  | q :: rest =>
      let! result := searchClient_search (sq_query q)
                       {| timeout := defaultTimeout config;
                          limit := match sq_limit q with
                                   | Some n => if Z.eqb n 0 then 5 else n
                                   | None => 5
                                   end |} in
      let r := match result with
               | Ok d => d
               | Err _ => {| data := []; success := false |}
               end in
      let! others := searchAll rest correlationId in
      Return (r :: others)
  end.

(** [executeSearches]: the limiter is made first, before any search
    is started. *)
Definition executeSearches (queries : list SearchQuery) (correlationId : string)
  : Exc (list SearchResult) :=
  let! limit := pLimit (maxConcurrency config) in
  searchAll queries correlationId.

(** [executeResearchDepth] by the number of levels still to run:
    [levels = 0] is [remainingDepth <= 0], and the recursive call is
    taken when [remainingDepth > 1]. *)
Fixpoint executeResearchLevels (levels : nat) (params : ResearchParams)
         (context : ResearchContext.t) (correlationId : string)
  : Exc ResearchResult.t :=
  match levels with
  | O =>
      Return {| ResearchResult.learnings := ResearchContext.learnings context;
                ResearchResult.learningReliabilities :=
                  ResearchContext.learningReliabilities context;
                ResearchResult.visitedUrls := ResearchContext.visitedUrls context;
                ResearchResult.sourceMetadata := [];
                ResearchResult.weightedLearnings :=
                  weighted (ResearchContext.learnings context)
                           (ResearchContext.learningReliabilities context) |}
  | S remaining =>
      let queriesResult :=
        generateQueries {| g_query := query params; g_context := context;
                           g_breadth := breadth params;
                           g_sourcePreferences := sourcePreferences params |} in
      match queriesResult with
      | Err error => Throw (thrown error)
      | Ok queries =>
          let! searchResults := executeSearches queries correlationId in
          let processedResults := process searchResults params correlationId in
          let updatedContext :=
            {| ResearchContext.learnings :=
                 ResearchContext.learnings context ++ newLearnings processedResults;
               ResearchContext.learningReliabilities :=
                 ResearchContext.learningReliabilities context
                   ++ newReliabilities processedResults;
               ResearchContext.visitedUrls :=
                 ResearchContext.visitedUrls context ++ newUrls processedResults;
               ResearchContext.researchDirections :=
                 followUpDirections processedResults |} in
          match remaining with
          | S _ => executeResearchLevels remaining params updatedContext correlationId
          | O =>
              Return {| ResearchResult.learnings :=
                          ResearchContext.learnings updatedContext;
                        ResearchResult.learningReliabilities :=
                          ResearchContext.learningReliabilities updatedContext;
                        ResearchResult.visitedUrls :=
                          ResearchContext.visitedUrls updatedContext;
                        ResearchResult.sourceMetadata :=
                          p_sourceMetadata processedResults;
                        ResearchResult.weightedLearnings :=
                          weighted (ResearchContext.learnings updatedContext)
                                   (ResearchContext.learningReliabilities updatedContext) |}
          end
      end
  end.

Definition executeResearchDepth (params : ResearchParams) (context : ResearchContext.t)
           (remainingDepth : Z) (correlationId : string) : Exc ResearchResult.t :=
  executeResearchLevels (Z.to_nat remainingDepth) params context correlationId.

Definition conductResearch (params : ResearchParams) (correlationId : string)
  : Result ResearchResult.t ResearchError :=
  let context := {| ResearchContext.learnings := [];
                    ResearchContext.learningReliabilities := [];
                    ResearchContext.visitedUrls := [];
                    ResearchContext.researchDirections := [] |} in
  match executeResearchDepth params context (depth params) correlationId with
  | Return result => Ok result
  | Throw error => Err (new_ResearchError "Research execution failed" (Some error))
  end.

End Service.

End DefaultResearchService.

(** ** MCP server: tool schemas and handlers *)

Module McpServer.
Import Shared ResearchTypes.

(** The result of a JavaScript division of a finite number by an array
    length: finite, or NaN / an infinity when the length is 0. *)
Inductive JsNumber :=
| Finite (q : Q)
| NaN
| PlusInfinity
| MinusInfinity.

Definition divide (a : Q) (n : nat) : JsNumber :=
  match n with
  | O => if Qeq_bool a 0 then NaN
         else if Qle_bool 0 a then PlusInfinity else MinusInfinity
  | S _ => Finite (a / inject_Z (Z.of_nat n))
  end.

Definition times (x : JsNumber) (k : Q) : JsNumber :=
  match x with
  | Finite q => Finite (q * k)
  | other => other
  end.

(** [weightedLearnings.reduce((acc, curr) => acc + curr.reliability, 0)] *)
Definition sum_reliability (weightedLearnings : list LearningWithReliability) : Q :=
  fold_left (fun acc curr => (acc + reliability curr)%Q) weightedLearnings 0%Q.

(** The two versions of the server file. *)
Inductive Variant :=
| Current    (* the server with logging, connection monitoring and the NaN fix *)
| Earlier.   (* the server without them *)

(** [weightedLearnings.length > 0 ? sum / length : 0] in the current
    server, [sum / length] in the earlier one. *)
Definition averageReliability (variant : Variant)
           (weightedLearnings : list LearningWithReliability) : JsNumber :=
  match variant with
  | Current =>
      if Nat.ltb 0 (length weightedLearnings)
      then divide (sum_reliability weightedLearnings) (length weightedLearnings)
      else Finite 0
  | Earlier =>
      divide (sum_reliability weightedLearnings) (length weightedLearnings)
  end.

(** *** Tool schemas (zod) *)

Inductive ZodIssue :=
| invalid_type (path : string)
| too_small (path : string)
| too_big (path : string).

(** [z.string().min(1)] *)
Definition z_string_min1 (path : string) (v : option JsValue) : Result string ZodIssue :=
  match v with
  | Some (JStr s) => if Nat.ltb (String.length s) 1 then Err (too_small path) else Ok s
  | _ => Err (invalid_type path)
  end.

(** [z.number().min(lo).max(hi)]: both bounds inclusive. *)
Definition z_number_min_max (lo hi : Q) (path : string) (v : option JsValue)
  : Result Q ZodIssue :=
  match v with
  | Some (JNum q) =>
      if negb (Qle_bool lo q) then Err (too_small path)
      else if negb (Qle_bool q hi) then Err (too_big path)
      else Ok q
  | _ => Err (invalid_type path)
  end.

(** [z.string().optional()] *)
Definition z_string_optional (path : string) (v : option JsValue)
  : Result (option string) ZodIssue :=
  match v with
  | None => Ok None
  | Some (JStr s) => Ok (Some s)
  | Some _ => Err (invalid_type path)
  end.

(** [z.number().optional()] *)
Definition z_number_optional (path : string) (v : option JsValue)
  : Result (option Q) ZodIssue :=
  match v with
  | None => Ok None
  | Some (JNum q) => Ok (Some q)
  | Some _ => Err (invalid_type path)
  end.

Record ResearchArguments := {
  query : string;
  depth : Q;
  breadth : Q;
  model : option string;
  tokenBudget : option Q;
  sourcePreferences : option string
}.

Definition issue_of {T} (r : Result T ZodIssue) : list ZodIssue :=
  match r with
  | Ok _ => []
  | Err i => [i]
  end.

(** The shape declared by both [deep-research] and [research-sources],
    in both server variants, applied to the call's [arguments]. *)
Definition researchToolSchema (arguments : gmap string JsValue)
  : Result ResearchArguments (list ZodIssue) :=
  let q := z_string_min1 "query" (arguments !! "query") in
  let d := z_number_min_max 1 5 "depth" (arguments !! "depth") in
  let b := z_number_min_max 1 5 "breadth" (arguments !! "breadth") in
  let m := z_string_optional "model" (arguments !! "model") in
  let t := z_number_optional "tokenBudget" (arguments !! "tokenBudget") in
  let p := z_string_optional "sourcePreferences" (arguments !! "sourcePreferences") in
  match q, d, b, m, t, p with
  | Ok q', Ok d', Ok b', Ok m', Ok t', Ok p' =>
      Ok {| query := q'; depth := d'; breadth := b'; model := m';
            tokenBudget := t'; sourcePreferences := p' |}
  | _, _, _, _, _, _ =>
      Err (issue_of q ++ issue_of d ++ issue_of b ++ issue_of m
             ++ issue_of t ++ issue_of p)
  end.

(** *** Handlers *)

(** What the handlers import and call: [getModel] (./ai/providers.js),
    [deepResearch] and [writeFinalReport] (./deep-research.js). *)
Record Imports := {
  getModel : option string -> Exc string;
  deepResearch : ResearchArguments -> string -> Exc ResearchResult.t;
  writeFinalReport : string -> ResearchResult.t -> string -> Exc string
}.

Inductive ExternalCall :=
| GetModel (modelSpec : option string)
| DeepResearch (arguments : ResearchArguments)
| WriteFinalReport (prompt : string).

(** The percentage printed in the text of [research-sources]:
    the literal ['0'] or [(average * 100).toFixed(1)]. *)
Inductive Percentage :=
| Zero
| ToFixed1 (n : JsNumber).

Record ResearchCoverage := {
  total_sources : nat;
  average_reliability : JsNumber;
  high_reliability_sources : nat;
  visited_urls : list string
}.

Record ReportStats := {
  totalLearnings : nat;
  totalSources : nat;
  stats_averageReliability : JsNumber
}.

Inductive ToolResponse :=
| ResearchData (found : nat) (printed : Percentage) (research_coverage : ResearchCoverage)
| Report (report : string) (stats : ReportStats)
| IsError (errorMsg : string).

Definition research_coverage_of (variant : Variant) (result : ResearchResult.t)
  : ResearchCoverage :=
  {| total_sources := length (ResearchResult.visitedUrls result);
     average_reliability :=
       averageReliability variant (ResearchResult.weightedLearnings result);
     high_reliability_sources :=
       length (filter (fun s => Qle_bool (7 # 10) (reliabilityScore s) = true)
                      (ResearchResult.sourceMetadata result));
     visited_urls := ResearchResult.visitedUrls result |}.

Definition printed_average (variant : Variant) (result : ResearchResult.t)
           (coverage : ResearchCoverage) : Percentage :=
  match variant with
  | Current =>
      if Nat.ltb 0 (length (ResearchResult.visitedUrls result))
      then ToFixed1 (times (average_reliability coverage) 100)
      else Zero
  | Earlier => ToFixed1 (times (average_reliability coverage) 100)
  end.

(** The [research-sources] callback; progress notifications are left
    out, and of the error text only [errorMsg] is kept. *)
Definition research_sources (variant : Variant) (imports : Imports)
           (a : ResearchArguments) : ToolResponse * list ExternalCall :=
  match getModel imports (model a) with
  | Throw error => (IsError (js_message error), [GetModel (model a)])
  | Return m =>
      match deepResearch imports a m with
      | Throw error =>
          (IsError (js_message error), [GetModel (model a); DeepResearch a])
      | Return result =>
          let coverage := research_coverage_of variant result in
          (ResearchData (length (ResearchResult.visitedUrls result))
                        (printed_average variant result coverage) coverage,
           [GetModel (model a); DeepResearch a])
      end
  end.

(** The [deep-research] callback (legacy report). *)
Definition deep_research (variant : Variant) (imports : Imports)
           (a : ResearchArguments) : ToolResponse * list ExternalCall :=
  match getModel imports (model a) with
  | Throw error => (IsError (js_message error), [GetModel (model a)])
  | Return m =>
      match deepResearch imports a m with
      | Throw error =>
          (IsError (js_message error), [GetModel (model a); DeepResearch a])
      | Return result =>
          match writeFinalReport imports (query a) result m with
          | Throw error =>
              (IsError (js_message error),
               [GetModel (model a); DeepResearch a; WriteFinalReport (query a)])
          | Return report =>
              (Report report
                      {| totalLearnings := length (ResearchResult.learnings result);
                         totalSources := length (ResearchResult.visitedUrls result);
                         stats_averageReliability :=
                           averageReliability variant
                             (ResearchResult.weightedLearnings result) |},
               [GetModel (model a); DeepResearch a; WriteFinalReport (query a)])
          end
      end
  end.

Inductive Tool :=
| tool_deep_research
| tool_research_sources.

Inductive CallResult :=
| InvalidParams (issues : list ZodIssue)
| Responded (response : ToolResponse).

(** A [tools/call] request as [McpServer] serves it: the arguments are
    parsed against the tool's declared schema, and the callback runs
    only on the parsed arguments. *)
Definition callTool (variant : Variant) (imports : Imports) (tool : Tool)
           (arguments : gmap string JsValue) : CallResult * list ExternalCall :=
  match researchToolSchema arguments with
  | Err issues => (InvalidParams issues, [])
  | Ok a =>
      let '(response, calls) :=
        match tool with
        | tool_deep_research => deep_research variant imports a
        | tool_research_sources => research_sources variant imports a
        end in
      (Responded response, calls)
  end.

End McpServer.

(** ** StreamingContentProcessor *)

Module StreamingContentProcessor.

(** A JavaScript string as its sequence of UTF-16 code units, which is
    what [length], [slice], [lastIndexOf] and [split] count. *)
Abbreviation JsString := (list N).

Definition units (s : string) : JsString :=
  map N_of_ascii (list_ascii_of_string s).

Definition SPACE : N := 32.
Definition DOT : N := 46.
Definition NEWLINE : N := 10.

(** White space and line terminators: what [trim] strips and [\s] matches. *)
Definition is_space (c : N) : bool :=
  ((9 <=? c) && (c <=? 13) || (c =? 32) || (c =? 160) || (c =? 5760)
   || (8192 <=? c) && (c <=? 8202) || (c =? 8232) || (c =? 8233)
   || (c =? 8239) || (c =? 8287) || (c =? 12288) || (c =? 65279))%N.

Fixpoint trimStart (s : JsString) : JsString :=
  match s with
  | c :: rest => if is_space c then trimStart rest else s
  | [] => []
  end.

Definition trimEnd (s : JsString) : JsString := rev (trimStart (rev s)).

Definition trim (s : JsString) : JsString := trimEnd (trimStart s).

(** [s.slice(from, to)] for [0 <= from], [0 <= to]. *)
Definition slice (from to : nat) (s : JsString) : JsString :=
  take (to - from) (drop from s).

Fixpoint lastIndexOf_go (c : N) (s : JsString) (i n : nat) (best : option nat)
  : option nat :=
  match n, s with
  | S n', x :: rest =>
      lastIndexOf_go c rest (S i) n' (if N.eqb x c then Some i else best)
  | _, _ => best
  end.

(** [s.lastIndexOf(c, fromIndex)]: the largest index [<= fromIndex]
    holding [c]; [None] for -1. *)
Definition lastIndexOf (c : N) (s : JsString) (fromIndex : nat) : option nat :=
  lastIndexOf_go c s 0 (S fromIndex) None.

(** [s.split(sep)] on a one-unit separator: the pieces between its
    occurrences (always at least one piece). *)
Fixpoint split_on (sep : N) (s : JsString) : list JsString :=
  match s with
  | [] => [[]]
  | c :: rest =>
      if N.eqb c sep then [] :: split_on sep rest
      else match split_on sep rest with
           | piece :: pieces => (c :: piece) :: pieces
           | [] => [[c]]
           end
  end.

(** [s.split(/\s+/)]: the pieces between maximal runs of white space. *)
Fixpoint split_spaces (s : JsString) : list JsString :=
  match s with
  | [] => [[]]
  | c :: rest =>
      if is_space c
      then match rest with
           | d :: _ => if is_space d then split_spaces rest else [] :: split_spaces rest
           | [] => [[]; []]
           end
      else match split_spaces rest with
           | piece :: pieces => (c :: piece) :: pieces
           | [] => [[c]]
           end
  end.

Definition maxChunkSize : nat := N.to_nat 5000.
Definition maxTotalSize : nat := N.to_nat 100000.

Record ChunkMetadata := {
  url : JsString;
  chunkIndex : nat;
  totalChunks : nat;
  wordCount : nat
}.

Record ContentChunk := {
  id : JsString;
  content : JsString;
  metadata : ChunkMetadata
}.

Record ProcessedContent := {
  summary : JsString;
  keyPoints : list JsString;
  p_wordCount : nat;
  chunks : list ContentChunk
}.

(** [text.trim().split(/\s+/).length] *)
Definition countWords (text : JsString) : nat :=
  length (split_spaces (trim text)).

(** The loop of [createChunks] for a chunk size [size]; [fuel] bounds
    the number of iterations, and [length content] iterations always
    suffice since every iteration advances [currentIndex]. *)
Fixpoint createChunks_loop (size fuel : nat) (content : JsString)
         (currentIndex : nat) (chunks : list JsString) : list JsString :=
  match fuel with
  | O => chunks
  | S fuel' =>
      if Nat.ltb currentIndex (length content) then
        let chunkEnd := Nat.min (currentIndex + size) (length content) in
        let actualEnd :=
          if Nat.ltb chunkEnd (length content) then
            match lastIndexOf SPACE content chunkEnd with
            | Some lastSpace =>
                if Nat.ltb currentIndex lastSpace then lastSpace else chunkEnd
            | None => chunkEnd
            end
          else chunkEnd in
        createChunks_loop size fuel' content actualEnd
                          (chunks ++ [slice currentIndex actualEnd content])
      else chunks
  end.

Definition createChunksOf (size : nat) (content : JsString) : list JsString :=
  createChunks_loop size (length content) content 0 [].

Definition createChunks (url content : JsString) : list JsString :=
  createChunksOf maxChunkSize content.

(** Decimal digits of a number, as in a template literal. *)
Fixpoint digits_go (fuel n : nat) (acc : JsString) : JsString :=
  match fuel with
  | O => acc
  | S fuel' =>
      let acc' := (48 + N.of_nat (n mod 10))%N :: acc in
      if Nat.ltb n 10 then acc' else digits_go fuel' (n / 10) acc'
  end.

Definition digits (n : nat) : JsString := digits_go (S n) n [].

(** [processChunk(chunk, {url, chunkIndex, totalChunks})] *)
Definition processChunk (chunk url : JsString) (index total : nat) : ContentChunk :=
  {| id := url ++ units "_chunk_" ++ digits index;
     content := trim chunk;
     metadata := {| url := url; chunkIndex := index; totalChunks := total;
                    wordCount := countWords chunk |} |}.

(** The first sentence of each chunk, at most three, joined by spaces. *)
Definition firstSentence (chunk : ContentChunk) : JsString :=
  match split_on DOT (content chunk) with
  | [] => []
  | first :: _ =>
      match first with
      | [] => []
      | _ => trim first ++ [DOT]
      end
  end.

Fixpoint join (sep : JsString) (parts : list JsString) : JsString :=
  match parts with
  | [] => []
  | [p] => p
  | p :: rest => p ++ sep ++ join sep rest
  end.

Definition nonempty (s : JsString) : bool :=
  match s with [] => false | _ => true end.

Definition generateSummary (chunks : list ContentChunk) : JsString :=
  join [SPACE] (take 3 (List.filter nonempty (map firstSentence chunks))).

(** [/^[-*•]\s+/] *)
Definition bullet_line (line : JsString) : bool :=
  match line with
  | c :: w :: _ => (((c =? 45) || (c =? 42) || (c =? 8226))%N && is_space w)%bool
  | _ => false
  end.

Definition is_digit (c : N) : bool := ((48 <=? c) && (c <=? 57))%N.

Fixpoint after_digits (line : JsString) : JsString :=
  match line with
  | c :: rest => if is_digit c then after_digits rest else line
  | [] => []
  end.

(** [/^\d+\.\s+/] *)
Definition numbered_line (line : JsString) : bool :=
  match line with
  | c :: rest =>
      (is_digit c &&
       match after_digits rest with
       | d :: w :: _ => ((d =? DOT)%N && is_space w)%bool
       | _ => false
       end)%bool
  | [] => false
  end.

Definition keyPointsOf (chunk : ContentChunk) : list JsString :=
  List.filter (fun trimmed => (bullet_line trimmed || numbered_line trimmed)%bool)
              (map trim (split_on NEWLINE (content chunk))).

Definition extractKeyPoints (chunks : list ContentChunk) : list JsString :=
  take 10 (concat (map keyPointsOf chunks)).

(** [processContent(url, content)]; every [processChunk] succeeds, so
    all chunks are kept. *)
Definition processContent (url content : JsString) : ProcessedContent :=
  let truncatedContent :=
    if Nat.ltb maxTotalSize (length content) then slice 0 maxTotalSize content
    else content in
  let raw := createChunks url truncatedContent in
  let successfulChunks :=
    imap (fun index chunk => processChunk chunk url index (length raw)) raw in
  {| summary := generateSummary successfulChunks;
     keyPoints := extractKeyPoints successfulChunks;
     p_wordCount := countWords truncatedContent;
     chunks := successfulChunks |}.

End StreamingContentProcessor.

(** ** FirecrawlSearchClient *)

Module FirecrawlSearchClient.
Import Shared.

Record SearchItem := {
  url : option string;
  title : option string;
  markdown : option string;
  publishDate : option string
}.

Record SearchOptions := {
  timeout : option Z;
  limit : option Z;
  scrapeOptions : option (list string)   (* [formats] *)
}.

Record SearchResult := {
  data : list SearchItem;
  success : bool;
  total : option nat
}.

(** What the Firecrawl SDK's [search] resolves to, and its arguments. *)
Record SdkResult := {
  sdk_data : option (list SearchItem);
  sdk_success : bool
}.

Record SdkOptions := {
  sdk_timeout : Z;
  sdk_limit : Z;
  sdk_formats : list string
}.

Record Config := {
  apiKey : option string;
  baseUrl : option string;
  cfg_timeout : Z
}.

Record t := {
  config : Config;
  requestCount : Z;
  lastRequestTime : Z
}.

Definition create (cfg : Config) : t :=
  {| config := cfg; requestCount := 0; lastRequestTime := 0 |}.

(** [x || d] on an optional number. *)
Definition number_or (x : option Z) (d : Z) : Z :=
  match x with
  | Some n => if Z.eqb n 0 then d else n
  | None => d
  end.

(** [enforceRateLimit]: the delay waited for, 0 for none. *)
Definition enforceRateLimit (now : Z) (s : t) : Z :=
  let minInterval := 100 in
  let timeSinceLastRequest := now - lastRequestTime s in
  if timeSinceLastRequest <? minInterval then minInterval - timeSinceLastRequest else 0.

(** The clock readings and the SDK for one [search]. *)
Record Env := {
  t_rate : Z;      (* [Date.now()] in [enforceRateLimit] *)
  t_done : Z;      (* [this.lastRequestTime = Date.now()] *)
  client_search : string -> SdkOptions -> Exc SdkResult
}.

Record Outcome := {
  returned : Result SearchResult ResearchError;
  waited : Z;
  after : t
}.

Definition search (query : string) (options : SearchOptions) (env : Env) (s : t)
  : Outcome :=
  let s1 := {| config := config s; requestCount := requestCount s + 1;
               lastRequestTime := lastRequestTime s |} in
  let delay := enforceRateLimit (t_rate env) s1 in
  match client_search env query
          {| sdk_timeout := number_or (timeout options) (cfg_timeout (config s));
             sdk_limit := number_or (limit options) 5;
             sdk_formats := default ["markdown"%string] (scrapeOptions options) |} with
  | Return result =>
      {| returned := Ok {| data := default [] (sdk_data result);
                           success := sdk_success result;
                           total := length <$> sdk_data result |};
         waited := delay;
         after := {| config := config s1; requestCount := requestCount s1;
                     lastRequestTime := t_done env |} |}
  | Throw error =>
      {| returned := Err (new_SearchError ("Search failed for query: " +:+ query)
                                          (Some error));
         waited := delay;
         after := s1 |}
  end.

(** [healthCheck]: [search] resolves to a [Result], whose [success]
    field is what is returned; [search] never rejects. *)
Definition healthCheck (env : Env) (s : t) : Result bool ResearchError * t :=
  let o := search "test" {| timeout := Some 5000; limit := Some 1;
                            scrapeOptions := None |} env s in
  (Ok (isOk (returned o)), after o).

End FirecrawlSearchClient.

(** ** PooledSearchClient *)

Module PooledSearchClient.
Import Shared.

(** A client is known by the rank of the [factory()] call that made
    it; a waiting [acquireClient] call by its caller. *)
Record t := {
  pool : list nat;
  available : list nat;
  waiting : list nat;
  activeConnections : Z
}.

(** The constructor with [initializePool]. *)
Definition create (poolSize : nat) : t :=
  {| pool := seq 0 poolSize; available := seq 0 poolSize;
     waiting := []; activeConnections := 0 |}.

(** [acquireClient]: the client handed out at once, or [None] when the
    caller was queued. [pop] takes the last available client. *)
Definition acquireClient (caller : nat) (s : t) : option nat * t :=
  match last (available s) with
  | Some client =>
      (Some client,
       {| pool := pool s; available := removelast (available s);
          waiting := waiting s; activeConnections := activeConnections s + 1 |})
  | None =>
      (None,
       {| pool := pool s; available := available s;
          waiting := waiting s ++ [caller];
          activeConnections := activeConnections s |})
  end.

(** [releaseClient]: the waiting caller the client was handed to
    ([shift] takes the first), or [None] when it went back to
    [available]. *)
Definition releaseClient (client : nat) (s : t) : option nat * t :=
  let active := activeConnections s - 1 in
  match waiting s with
  | waiter :: others =>
      (Some waiter,
       {| pool := pool s; available := available s; waiting := others;
          activeConnections := active + 1 |})
  | [] =>
      (None,
       {| pool := pool s; available := available s ++ [client]; waiting := [];
          activeConnections := active |})
  end.

Definition healthCheck (client_healthCheck : nat -> Result bool ResearchError) (s : t)
  : Result bool ResearchError :=
  if (Nat.eqb (length (available s)) 0 && Z.eqb (activeConnections s) 0)%bool
  then Err (new_SearchError "No clients available" None)
  else match available s with
       | client :: _ => client_healthCheck client
       | [] => Ok true
       end.

End PooledSearchClient.

(** ** ErrorGuidance *)

Module ErrorGuidance.
Local Open Scope string_scope.

Record Guidance := {
  description : string;
  debugSteps : list string;
  logOperations : list string
}.

Definition dq : string := String (ascii_of_nat 34) "".

(** [ERROR_GUIDANCE], in the order of its keys. *)
Definition ERROR_GUIDANCE : list (string * Guidance) :=
  [ ("Failed to evaluate source reliability",
     {| description := "AI model failed during source evaluation";
        debugSteps :=
          [ "Check debug-logs with type=" ++ dq ++ "errors" ++ dq ++ " for AI model errors";
            "Verify API keys are set correctly";
            "Check if rate limits were exceeded";
            "Look for network connectivity issues" ];
        logOperations := ["source_evaluation"; "ai_model_call"] |});
    ("Firecrawl search failed",
     {| description := "External search service error";
        debugSteps :=
          [ "Check debug-logs with operation=" ++ dq ++ "firecrawl_search" ++ dq;
            "Verify local Firecrawl instance is running on localhost:3002";
            "If local fails, check cloud API credits and quota";
            "Verify FIRECRAWL_KEY is valid for cloud fallback" ];
        logOperations := ["firecrawl_search"] |});
    ("credits exhausted",
     {| description := "Firecrawl cloud API credits depleted";
        debugSteps :=
          [ "Start local Firecrawl instance: docker-compose up firecrawl";
            "Check debug-logs for local connection attempts";
            "Add credits to Firecrawl cloud account";
            "Verify FIRECRAWL_BASE_URL points to local instance" ];
        logOperations := ["firecrawl_search"] |});
    ("Query execution error",
     {| description := "Error during search query processing";
        debugSteps :=
          [ "Check debug-logs with operation=" ++ dq ++ "query_execution" ++ dq;
            "Look for timeout errors in recent logs";
            "Check concurrent request limits";
            "Verify search API quotas" ];
        logOperations := ["query_execution"; "serp_processing"] |});
    ("Research failed",
     {| description := "General research operation failure";
        debugSteps :=
          [ "Check debug-logs with type=" ++ dq ++ "errors" ++ dq ++ " for recent failures";
            "Look at operation=" ++ dq ++ "deep_research" ++ dq ++ " logs";
            "Check token budget exhaustion";
            "Verify all required API keys are available" ];
        logOperations := ["deep_research"; "research_sources"] |});
    ("No Firecrawl instance available",
     {| description := "Neither local nor cloud Firecrawl is accessible";
        debugSteps :=
          [ "Start local Firecrawl: docker-compose up firecrawl";
            "Check debug-logs with operation=" ++ dq ++ "firecrawl_search" ++ dq;
            "Verify FIRECRAWL_BASE_URL and FIRECRAWL_KEY configuration";
            "Check network connectivity to both local and cloud" ];
        logOperations := ["firecrawl_search"; "server_startup"] |}) ].

Definition unknown_error : Guidance :=
  {| description := "Unknown error occurred";
     debugSteps :=
       [ "Check debug-logs with type=" ++ dq ++ "errors" ++ dq ++ " for recent error details";
         "Look at debug-logs with type=" ++ dq ++ "recent" ++ dq ++ " for context";
         "Check application configuration and API keys" ];
     logOperations := ["server_startup"; "deep_research"] |}.

Fixpoint startsWith (pattern s : string) : bool :=
  match pattern, s with
  | EmptyString, _ => true
  | String p pattern', String c s' => (Ascii.eqb p c && startsWith pattern' s')%bool
  | String _ _, EmptyString => false
  end.

(** [s.includes(pattern)] *)
Fixpoint includes (s pattern : string) : bool :=
  (startsWith pattern s ||
   match s with
   | String _ rest => includes rest pattern
   | EmptyString => false
   end)%bool.

(** The loop of [getErrorGuidance] over the entries. *)
Fixpoint first_match (errorMessage : string) (entries : list (string * Guidance))
  : option Guidance :=
  match entries with
  | [] => None
  | (pattern, guidance) :: rest =>
      if includes errorMessage pattern then Some guidance
      else first_match errorMessage rest
  end.

Definition getErrorGuidance (errorMessage : string) : Guidance :=
  match first_match errorMessage ERROR_GUIDANCE with
  | Some guidance => guidance
  | None => unknown_error
  end.

End ErrorGuidance.

(** ** LogReader *)

Module LogReader.
Import StreamingContentProcessor.

Record LogEntry := {
  level : Z;
  time : Z;
  msg : string;
  operation : option string
}.

(** The log file as [existsSync] and [readFileSync] see it. *)
Inductive LogFile :=
| Missing
| Unreadable                   (* [readFileSync] throws *)
| Content (text : JsString).

(** A [Date]: a time value in milliseconds since the epoch, or an
    Invalid Date (as [new Date(text)] gives for a text that does not
    parse), whose [getTime()] is [NaN]. *)
Inductive JsDate :=
| ValidDate (ms : Z)
| InvalidDate.

(** [date.getTime()]: [None] for [NaN]. *)
Definition getTime (date : JsDate) : option Z :=
  match date with
  | ValidDate ms => Some ms
  | InvalidDate => None
  end.

(** [arr.slice(-n)]: the last [n] elements, and all of them for
    [n = 0] (since [-0] is [0]). *)
Definition slice_from_end {A} (n : nat) (l : list A) : list A :=
  match n with
  | O => l
  | _ => drop (length l - n) l
  end.

Section Reader.

(** [JSON.parse] on one line: [None] when it throws. *)
Variable JSON_parse : JsString -> option LogEntry.

(** [getRecentLogs(lines = 50)] *)
Definition getRecentLogs (file : LogFile) (lines : option nat) : list LogEntry :=
  match file with
  | Missing => []
  | Unreadable => []
  | Content content =>
      let logLines := slice_from_end (default 50%nat lines)
                                     (split_on NEWLINE (trim content)) in
      omap JSON_parse logLines
  end.

(** [since?.getTime() || Date.now() - 3600000]: the fallback is taken
    when [since] is absent and when [getTime()] is falsy, that is
    [NaN] (an Invalid Date) or 0 (the epoch). *)
Definition sinceTime (since : option JsDate) (now : Z) : Z :=
  match since with
  | Some date =>
      match getTime date with
      | Some t => if Z.eqb t 0 then now - 3600000 else t
      | None => now - 3600000
      end
  | None => now - 3600000
  end.

Definition getErrorLogs (file : LogFile) (since : option JsDate) (now : Z)
  : list LogEntry :=
  let logs := getRecentLogs file (Some 200%nat) in
  List.filter (fun log => (50 <=? level log) && (sinceTime since now <=? time log))%bool logs.

Definition getOperationLogs (file : LogFile) (op : string) (since : option JsDate)
           (now : Z) : list LogEntry :=
  let logs := getRecentLogs file (Some 200%nat) in
  List.filter (fun log =>
                 (match operation log with
                  | Some o => String.eqb o op
                  | None => false
                  end && (sinceTime since now <=? time log))%bool) logs.

End Reader.

End LogReader.

(** * Theorems *)

(** ** Dispatcher: the concurrency ceiling *)

Section AdaptiveConcurrency.
Import PerformanceMetrics AdaptiveSearchClient.

Lemma gtQ_spec (a b : Q) : gtQ a b = true <-> (b < a)%Q.
Proof.
  unfold gtQ. rewrite negb_true_iff. split.
  - intros Hb. apply Qnot_le_lt. intros Hle.
    apply Qle_bool_iff in Hle. congruence.
  - intros Hlt. destruct (Qle_bool a b) eqn:E; [|reflexivity].
    apply Qle_bool_iff in E. exfalso. exact (Qlt_not_le _ _ Hlt E).
Qed.

Lemma ltQ_spec (a b : Q) : ltQ a b = true <-> (a < b)%Q.
Proof. unfold ltQ. apply (gtQ_spec b a). Qed.

Lemma adjusted_within_bounds (m : MetricsSummary) (c : Z) :
  minConcurrency <= c <= maxConcurrency ->
  minConcurrency <= adjusted m c <= maxConcurrency.
Proof.
  unfold adjusted, minConcurrency, maxConcurrency. intros Hc.
  destruct (gtQ _ _); [lia|].
  destruct (ltQ _ _ && _); [lia|].
  destruct (_ >? _); lia.
Qed.

Lemma adjusted_step (m : MetricsSummary) (c : Z) :
  minConcurrency <= c <= maxConcurrency ->
  Z.abs (adjusted m c - c) <= 1.
Proof.
  unfold adjusted, minConcurrency, maxConcurrency. intros Hc.
  destruct (gtQ _ _); [lia|].
  destruct (ltQ _ _ && _); [lia|].
  destruct (_ >? _); lia.
Qed.

Lemma adjustConcurrencyIfNeeded_bounds (now : Z) (s : AdaptiveSearchClient.t) :
  minConcurrency <= concurrency s <= maxConcurrency ->
  minConcurrency <= concurrency (adjustConcurrencyIfNeeded now s) <= maxConcurrency.
Proof.
  intros Hc. unfold adjustConcurrencyIfNeeded.
  destruct (_ <? adjustmentInterval); [exact Hc|].
  destruct (getMetrics _ _) as [m|]; [|exact Hc].
  destruct (s_count m <? 5); [exact Hc|].
  cbv zeta. destruct (_ =? _); [exact Hc|].
  cbn [concurrency]. now apply adjusted_within_bounds.
Qed.

Lemma search_bounds (c : Call) (s : AdaptiveSearchClient.t) :
  minConcurrency <= concurrency s <= maxConcurrency ->
  minConcurrency <= concurrency (search c s) <= maxConcurrency.
Proof.
  intros Hc. unfold search. cbv zeta.
  apply adjustConcurrencyIfNeeded_bounds. exact Hc.
Qed.

Lemma run_snoc (t0 : Z) (calls : list Call) (c : Call) :
  run t0 (calls ++ [c]) = search c (run t0 calls).
Proof. unfold run. now rewrite fold_left_app. Qed.

(** The gate is always rebuilt with the current ceiling. *)
Lemma run_limit (t0 : Z) (calls : list Call) :
  limit (run t0 calls) = concurrency (run t0 calls).
Proof.
  induction calls as [|c calls IH] using rev_ind; [reflexivity|].
  rewrite run_snoc. unfold search, adjustConcurrencyIfNeeded. cbv zeta.
  repeat match goal with
         | |- context [if ?b then _ else _] => destruct b
         | |- context [match ?o with Some _ => _ | None => _ end] => destruct o
         end; cbn; auto.
Qed.

Example percentile_of_twenty :
  percentile (map Z.of_nat (seq 1 20)) (95 # 100) = 19
  /\ percentile (map Z.of_nat (seq 1 20)) (1 # 2) = 10
  /\ percentile [] (95 # 100) = 0.
Proof. repeat split; reflexivity. Qed.

(** Five searches that all fail, then a sixth one 12 s after the
    client was created: the ceiling drops from 2 to 1 and stays there. *)
Example failing_searches_lower_the_ceiling :
  let failed at_ := {| outcome := Threw "ECONNRESET"; start := at_ - 50;
                       finished := at_; adjustedAt := at_ |} in
  map (fun calls => getConcurrency (run 0 calls))
      [ map failed [1000; 2000; 3000; 4000; 5000];
        map failed [1000; 2000; 3000; 4000; 5000; 12000];
        map failed [1000; 2000; 3000; 4000; 5000; 12000; 30000] ]
  = [2; 1; 1].
Proof. vm_compute. reflexivity. Qed.

(** C1. Whatever searches complete on a client, in whatever order and
    with whatever outcomes and clock readings, the concurrency ceiling
    stays within [minConcurrency, maxConcurrency], that is within
    [1, 8]. *)
Theorem concurrency_ceiling_within_bounds (t0 : Z) (calls : list Call) :
  minConcurrency <= getConcurrency (run t0 calls) <= maxConcurrency
  /\ 1 <= getConcurrency (run t0 calls) <= 8.
Proof.
  assert (H : minConcurrency <= concurrency (run t0 calls) <= maxConcurrency).
  { induction calls as [|c calls IH] using rev_ind.
    - unfold run, create, minConcurrency, maxConcurrency. cbn. lia.
    - rewrite run_snoc. now apply search_bounds. }
  split; [exact H|]. unfold minConcurrency, maxConcurrency in H. exact H.
Qed.

(** C2. On a ceiling within bounds: the rule is not evaluated, and the
    client is left as it was, while the adjustment interval has not
    elapsed or fewer than 5 samples have been recorded; when it is
    evaluated the ceiling moves by at most 1: down (clamped at the
    minimum) when the error rate is above 20%; else up (clamped at the
    maximum) when the error rate is below 5% and the 95th percentile is
    below 5000 ms; else down (clamped at the minimum) when the 95th
    percentile is above 10000 ms; and it is unchanged in every other
    case. *)
Theorem adjustment_rule (now : Z) (s : AdaptiveSearchClient.t) :
  minConcurrency <= concurrency s <= maxConcurrency ->
  let c := concurrency s in
  let c' := concurrency (adjustConcurrencyIfNeeded now s) in
  (now - lastAdjustment s < adjustmentInterval
   \/ getMetrics "search" (metrics s) = None
   \/ (exists m, getMetrics "search" (metrics s) = Some m /\ s_count m < 5) ->
   adjustConcurrencyIfNeeded now s = s)
  /\
  (forall m : MetricsSummary,
      adjustmentInterval <= now - lastAdjustment s ->
      getMetrics "search" (metrics s) = Some m ->
      5 <= s_count m ->
      Z.abs (c' - c) <= 1 /\
      ((2 # 10 < errorRate m)%Q -> c' = Z.max minConcurrency (c - 1)) /\
      (~ (2 # 10 < errorRate m)%Q ->
       (errorRate m < 5 # 100)%Q /\ p95Duration m < 5000 ->
       c' = Z.min maxConcurrency (c + 1)) /\
      (~ (2 # 10 < errorRate m)%Q ->
       ~ ((errorRate m < 5 # 100)%Q /\ p95Duration m < 5000) ->
       10000 < p95Duration m ->
       c' = Z.max minConcurrency (c - 1)) /\
      (~ (2 # 10 < errorRate m)%Q ->
       ~ ((errorRate m < 5 # 100)%Q /\ p95Duration m < 5000) ->
       ~ 10000 < p95Duration m ->
       c' = c)).
Proof.
  intros Hc c c'. split.
  { intros Hskip. unfold adjustConcurrencyIfNeeded.
    destruct (Z.ltb_spec (now - lastAdjustment s) adjustmentInterval); [reflexivity|].
    destruct Hskip as [Hint | [Hnone | (m & Hm & Hcnt)]]; [lia | |].
    - now rewrite Hnone.
    - rewrite Hm. destruct (Z.ltb_spec (s_count m) 5); [reflexivity|lia]. }
  intros m Hint Hm Hcnt.
  assert (Hc' : c' = adjusted m c).
  { subst c c'. unfold adjustConcurrencyIfNeeded.
    destruct (Z.ltb_spec (now - lastAdjustment s) adjustmentInterval); [lia|].
    rewrite Hm. destruct (Z.ltb_spec (s_count m) 5); [lia|].
    cbv zeta. destruct (Z.eqb_spec (adjusted m (concurrency s)) (concurrency s)) as [E|E].
    - now rewrite E.
    - reflexivity. }
  rewrite Hc'. split; [now apply adjusted_step|].
  unfold adjusted.
  destruct (gtQ (errorRate m) (2 # 10)) eqn:Eg.
  { apply gtQ_spec in Eg. repeat split; intros; try reflexivity; contradiction. }
  assert (Hng : ~ (2 # 10 < errorRate m)%Q).
  { intros H. apply gtQ_spec in H. congruence. }
  destruct (ltQ (errorRate m) (5 # 100) && (p95Duration m <? 5000)) eqn:El.
  { apply andb_true_iff in El as [El1 El2].
    apply ltQ_spec in El1. apply Z.ltb_lt in El2.
    repeat split; intros; try reflexivity; try contradiction.
    - exfalso; tauto.
    - exfalso; tauto. }
  assert (Hnl : ~ ((errorRate m < 5 # 100)%Q /\ p95Duration m < 5000)).
  { intros [H1 H2]. apply ltQ_spec in H1. apply Z.ltb_lt in H2.
    rewrite H1, H2 in El. discriminate. }
  destruct (Z.gtb_spec (p95Duration m) 10000) as [Hp|Hp].
  - repeat split; intros; try reflexivity; try contradiction; lia.
  - repeat split; intros; try reflexivity; try contradiction; lia.
Qed.

(** The percentile read is inside the array whenever [0 < p <= 1]. *)
Lemma percentile_index_in_range (len : nat) (p : Q) :
  (0 < len)%nat -> (0 < p)%Q -> (p <= 1)%Q ->
  0 <= percentile_index len p < Z.of_nat len.
Proof.
  intros Hlen Hp0 Hp1. unfold percentile_index.
  assert (Hle : Qceiling (inject_Z (Z.of_nat len) * p) <= Z.of_nat len).
  { rewrite <- (Qceiling_Z (Z.of_nat len)) at 2.
    apply Qceiling_resp_le.
    rewrite <- (Qmult_1_r (inject_Z (Z.of_nat len))) at 2.
    apply Qmult_le_l; [|exact Hp1].
    change 0%Q with (inject_Z 0). rewrite <- Zlt_Qlt. lia. }
  lia.
Qed.

Definition sample_calls : list Call :=
  map (fun d => {| outcome := Succeeded; start := 0; finished := d; adjustedAt := 100 |})
      [100; 120; 90; 110; 105].

(** C2, at a client that has completed five fast successful searches:
    evaluated at 20 s the rule raises the ceiling from 2 to 3. *)
Lemma adjustment_rule_witness :
  adjustmentInterval <= 20000 - lastAdjustment (run 0 sample_calls)
  /\ concurrency (run 0 sample_calls) = 2
  /\ concurrency (adjustConcurrencyIfNeeded 20000 (run 0 sample_calls)) = 3.
Proof.
  split; [vm_compute; discriminate|].
  split; [vm_compute; reflexivity|].
  destruct (getMetrics "search" (metrics (run 0 sample_calls))) as [m|] eqn:Hm;
    [|vm_compute in Hm; discriminate].
  assert (Hcnt : s_count m = 5) by (vm_compute in Hm; injection Hm as <-; reflexivity).
  assert (Her : errorRate m = (0 # 5)%Q) by (vm_compute in Hm; injection Hm as <-; reflexivity).
  assert (Hp : p95Duration m = 120) by (vm_compute in Hm; injection Hm as <-; reflexivity).
  destruct (adjustment_rule 20000 (run 0 sample_calls)) as [_ Hrule].
  { vm_compute. split; discriminate. }
  destruct (Hrule m) as (_ & _ & Hup & _).
  - vm_compute; discriminate.
  - exact Hm.
  - rewrite Hcnt. lia.
  - rewrite Hup.
    + vm_compute. reflexivity.
    + rewrite Her. vm_compute. discriminate.
    + rewrite Her, Hp. split; [reflexivity | lia].
Defined.

End AdaptiveConcurrency.

(** ** Caches: expiry on read and the model provider's cache *)

Section CacheExpiry.
Import Shared.

Lemma lru_get_after_delete {V} (key : string) (m : list (string * V)) :
  LRUContentCache.map_get key (LRUContentCache.map_delete key m) = None.
Proof.
  unfold LRUContentCache.map_get, LRUContentCache.map_delete.
  induction m as [|[k v] m IH]; [reflexivity|].
  rewrite filter_cons. cbn [fst]. destruct (decide (k <> key)) as [Hne|Heq].
  - cbn [find fst]. destruct (String.eqb_spec k key); [contradiction|exact IH].
  - exact IH.
Qed.

(** C8, as the code has it. In both caches an entry stays visible up
    to and including [created + ttl]: a read at [now > created + ttl]
    returns absent and removes the entry, a read at
    [now <= created + ttl] returns the stored value. *)
Theorem cache_entry_visible_through_deadline :
  (forall (key : string) (now : Z) (s : BatchedModelProvider.t)
          (e : BatchedModelProvider.CacheEntry),
      BatchedModelProvider.cache s !! key = Some e ->
      (BatchedModelProvider.timestamp e + BatchedModelProvider.ttl e < now ->
       fst (BatchedModelProvider.getFromCache key now s) = JNull /\
       BatchedModelProvider.cache (snd (BatchedModelProvider.getFromCache key now s)) !! key
         = None) /\
      (now <= BatchedModelProvider.timestamp e + BatchedModelProvider.ttl e ->
       BatchedModelProvider.getFromCache key now s
         = (BatchedModelProvider.result e, s)))
  /\
  (forall (T : Type) (key : string) (now : Z) (c : LRUContentCache.t T)
          (e : LRUContentCache.CacheEntry T),
      LRUContentCache.map_get key (LRUContentCache.cache c) = Some e ->
      (LRUContentCache.timestamp e + LRUContentCache.ttl c < now ->
       fst (LRUContentCache.get now key c) = None /\
       LRUContentCache.map_get key
         (LRUContentCache.cache (snd (LRUContentCache.get now key c))) = None) /\
      (now <= LRUContentCache.timestamp e + LRUContentCache.ttl c ->
       fst (LRUContentCache.get now key c) = Some (LRUContentCache.value e))).
Proof.
  split.
  - intros key now s e He. unfold BatchedModelProvider.getFromCache. rewrite He.
    unfold BatchedModelProvider.expired. split; intros Hnow.
    + destruct (Z.gtb_spec now (BatchedModelProvider.timestamp e + BatchedModelProvider.ttl e));
        [|lia].
      cbn. split; [reflexivity|]. apply lookup_delete_eq.
    + destruct (Z.gtb_spec now (BatchedModelProvider.timestamp e + BatchedModelProvider.ttl e));
        [lia|reflexivity].
  - intros T key now c e He. unfold LRUContentCache.get. rewrite He.
    split; intros Hnow.
    + destruct (Z.gtb_spec (now - LRUContentCache.timestamp e) (LRUContentCache.ttl c));
        [|lia].
      cbn. split; [reflexivity|]. apply lru_get_after_delete.
    + destruct (Z.gtb_spec (now - LRUContentCache.timestamp e) (LRUContentCache.ttl c));
        [lia|reflexivity].
Qed.

Definition sample_entry : BatchedModelProvider.CacheEntry :=
  {| BatchedModelProvider.result := JStr "stored";
     BatchedModelProvider.timestamp := 1000;
     BatchedModelProvider.ttl := 300000 |}.

Definition sample_provider : BatchedModelProvider.t :=
  BatchedModelProvider.with_cache {[ "k" := sample_entry ]} BatchedModelProvider.create.

Definition sample_lru : LRUContentCache.t string :=
  LRUContentCache.set 1000 "k" "stored" (LRUContentCache.create None (Some 300000)).

(** C8 at concrete caches: one millisecond after the deadline the entry
    is gone, at the deadline it is returned. *)
Lemma cache_entry_visible_through_deadline_witness :
  (fst (BatchedModelProvider.getFromCache "k" 301001 sample_provider) = JNull /\
   BatchedModelProvider.getFromCache "k" 301000 sample_provider
     = (JStr "stored", sample_provider))
  /\
  (fst (LRUContentCache.get 301001 "k" sample_lru) = None /\
   fst (LRUContentCache.get 301000 "k" sample_lru) = Some "stored"%string).
Proof.
  destruct cache_entry_visible_through_deadline as [Hp Hl].
  split.
  - destruct (Hp "k"%string 301001 sample_provider sample_entry) as [Hgone _];
      [reflexivity|].
    destruct (Hp "k"%string 301000 sample_provider sample_entry) as [_ Hkept];
      [reflexivity|].
    split.
    + apply Hgone. cbn. lia.
    + apply Hkept. cbn. lia.
  - pose (e := {| LRUContentCache.value := "stored"%string;
                  LRUContentCache.timestamp := 1000;
                  LRUContentCache.accessCount := 1 |}).
    destruct (Hl string "k"%string 301001 sample_lru e) as [Hgone _];
      [reflexivity|].
    destruct (Hl string "k"%string 301000 sample_lru e) as [_ Hkept];
      [reflexivity|].
    split.
    + apply Hgone. cbn. lia.
    + apply Hkept. cbn. lia.
Defined.

(** C8 as stated fails at the deadline itself: with [created = 1000]
    and [ttl = 300000], a read at [now = 301000 >= created + ttl]
    still returns the stored value and leaves the entry in place, in
    both caches. *)
Lemma cache_read_at_deadline_still_hits :
  301000 >= BatchedModelProvider.timestamp sample_entry + BatchedModelProvider.ttl sample_entry
  /\ BatchedModelProvider.cache sample_provider !! "k" = Some sample_entry
  /\ BatchedModelProvider.getFromCache "k" 301000 sample_provider
       = (JStr "stored", sample_provider)
  /\ fst (LRUContentCache.get 301000 "k" sample_lru) = Some "stored"%string
  /\ LRUContentCache.map_get "k"
       (LRUContentCache.cache (snd (LRUContentCache.get 301000 "k" sample_lru)))
     = Some {| LRUContentCache.value := "stored"%string;
               LRUContentCache.timestamp := 1000;
               LRUContentCache.accessCount := 2 |}.
Proof.
  split; [cbn; lia|]. split; [reflexivity|]. split; [reflexivity|].
  split; reflexivity.
Qed.

End CacheExpiry.

Section ModelProviderCache.
Import Shared BatchedModelProvider.

Example base64_Man : base64 "Man" = "TWFu"%string.
Proof. reflexivity. Qed.

Example base64_padding : base64 "Ma" = "TWE="%string /\ base64 "M" = "TQ=="%string.
Proof. split; reflexivity. Qed.

(** A stored, unexpired, truthy result is returned without a model
    call, and the cache is left as it was. *)
Lemma generateObject_hit (params : GenerationParams) (env : Env) (s : t) (e : CacheEntry) :
  cache s !! getCacheKey params = Some e ->
  t_lookup env <= timestamp e + ttl e ->
  truthy (result e) = true ->
  returned (generateObject params env s) = Ok (result e)
  /\ modelCalls (generateObject params env s) = []
  /\ cache (after (generateObject params env s)) = cache s
  /\ cacheHits (stats (after (generateObject params env s))) = cacheHits (stats s) + 1.
Proof.
  intros He Hnow Htruthy. unfold generateObject, getFromCache.
  cbn [cache with_stats]. rewrite He. unfold expired.
  destruct (Z.gtb_spec (t_lookup env) (timestamp e + ttl e)); [lia|].
  rewrite Htruthy. cbn. repeat split; reflexivity.
Qed.

(** After a miss that the model answers, the result is stored under the
    request's key with the 5 minute TTL, provided the sweep (if one
    runs) happens before the new entry expires. *)
Lemma generateObject_miss_stores (params : GenerationParams) (env : Env) (s : t)
      (object : JsValue) (usage : option Z) :
  truthy (fst (getFromCache (getCacheKey params) (t_lookup env) s)) = false ->
  sdk_generateObject env params = Generated object usage ->
  t_cleanup env <= t_store env + 300000 ->
  returned (generateObject params env s) = Ok object
  /\ modelCalls (generateObject params env s) = [params]
  /\ cache (after (generateObject params env s)) !! getCacheKey params
     = Some {| result := object; timestamp := t_store env; ttl := 300000 |}.
Proof.
  intros Hmiss Hgen Hsweep. unfold generateObject.
  set (s0 := with_stats _ s).
  assert (Hsame : fst (getFromCache (getCacheKey params) (t_lookup env) s0)
                  = fst (getFromCache (getCacheKey params) (t_lookup env) s)).
  { unfold getFromCache, s0. cbn [cache with_stats].
    destruct (cache s !! getCacheKey params) as [e|]; [|reflexivity].
    destruct (expired _ e); reflexivity. }
  destruct (getFromCache (getCacheKey params) (t_lookup env) s0) as [cached s1].
  cbn [fst] in Hsame. rewrite Hsame, Hmiss, Hgen.
  cbn [returned modelCalls after]. split; [reflexivity|]. split; [reflexivity|].
  unfold setCache. cbn [cache with_cache updateStats with_stats].
  change (5 * 60 * 1000) with 300000.
  destruct (Nat.ltb 1000 _).
  - unfold cleanupCache. cbn [cache with_cache].
    apply map_lookup_filter_Some. split; [apply lookup_insert_eq|].
    cbn [snd]. unfold expired. cbn [timestamp ttl].
    destruct (Z.gtb_spec (t_cleanup env) (t_store env + 300000)); [lia|reflexivity].
  - cbn [cache with_cache]. apply lookup_insert_eq.
Qed.

(** The same request evaluated twice, the second time while the stored
    entry is unexpired: when the generated object is truthy (as every
    JavaScript object and array is) the second evaluation returns it
    and makes no model call. *)
Lemma generateObject_twice_truthy (params : GenerationParams) (env1 env2 : Env) (s : t)
      (object : JsValue) (usage : option Z) :
  truthy (fst (getFromCache (getCacheKey params) (t_lookup env1) s)) = false ->
  sdk_generateObject env1 params = Generated object usage ->
  t_cleanup env1 <= t_store env1 + 300000 ->
  t_lookup env2 <= t_store env1 + 300000 ->
  truthy object = true ->
  let first := generateObject params env1 s in
  let second := generateObject params env2 (after first) in
  returned first = Ok object /\ modelCalls first = [params]
  /\ returned second = Ok object /\ modelCalls second = [].
Proof.
  intros Hmiss Hgen Hsweep Hfresh Htruthy first second.
  destruct (generateObject_miss_stores params env1 s object usage Hmiss Hgen Hsweep)
    as (Hr1 & Hc1 & Hstored).
  destruct (generateObject_hit params env2 (after first) _ Hstored) as (Hr2 & Hc2 & _).
  - cbn [timestamp ttl]. exact Hfresh.
  - exact Htruthy.
  - repeat split; assumption.
Qed.

Lemma truthy_object (fields : list (string * JsValue)) : truthy (JObj fields) = true.
Proof. reflexivity. Qed.

Definition boolean_request : GenerationParams :=
  {| model := "google:gemini-2.5-pro";
     system := None;
     prompt := "Is the source peer reviewed? Answer true or false.";
     schema := "{type:boolean}" |}.

Definition answers_false (t0 : Z) : Env :=
  {| t_start := t0; t_lookup := t0; t_done := t0 + 800; t_store := t0 + 800;
     t_cleanup := t0 + 800;
     sdk_generateObject := fun _ => Generated (JBool false) (Some 42) |}.

(** C4 at a request whose schema is a boolean and whose generated
    result is [false]: the first evaluation stores [false] under the
    request's key; one second later the entry is unexpired, yet the
    second evaluation reads the stored [false], fails the [if (cached)]
    test and invokes the model again. *)
Theorem cached_falsy_result_invokes_model_again :
  let first := generateObject boolean_request (answers_false 1000) create in
  let second := generateObject boolean_request (answers_false 2800) (after first) in
  returned first = Ok (JBool false)
  /\ cache (after first) !! getCacheKey boolean_request
     = Some {| result := JBool false; timestamp := 1800; ttl := 300000 |}
  /\ expired (t_lookup (answers_false 2800))
       {| result := JBool false; timestamp := 1800; ttl := 300000 |} = false
  /\ returned second = Ok (JBool false)
  /\ modelCalls second = [boolean_request]
  /\ cacheHits (stats (after second)) = 0.
Proof.
  cbv zeta. repeat split; vm_compute; reflexivity.
Qed.

End ModelProviderCache.

(** ** Tiered cache *)

Section TieredCache.
Import CacheService MultiLevelCache.

(** C7. For any three tiers: a read that hits the near tier answers
    from it and leaves the shared tier untouched; a read that misses
    the near tier and hits the shared tier answers from the shared
    tier and stores the value in the near tier with TTL 300 s, the
    near tier's cap; a write stores the value in the near tier with
    TTL min(requested, 300), in the shared tier with the requested TTL
    and, when configured, in the third tier with twice that. *)
Theorem tiered_cache_read_write
        {V S1 S2 S3 : Type}
        `{!CacheService V S1, !CacheService V S2, !CacheService V S3}
        (key : string) (c : MultiLevelCache.t S1 S2 S3) :
  (forall (v : V) (a : S1),
      get key (l1 c) = (Some v, a) ->
      fst (ml_get key c) = Some v
      /\ l1 (snd (ml_get key c)) = a
      /\ l2 (snd (ml_get key c)) = l2 c
      /\ l3 (snd (ml_get key c)) = l3 c)
  /\
  (forall (v : V) (a : S1) (b : S2),
      get key (l1 c) = (None, a) ->
      get key (l2 c) = (Some v, b) ->
      fst (ml_get key c) = Some v
      /\ l1 (snd (ml_get key c)) = set key v (Some 300) a
      /\ l2 (snd (ml_get key c)) = b
      /\ l3 (snd (ml_get key c)) = l3 c)
  /\
  (forall (v : V) (ttl : option Z),
      let requested := default 3600 ttl in
      l1 (ml_set key v ttl c) = set key v (Some (Z.min requested 300)) (l1 c)
      /\ Z.min requested 300 <= 300
      /\ l2 (ml_set key v ttl c) = set key v (Some requested) (l2 c)
      /\ l3 (ml_set key v ttl c)
         = (fun d => set key v (Some (requested * 2)) d) <$> l3 c).
Proof.
  split; [|split].
  - intros v a H1. unfold ml_get. rewrite H1. cbn. repeat split; reflexivity.
  - intros v a b H1 H2. unfold ml_get. rewrite H1, H2. cbn.
    repeat split; reflexivity.
  - intros v ttl requested. unfold ml_set. cbn [l1 l2 l3].
    repeat split; try reflexivity; try lia; destruct (l3 c); reflexivity.
Qed.

(** A tier that remembers each value with the TTL it was stored with. *)
#[local] Instance recording_tier : CacheService string (gmap string (string * Z)) :=
  {| get := fun key s => (fst <$> s !! key, s);
     set := fun key v ttl s => <[key := (v, default 3600 ttl)]> s;
     delete := fun key s => base.delete key s;
     clear := fun _ => ∅;
     exists_ := fun key s => (bool_decide (is_Some (s !! key)), s) |}.

Definition cold_near_warm_shared
  : MultiLevelCache.t (gmap string (string * Z)) (gmap string (string * Z))
                      (gmap string (string * Z)) :=
  create ∅ {[ "q" := ("answer"%string, 3600) ]} None.

(** C7 on recording tiers: a read that finds the key only in the
    shared tier copies it to the near tier with TTL 300; a write with
    TTL 900 reaches the near tier with TTL 300 and the shared tier with
    TTL 900, and a write with TTL 60 reaches both with TTL 60. *)
Lemma tiered_cache_read_write_witness :
  (fst (ml_get "q" cold_near_warm_shared) = Some "answer"%string
   /\ l1 (snd (ml_get "q" cold_near_warm_shared)) !! "q" = Some ("answer"%string, 300))
  /\ (l1 (ml_set "k" "v"%string (Some 900) cold_near_warm_shared) !! "k"
        = Some ("v"%string, 300)
      /\ l2 (ml_set "k" "v"%string (Some 900) cold_near_warm_shared) !! "k"
        = Some ("v"%string, 900))
  /\ (l1 (ml_set "k" "v"%string (Some 60) cold_near_warm_shared) !! "k"
        = Some ("v"%string, 60)).
Proof.
  destruct (tiered_cache_read_write (V := string) "q" cold_near_warm_shared)
    as (_ & Hshared & _).
  destruct (Hshared "answer"%string ∅ {[ "q" := ("answer"%string, 3600) ]})
    as (Hv & Hnear & _); [reflexivity | reflexivity |].
  destruct (tiered_cache_read_write (V := string) "k" cold_near_warm_shared)
    as (_ & _ & Hwrite).
  destruct (Hwrite "v"%string (Some 900)) as (Hn900 & _ & Hs900 & _).
  destruct (Hwrite "v"%string (Some 60)) as (Hn60 & _).
  split; [split|split; [split|]].
  - exact Hv.
  - rewrite Hnear. reflexivity.
  - rewrite Hn900. reflexivity.
  - rewrite Hs900. reflexivity.
  - rewrite Hn60. reflexivity.
Defined.

End TieredCache.

(** ** Reliability evaluator *)

Section ReliabilityEvaluator.
Import Shared DefaultSourceEvaluationService.

Definition evaluation_failed (error : JsError) : ResearchError :=
  new_AIModelError "Failed to evaluate source reliability" (Some error).

(** C5. Whatever the source item, query and preferences are, and
    whatever the URL parser, [trimPrompt], [systemPrompt] and the model
    do (return or throw), [evaluateReliability] returns a [Result] and
    never throws; an [Err] it returns is an [AIModelError] carrying the
    caught failure; and when the model call itself fails, that failure
    is the cause carried by the [Err]. *)
Theorem evaluateReliability_never_throws
        (cap : Capabilities) (params : SourceEvaluationParams) (model : string) :
  (exists r, evaluateReliability cap params model = Return r
             /\ match r with
                | Ok _ => True
                | Err e => isAIModelError e = true
                           /\ exists caught, e = evaluation_failed caught
                end)
  /\
  (forall (snippet sys : string) (failure : JsError),
      trimPrompt cap (default "" (markdown (item params))) 4000 = Return snippet ->
      systemPrompt cap tt = Return sys ->
      (forall req, generateObject cap req = Throw failure) ->
      evaluateReliability cap params model = Return (Err (evaluation_failed failure))).
Proof.
  split.
  - unfold evaluateReliability.
    destruct (String.eqb (default "" (url (item params))) "");
      [|destruct (URL_hostname cap _)]; cbn [try_catch bind];
      (destruct (trimPrompt cap _ 4000); cbn [try_catch bind];
       [destruct (systemPrompt cap tt); cbn [try_catch bind];
        [destruct (generateObject cap _) as [res|]; cbn [try_catch bind];
         [destruct (object res)|]|]|]);
      cbn [try_catch bind]; eexists; (split; [reflexivity|]);
      first [exact I | split; [reflexivity|eexists; reflexivity]].
  - intros snippet sys failure Htrim Hsys Hgen. unfold evaluateReliability.
    destruct (String.eqb (default "" (url (item params))) "");
      [|destruct (URL_hostname cap _)]; cbn [try_catch bind];
      rewrite Htrim; cbn [try_catch bind]; rewrite Hsys; cbn [try_catch bind];
      rewrite Hgen; reflexivity.
Qed.

Definition offline : Capabilities :=
  {| URL_hostname := fun _ => Return "example.org"%string;
     trimPrompt := fun s _ => Return s;
     systemPrompt := fun _ => Return "You are a researcher."%string;
     generateObject := fun _ =>
       Throw {| js_name := "TimeoutError"; js_message := "model timed out" |} |}.

Definition a_source : SourceEvaluationParams :=
  {| item := {| url := Some "https://example.org/paper"%string;
                title := Some "A paper"%string;
                markdown := Some "Body."%string |};
     query := "topic";
     sourcePreferences := None |}.

(** C5 with a model that times out: the evaluator returns the typed
    error carrying the timeout. *)
Lemma evaluateReliability_never_throws_witness :
  evaluateReliability offline a_source "google:gemini-2.5-pro"
  = Return (Err (evaluation_failed
                   {| js_name := "TimeoutError"; js_message := "model timed out" |})).
Proof.
  destruct (evaluateReliability_never_throws offline a_source "google:gemini-2.5-pro")
    as [_ Hmodel].
  apply (Hmodel "Body."%string "You are a researcher."%string); reflexivity.
Defined.

End ReliabilityEvaluator.

(** ** Recursion over depth levels *)

Section ResearchRecursion.
Import Shared ResearchTypes DefaultResearchService.

(** The context [conductResearch] starts from, and the result of a
    session in which no level ran. *)
Definition empty_context : ResearchContext.t :=
  {| ResearchContext.learnings := [];
     ResearchContext.learningReliabilities := [];
     ResearchContext.visitedUrls := [];
     ResearchContext.researchDirections := [] |}.

Definition nothing_found : ResearchResult.t :=
  {| ResearchResult.learnings := [];
     ResearchResult.learningReliabilities := [];
     ResearchResult.visitedUrls := [];
     ResearchResult.sourceMetadata := [];
     ResearchResult.weightedLearnings := [] |}.

Section AnyCollaborators.
Variable search : string -> SearchOptions -> Exc (Result SearchResult ResearchError).
Variable plan : QueryGenerationContext -> Exc (list SearchQuery).
Variable pLimit : Z -> Exc unit.
Variable process : list SearchResult -> ResearchParams -> string -> Processed.
Variable config : Config.

(** What a returned result is made of: the context it started from,
    followed by what each level's processing step reported, level by
    level and unfiltered. *)
Lemma executeResearchLevels_shape (levels : nat) (params : ResearchParams)
      (cid : string) :
  forall (context : ResearchContext.t) (r : ResearchResult.t),
    executeResearchLevels search plan pLimit process config levels params context cid
      = Return r ->
    exists outcomes : list Processed,
      length outcomes = levels
      /\ Forall (fun o => exists found, o = process found params cid) outcomes
      /\ ResearchResult.learnings r
         = ResearchContext.learnings context ++ concat (map newLearnings outcomes)
      /\ ResearchResult.learningReliabilities r
         = ResearchContext.learningReliabilities context
             ++ concat (map newReliabilities outcomes)
      /\ ResearchResult.visitedUrls r
         = ResearchContext.visitedUrls context ++ concat (map newUrls outcomes)
      /\ ResearchResult.weightedLearnings r
         = weighted (ResearchResult.learnings r) (ResearchResult.learningReliabilities r).
Proof.
  induction levels as [|remaining IH]; intros context r Hrun.
  - cbn in Hrun. injection Hrun as <-. exists []. cbn.
    rewrite !app_nil_r. repeat split; auto.
  - cbn [executeResearchLevels] in Hrun.
    destruct (generateQueries plan _) as [queries|err]; [|discriminate].
    destruct (executeSearches search pLimit config queries cid) as [found|err];
      [|discriminate].
    cbn [bind] in Hrun.
    set (processed := process found params cid) in *.
    destruct remaining as [|remaining'].
    + injection Hrun as <-. exists [processed]. cbn.
      rewrite !app_nil_r. repeat split; auto.
      constructor; [|constructor]. exists found. reflexivity.
    + apply IH in Hrun as (outcomes & Hlen & Hall & Hl & Hr & Hu & Hw).
      exists (processed :: outcomes). cbn [length map concat].
      cbn [ResearchContext.learnings ResearchContext.learningReliabilities
             ResearchContext.visitedUrls] in Hl, Hr, Hu.
      rewrite <- !app_assoc in Hl, Hr, Hu.
      repeat split; auto.
      constructor; [|exact Hall]. exists found. reflexivity.
Qed.

(** A session with no level to run ([depth <= 0]) returns the empty
    result at once: no collaborator is consulted. *)
Lemma conductResearch_without_levels (params : ResearchParams) (cid : string) :
  depth params <= 0 ->
  conductResearch search plan pLimit process config params cid = Ok nothing_found.
Proof.
  intros Hdepth. unfold conductResearch, executeResearchDepth.
  destruct (Z.to_nat (depth params)) as [|n] eqn:E; [reflexivity|lia].
Qed.

End AnyCollaborators.

(** With the processing step the source ships, the [visitedUrls] of a
    returned result are those of the context the recursion started
    from: no level adds any. *)
Lemma placeholder_adds_no_url
      (search : string -> SearchOptions -> Exc (Result SearchResult ResearchError))
      (plan : QueryGenerationContext -> Exc (list SearchQuery))
      (pLimit : Z -> Exc unit) (config : Config) (params : ResearchParams)
      (cid : string) (context : ResearchContext.t) (levels : nat)
      (r : ResearchResult.t) :
  executeResearchLevels search plan pLimit processSearchResults config levels params
                        context cid = Return r ->
  ResearchResult.visitedUrls r = ResearchContext.visitedUrls context.
Proof.
  intros Hrun.
  apply executeResearchLevels_shape in Hrun as (outcomes & _ & Hall & _ & _ & Hu & _).
  rewrite Hu. clear Hu.
  assert (Hnone : concat (map newUrls outcomes) = []).
  { induction Hall as [|o rest [found ->] _ IH]; [reflexivity|]. cbn. exact IH. }
  rewrite Hnone. apply app_nil_r.
Qed.


(** Collaborators for the examples: a search client that finds one
    page and a planner that asks one query. *)
Definition one_page : DefaultSourceEvaluationService.SourceItem :=
  {| DefaultSourceEvaluationService.url := Some "https://example.org/a"%string;
     DefaultSourceEvaluationService.title := Some "A"%string;
     DefaultSourceEvaluationService.markdown := Some "text"%string |}.

Definition finds_one_page (q : string) (o : SearchOptions)
  : Exc (Result SearchResult ResearchError) :=
  Return (Ok {| data := [one_page]; success := true |}).

Definition asks_one_query (g : QueryGenerationContext) : Exc (list SearchQuery) :=
  Return [{| sq_query := g_query g; sq_limit := None |}].

Definition two_levels : ResearchParams :=
  {| query := "topic"; depth := 2; breadth := 1;
     tokenBudget := None; sourcePreferences := None |}.

Definition no_levels : ResearchParams :=
  {| query := "topic"; depth := 0; breadth := 0;
     tokenBudget := None; sourcePreferences := None |}.

Definition a_config : Config := {| maxConcurrency := 2; defaultTimeout := 15000 |}.

(** A context that three learnings and one page have been merged
    into; the second reliability is 0 and the third is missing. *)
Definition after_one_page : ResearchContext.t :=
  {| ResearchContext.learnings := ["finding"%string; "aside"%string; "note"%string];
     ResearchContext.learningReliabilities := [(8 # 10)%Q; 0%Q];
     ResearchContext.visitedUrls := ["https://example.org/a"%string];
     ResearchContext.researchDirections := [] |}.


Lemma number_or_spec (x : option Q) (d : Q) :
  (forall q, x = Some q -> ~ (q == 0)%Q -> number_or x d = q)
  /\ (forall q, x = Some q -> (q == 0)%Q -> number_or x d = d)
  /\ (x = None -> number_or x d = d).
Proof.
  unfold number_or. repeat split.
  - intros q -> Hnz. destruct (Qeq_bool q 0) eqn:E; [|reflexivity].
    apply Qeq_bool_iff in E. contradiction.
  - intros q -> Hz. apply Qeq_bool_iff in Hz. now rewrite Hz.
  - now intros ->.
Qed.

(** C10. In every result returned by [executeResearchDepth], whatever
    the collaborators do, [weightedLearnings] has one entry per
    learning, in the same order and with the learning as content; the
    reliability of entry [i] is the stored reliability at index [i]
    when there is one and it is not 0, and it is 0.5 when the stored
    value is missing or is 0. *)
Theorem weightedLearnings_one_per_learning
        (search : string -> SearchOptions -> Exc (Result SearchResult ResearchError))
        (plan : QueryGenerationContext -> Exc (list SearchQuery))
        (pLimit : Z -> Exc unit)
        (process : list SearchResult -> ResearchParams -> string -> Processed)
        (config : Config) (params : ResearchParams) (context : ResearchContext.t)
        (remainingDepth : Z) (cid : string) (r : ResearchResult.t) :
  executeResearchDepth search plan pLimit process config params context remainingDepth cid
    = Return r ->
  length (ResearchResult.weightedLearnings r) = length (ResearchResult.learnings r)
  /\ forall (i : nat) (learning : string),
      ResearchResult.learnings r !! i = Some learning ->
      exists w,
        ResearchResult.weightedLearnings r !! i = Some w
        /\ content w = learning
        /\ (forall q, ResearchResult.learningReliabilities r !! i = Some q ->
                      ~ (q == 0)%Q -> reliability w = q)
        /\ (forall q, ResearchResult.learningReliabilities r !! i = Some q ->
                      (q == 0)%Q -> reliability w = (1 # 2)%Q)
        /\ (ResearchResult.learningReliabilities r !! i = None ->
            reliability w = (1 # 2)%Q).
Proof.
  intros Hrun.
  apply executeResearchLevels_shape in Hrun as (_ & _ & _ & _ & _ & _ & Hw).
  rewrite Hw. unfold weighted. split; [apply length_imap|].
  intros i learning Hi. eexists. split.
  - rewrite list_lookup_imap, Hi. reflexivity.
  - cbn [content reliability]. split; [reflexivity|].
    apply number_or_spec.
Qed.

(** C10 on the file as written, at a level reached with three
    learnings whose reliabilities are 0.8 and 0 (none for the third):
    the weights are 0.8, 0.5 and 0.5. *)
Lemma weightedLearnings_one_per_learning_witness :
  exists r,
    executeResearchDepth finds_one_page asks_one_query pLimit_not_defined
                         processSearchResults a_config two_levels after_one_page 0
                         "research_1" = Return r
    /\ length (ResearchResult.weightedLearnings r) = 3%nat
    /\ reliability <$> ResearchResult.weightedLearnings r
       = [(8 # 10)%Q; (1 # 2)%Q; (1 # 2)%Q].
Proof.
  eexists. split; [reflexivity|].
  match goal with
  | |- length (ResearchResult.weightedLearnings ?r) = _ /\ _ =>
      destruct (weightedLearnings_one_per_learning
                  finds_one_page asks_one_query pLimit_not_defined
                  processSearchResults a_config two_levels after_one_page
                  0 "research_1" r eq_refl) as [Hlen _]
  end.
  split; [rewrite Hlen; reflexivity | reflexivity].
Defined.

End ResearchRecursion.

(** ** MCP tools: argument validation and the reported average *)

Section McpTools.
Import Shared ResearchTypes McpServer.

(** A number below 1 or above 5. *)
Definition outside_1_to_5 (v : option JsValue) : Prop :=
  exists q, v = Some (JNum q) /\ (q < 1 \/ 5 < q)%Q.

Lemma z_number_min_max_rejects (path : string) (v : option JsValue) :
  outside_1_to_5 v ->
  z_number_min_max 1 5 path v = Err (too_small path)
  \/ z_number_min_max 1 5 path v = Err (too_big path).
Proof.
  intros (q & -> & Hq). unfold z_number_min_max.
  destruct (Qle_bool 1 q) eqn:Elo; cbn [negb]; [|left; reflexivity].
  destruct (Qle_bool q 5) eqn:Ehi; cbn [negb]; [|right; reflexivity].
  apply Qle_bool_iff in Elo, Ehi. exfalso.
  destruct Hq as [Hq|Hq].
  - exact (Qlt_not_le _ _ Hq Elo).
  - exact (Qlt_not_le _ _ Hq Ehi).
Qed.

Lemma z_number_min_max_accepts (path : string) (q : Q) :
  (1 <= q)%Q -> (q <= 5)%Q -> z_number_min_max 1 5 path (Some (JNum q)) = Ok q.
Proof.
  intros Hlo Hhi. unfold z_number_min_max.
  apply Qle_bool_iff in Hlo, Hhi. now rewrite Hlo, Hhi.
Qed.

(** For both research tools, in both versions of the server and
    whatever the imports would do: when [depth] or [breadth] is a
    number below 1 or above 5, the call is answered with a validation
    error that lists at least one issue, the callback does not run (no
    [getModel], [deepResearch] or [writeFinalReport] call is made), and
    so no success, empty or not, is produced. *)
Lemma tool_schema_rejects_outside_range
        (variant : Variant) (imports : Imports) (tool : Tool)
        (arguments : gmap string JsValue) :
  outside_1_to_5 (arguments !! "depth") \/ outside_1_to_5 (arguments !! "breadth") ->
  exists issues,
    callTool variant imports tool arguments = (InvalidParams issues, [])
    /\ issues <> [].
Proof.
  intros Hout. unfold callTool, researchToolSchema.
  destruct Hout as [Hd|Hb].
  - destruct (z_number_min_max_rejects "depth" _ Hd) as [-> | ->];
      destruct (z_string_min1 _ _), (z_number_min_max 1 5 "breadth" _),
        (z_string_optional "model" _), (z_number_optional _ _),
        (z_string_optional "sourcePreferences" _);
      cbn; eexists; (split; [reflexivity|discriminate]).
  - destruct (z_number_min_max_rejects "breadth" _ Hb) as [-> | ->];
      destruct (z_string_min1 _ _), (z_number_min_max 1 5 "depth" _),
        (z_string_optional "model" _), (z_number_optional _ _),
        (z_string_optional "sourcePreferences" _);
      cbn; eexists; (split; [reflexivity|discriminate]).
Qed.

Definition finds_nothing : Imports :=
  {| getModel := fun _ => Return "google:gemini-2.5-pro"%string;
     deepResearch := fun _ _ =>
       Return {| ResearchResult.learnings := [];
                 ResearchResult.learningReliabilities := [];
                 ResearchResult.visitedUrls := [];
                 ResearchResult.sourceMetadata := [];
                 ResearchResult.weightedLearnings := [] |};
     writeFinalReport := fun _ _ _ => Return "Nothing was found."%string |}.

Definition depth_zero : gmap string JsValue :=
  {[ "query" := JStr "topic"; "depth" := JNum 0; "breadth" := JNum 2 ]}.

Definition breadth_zero : gmap string JsValue :=
  {[ "query" := JStr "topic"; "depth" := JNum 2; "breadth" := JNum 0 ]}.

(** In the current server both tools report 0 when the session has no
    weighted learnings. *)
Lemma current_server_reports_zero (imports : Imports) (tool : Tool)
      (arguments : gmap string JsValue) (a : ResearchArguments)
      (m : string) (result : ResearchResult.t) :
  researchToolSchema arguments = Ok a ->
  getModel imports (model a) = Return m ->
  deepResearch imports a m = Return result ->
  ResearchResult.weightedLearnings result = [] ->
  match fst (callTool Current imports tool arguments) with
  | Responded (ResearchData _ printed coverage) =>
      average_reliability coverage = Finite 0
      /\ (printed = Zero \/ printed = ToFixed1 (Finite (0 * 100)%Q))
  | Responded (Report _ stats) => stats_averageReliability stats = Finite 0
  | Responded (IsError _) => tool = tool_deep_research
  | InvalidParams _ => False
  end.
Proof.
  intros Hargs Hmodel Hresult Hnone. unfold callTool. rewrite Hargs.
  destruct tool.
  - unfold deep_research. rewrite Hmodel, Hresult.
    destruct (writeFinalReport imports _ _ _); cbn; [|reflexivity].
    rewrite Hnone. reflexivity.
  - unfold research_sources. rewrite Hmodel, Hresult. cbn.
    unfold averageReliability. rewrite Hnone. cbn. split; [reflexivity|].
    destruct (length (ResearchResult.visitedUrls result)); [left|right]; reflexivity.
Qed.

(** In the earlier server both tools report NaN in that case. *)
Lemma earlier_server_average_of_none :
  averageReliability Earlier [] = NaN /\ averageReliability Current [] = Finite 0.
Proof. split; reflexivity. Qed.

Definition one_level : gmap string JsValue :=
  {[ "query" := JStr "topic"; "depth" := JNum 1; "breadth" := JNum 2 ]}.

(** C9 in the earlier version of the server, on a session that finds
    nothing: [research-sources] reports [average_reliability = NaN]
    (and prints NaN), and [deep-research] reports
    [averageReliability = NaN]; the current server reports 0 on the
    same session. *)
Theorem earlier_server_reports_NaN_without_learnings :
  callTool Earlier finds_nothing tool_research_sources one_level
    = (Responded
         (ResearchData 0 (ToFixed1 NaN)
            {| total_sources := 0; average_reliability := NaN;
               high_reliability_sources := 0; visited_urls := [] |}),
       [GetModel None;
        DeepResearch {| query := "topic"; depth := 1; breadth := 2; model := None;
                        tokenBudget := None; sourcePreferences := None |}])
  /\ fst (callTool Earlier finds_nothing tool_deep_research one_level)
     = Responded
         (Report "Nothing was found."
            {| totalLearnings := 0; totalSources := 0;
               stats_averageReliability := NaN |})
  /\ fst (callTool Current finds_nothing tool_research_sources one_level)
     = Responded
         (ResearchData 0 Zero
            {| total_sources := 0; average_reliability := Finite 0;
               high_reliability_sources := 0; visited_urls := [] |}).
Proof.
  repeat split; vm_compute; reflexivity.
Qed.

End McpTools.

(** ** Where the range of depth and breadth is checked *)

Section RangeCheck.
Import Shared DefaultResearchService.

(** C6, as the code has it. The range 1..5 is checked where the tools
    are declared and nowhere else. For both research tools, a [depth]
    or [breadth] below 1 or above 5 is answered with a validation
    error and the callback does not run: no [getModel], [deepResearch]
    or [writeFinalReport] call is made and no success is produced.
    [DefaultResearchService.conductResearch] checks no range: called
    with [depth <= 0], whatever the breadth, it returns [Ok] with the
    empty result, and consults neither the planner nor the search
    client. *)
Theorem range_checked_by_tool_schema_only
        (variant : McpServer.Variant) (imports : McpServer.Imports)
        (tool : McpServer.Tool) (arguments : gmap string JsValue)
        (search : string -> ResearchTypes.SearchOptions
                  -> Exc (Result ResearchTypes.SearchResult ResearchError))
        (plan : QueryGenerationContext -> Exc (list ResearchTypes.SearchQuery))
        (pLimit : Z -> Exc unit)
        (process : list ResearchTypes.SearchResult -> ResearchTypes.ResearchParams
                   -> string -> Processed)
        (config : Config) (params : ResearchTypes.ResearchParams) (cid : string) :
  (outside_1_to_5 (arguments !! "depth") \/ outside_1_to_5 (arguments !! "breadth") ->
   exists issues,
     McpServer.callTool variant imports tool arguments
       = (McpServer.InvalidParams issues, [])
     /\ issues <> [])
  /\
  (ResearchTypes.depth params <= 0 ->
   conductResearch search plan pLimit process config params cid = Ok nothing_found).
Proof.
  split.
  - apply tool_schema_rejects_outside_range.
  - apply conductResearch_without_levels.
Qed.

(** Collaborators that fail whenever they are consulted. *)
Definition search_is_down (q : string) (o : ResearchTypes.SearchOptions)
  : Exc (Result ResearchTypes.SearchResult ResearchError) :=
  Throw {| js_name := "Error"; js_message := "ECONNREFUSED" |}.

Definition planner_is_down (g : QueryGenerationContext)
  : Exc (list ResearchTypes.SearchQuery) :=
  Throw {| js_name := "APICallError"; js_message := "429" |}.

(** C6 at [depth = 0] and at [breadth = 0]: the tools reject the call
    with the [too_small] issue and nothing is called; the service,
    asked for no level, answers with the empty result. *)
Lemma range_checked_by_tool_schema_only_witness :
  McpServer.callTool McpServer.Current finds_nothing McpServer.tool_research_sources
                     depth_zero
    = (McpServer.InvalidParams [McpServer.too_small "depth"], [])
  /\ McpServer.callTool McpServer.Current finds_nothing McpServer.tool_deep_research
                        breadth_zero
     = (McpServer.InvalidParams [McpServer.too_small "breadth"], [])
  /\ conductResearch search_is_down planner_is_down pLimit_not_defined
                     processSearchResults a_config no_levels "research_1"
     = Ok nothing_found.
Proof.
  assert (H0 : outside_1_to_5 (Some (JNum 0))).
  { exists 0%Q. split; [reflexivity|]. left. reflexivity. }
  destruct (range_checked_by_tool_schema_only
              McpServer.Current finds_nothing McpServer.tool_research_sources depth_zero
              search_is_down planner_is_down pLimit_not_defined processSearchResults
              a_config no_levels "research_1") as [Hdepth Hservice].
  destruct (range_checked_by_tool_schema_only
              McpServer.Current finds_nothing McpServer.tool_deep_research breadth_zero
              search_is_down planner_is_down pLimit_not_defined processSearchResults
              a_config no_levels "research_1") as [Hbreadth _].
  destruct Hdepth as (issues1 & _ & _); [left; exact H0|].
  destruct Hbreadth as (issues2 & _ & _); [right; exact H0|].
  split; [reflexivity|]. split; [reflexivity|].
  apply Hservice. cbn. lia.
Defined.

(** C6 as stated fails at the service: [conductResearch] called with
    [depth = 0] and [breadth = 0] is not rejected. It answers [Ok]
    with a result that holds nothing (a zero-result success), and it
    does so with a planner and a search client that fail whenever
    they are consulted, so neither was. *)
Lemma conductResearch_accepts_depth_zero :
  ResearchTypes.depth no_levels = 0
  /\ ResearchTypes.breadth no_levels = 0
  /\ conductResearch search_is_down planner_is_down pLimit_not_defined
                     processSearchResults a_config no_levels "research_1"
     = Ok nothing_found
  /\ ResearchResult.learnings nothing_found = []
  /\ ResearchResult.visitedUrls nothing_found = [].
Proof. repeat split. Qed.

End RangeCheck.

(** * Further properties of the code *)

(** ** Content chunking *)

Section ContentChunking.
Import StreamingContentProcessor.

Lemma lastIndexOf_go_range (c : N) (s : JsString) :
  forall (i n : nat) (best : option nat) (j : nat),
    lastIndexOf_go c s i n best = Some j ->
    best = Some j \/ (i <= j < i + n)%nat.
Proof.
  induction s as [|x rest IH]; intros i n best j H.
  - destruct n; cbn in H; left; exact H.
  - destruct n as [|n']; cbn in H; [left; exact H|].
    apply IH in H as [H|H]; [|right; lia].
    destruct (N.eqb x c); [|left; exact H].
    injection H as <-. right. lia.
Qed.

Lemma lastIndexOf_le (c : N) (s : JsString) (fromIndex j : nat) :
  lastIndexOf c s fromIndex = Some j -> (j <= fromIndex)%nat.
Proof.
  intros H. apply lastIndexOf_go_range in H as [H|H]; [discriminate|lia].
Qed.

(** One iteration: the next index is strictly ahead, at most [size]
    ahead, and inside the string. *)
Lemma createChunks_step (size : nat) (content : JsString) (cur : nat) :
  (1 <= size)%nat -> (cur < length content)%nat ->
  let chunkEnd := Nat.min (cur + size) (length content) in
  let actualEnd :=
    if Nat.ltb chunkEnd (length content) then
      match lastIndexOf SPACE content chunkEnd with
      | Some lastSpace => if Nat.ltb cur lastSpace then lastSpace else chunkEnd
      | None => chunkEnd
      end
    else chunkEnd in
  (cur < actualEnd <= cur + size)%nat /\ (actualEnd <= length content)%nat.
Proof.
  intros Hsize Hcur chunkEnd actualEnd. subst actualEnd.
  assert (Hce : (cur < chunkEnd <= cur + size)%nat /\ (chunkEnd <= length content)%nat)
    by (subst chunkEnd; lia).
  destruct (Nat.ltb chunkEnd (length content)); [|exact Hce].
  destruct (lastIndexOf SPACE content chunkEnd) as [j|] eqn:Hj; [|exact Hce].
  apply lastIndexOf_le in Hj.
  destruct (Nat.ltb_spec cur j); [lia|exact Hce].
Qed.

Lemma slice_then_rest (content : JsString) (cur next : nat) :
  (cur <= next)%nat ->
  slice cur next content ++ drop next content = drop cur content.
Proof.
  intros Hle. unfold slice.
  replace next with (cur + (next - cur))%nat at 2 by lia.
  rewrite <- drop_drop. apply take_drop.
Qed.

Lemma createChunks_loop_spec (size : nat) (content : JsString) :
  (1 <= size)%nat ->
  forall (fuel cur : nat) (chunks : list JsString),
    (cur <= length content)%nat ->
    (length content - cur <= fuel)%nat ->
    Forall (fun chunk => (1 <= length chunk <= size)%nat) chunks ->
    concat (createChunks_loop size fuel content cur chunks)
      = concat chunks ++ drop cur content
    /\ Forall (fun chunk => (1 <= length chunk <= size)%nat)
              (createChunks_loop size fuel content cur chunks).
Proof.
  intros Hsize. induction fuel as [|fuel IH]; intros cur chunks Hcur Hfuel Hall.
  - cbn. rewrite drop_ge by lia. rewrite app_nil_r. auto.
  - cbn [createChunks_loop].
    destruct (Nat.ltb_spec cur (length content)) as [Hlt|Hge].
    + destruct (createChunks_step size content cur Hsize Hlt) as [Hnext Hin].
      cbv zeta in Hnext, Hin.
      set (next := if Nat.ltb (Nat.min (cur + size) (length content)) (length content)
                   then _ else _) in *.
      destruct (IH next (chunks ++ [slice cur next content])) as [Hcat Hsz].
      * exact Hin.
      * lia.
      * apply Forall_app. split; [exact Hall|]. constructor; [|constructor].
        unfold slice. rewrite length_take, length_drop. lia.
      * split; [|exact Hsz]. rewrite Hcat, concat_app. cbn [concat].
        rewrite app_nil_r, <- app_assoc. f_equal.
        apply slice_then_rest. lia.
    + rewrite drop_ge by lia. rewrite app_nil_r. auto.
Qed.

(** The chunks are a partition of the content: concatenated in order
    they give the content back, none is empty and none is longer than
    the chunk size. *)
Theorem createChunks_partition (url content : JsString) :
  concat (createChunks url content) = content
  /\ Forall (fun chunk => (1 <= length chunk <= maxChunkSize)%nat)
            (createChunks url content).
Proof.
  unfold createChunks, createChunksOf.
  destruct (createChunks_loop_spec maxChunkSize content) with
    (fuel := length content) (cur := 0%nat) (chunks := @nil JsString)
    as [Hcat Hall].
  - unfold maxChunkSize. lia.
  - lia.
  - lia.
  - constructor.
  - split; [exact Hcat|exact Hall].
Qed.

(** Consequences for the number of chunks: an empty content has no
    chunk, and a content of [n] units has at least [n / 5000] (rounded
    up) and at most [n] chunks. *)
Theorem createChunks_count (url content : JsString) :
  (length content <= length (createChunks url content) * maxChunkSize)%nat
  /\ (length (createChunks url content) <= length content)%nat
  /\ (content = [] -> createChunks url content = []).
Proof.
  assert (Hspec : concat (createChunks url content) = content
                  /\ Forall (fun chunk => (1 <= length chunk <= maxChunkSize)%nat)
                            (createChunks url content)).
  { unfold createChunks, createChunksOf.
    destruct (createChunks_loop_spec maxChunkSize content) with
      (fuel := length content) (cur := 0%nat) (chunks := @nil JsString)
      as [Hcat Hall]; try (unfold maxChunkSize; lia); [constructor|].
    split; [exact Hcat|exact Hall]. }
  destruct Hspec as [Hcat Hall].
  assert (Hsum : forall l : list JsString,
             Forall (fun chunk => (1 <= length chunk <= maxChunkSize)%nat) l ->
             (length l <= length (concat l) <= length l * maxChunkSize)%nat).
  { induction 1 as [|x l Hx _ IH]; cbn [concat length]; [lia|].
    rewrite length_app. lia. }
  apply Hsum in Hall. rewrite Hcat in Hall.
  split; [lia|]. split; [lia|].
  intros ->. reflexivity.
Qed.

Example createChunks_breaks_at_space :
  createChunksOf 8 (units "alpha beta gamma")
  = [units "alpha"; units " beta"; units " gamma"].
Proof. reflexivity. Qed.

Example createChunks_without_space :
  createChunksOf 4 (units "abcdefghij") = [units "abcd"; units "efgh"; units "ij"].
Proof. reflexivity. Qed.

End ContentChunking.

(** ** Performance metrics *)

Section MetricsFacts.
Import PerformanceMetrics.

(** One call of [recordSuccess] or [recordError]. *)
Inductive Recorded :=
| Success (operation : string) (duration : Z)
| Failure (operation : string) (error_message : string) (duration : option Z).

Definition operation_of (r : Recorded) : string :=
  match r with
  | Success op _ => op
  | Failure op _ _ => op
  end.

Definition is_failure (r : Recorded) : bool :=
  match r with
  | Success _ _ => false
  | Failure _ _ _ => true
  end.

Definition record (ms : PerformanceMetrics.t) (r : Recorded) : PerformanceMetrics.t :=
  match r with
  | Success op d => recordSuccess op d ms
  | Failure op msg d => recordError op msg d ms
  end.

(** The metrics after a sequence of recordings on a fresh instance. *)
Definition recorded (rs : list Recorded) : PerformanceMetrics.t :=
  fold_left record rs ∅.

Definition calls_of (op : string) (rs : list Recorded) : list Recorded :=
  List.filter (fun r => String.eqb (operation_of r) op) rs.

Definition failures_of (op : string) (rs : list Recorded) : list Recorded :=
  List.filter is_failure (calls_of op rs).

Lemma recorded_lookup (rs : list Recorded) (op : string) :
  match recorded rs !! op with
  | None => calls_of op rs = []
  | Some m =>
      calls_of op rs <> []
      /\ count m = Z.of_nat (length (calls_of op rs))
      /\ errors m = Z.of_nat (length (failures_of op rs))
  end.
Proof.
  induction rs as [|r rs IH] using rev_ind.
  - unfold recorded. cbn. rewrite lookup_empty. reflexivity.
  - unfold recorded in *. rewrite fold_left_app. cbn [fold_left].
    set (ms := fold_left record rs ∅) in *.
    unfold failures_of, calls_of in *. rewrite !List.filter_app. cbn [List.filter].
    destruct (String.eqb_spec (operation_of r) op) as [Heq|Hne].
    + assert (Hstep : exists m', record ms r !! op = Some m'
                /\ count m' = count (getOrCreateMetric op ms) + 1
                /\ errors m' = errors (getOrCreateMetric op ms)
                               + (if is_failure r then 1 else 0)).
      { destruct r as [op' d|op' msg d]; cbn in Heq; subst op'; cbn [record is_failure];
          unfold recordSuccess, recordError; rewrite lookup_insert_eq;
          eexists; (split; [reflexivity|]); cbn; split; lia. }
      destruct Hstep as (m' & -> & Hc & He).
      split; [intros H; apply app_eq_nil in H as [_ H]; discriminate|].
      rewrite Hc, He. unfold getOrCreateMetric.
      destruct (ms !! op) as [m|].
      * destruct IH as (_ & IHc & IHe). rewrite IHc, IHe.
        cbn [List.filter]. destruct (is_failure r); rewrite !length_app; cbn [length]; lia.
      * rewrite IH. cbn [List.filter count errors].
        destruct (is_failure r); cbn [length app]; lia.
    + assert (Hsame : record ms r !! op = ms !! op).
      { destruct r as [op' d|op' msg d]; cbn in Hne; cbn [record];
          unfold recordSuccess, recordError; now rewrite lookup_insert_ne. }
      rewrite Hsame. cbn [List.filter]. rewrite !app_nil_r. exact IH.
Qed.

(** After any sequence of recordings, [getMetrics] has no summary for
    an operation that was never recorded, and otherwise reports the
    number of recordings as [count], the number of failures as
    [errors], and their ratio, which lies between 0 and 1, as
    [errorRate]. *)
Theorem getMetrics_counts (rs : list Recorded) (op : string) :
  match getMetrics op (recorded rs) with
  | None => calls_of op rs = []
  | Some m =>
      s_count m = Z.of_nat (length (calls_of op rs))
      /\ s_errors m = Z.of_nat (length (failures_of op rs))
      /\ 0 < s_count m
      /\ 0 <= s_errors m <= s_count m
      /\ (errorRate m == inject_Z (s_errors m) / inject_Z (s_count m))%Q
      /\ (0 <= errorRate m <= 1)%Q
  end.
Proof.
  pose proof (recorded_lookup rs op) as H. unfold getMetrics.
  destruct (recorded rs !! op) as [m|]; [|exact H].
  destruct H as (Hne & Hc & He).
  assert (Hlen : (0 < length (calls_of op rs))%nat).
  { destruct (calls_of op rs); [contradiction|cbn; lia]. }
  assert (Hfail : (length (failures_of op rs) <= length (calls_of op rs))%nat).
  { unfold failures_of. apply List.filter_length_le. }
  destruct (Z.eqb_spec (count m) 0) as [E|E]; [lia|].
  cbn [s_count s_errors errorRate].
  split; [exact Hc|]. split; [exact He|]. split; [lia|]. split; [lia|].
  split; [reflexivity|].
  assert (Hpos : (0 < inject_Z (count m))%Q).
  { change 0%Q with (inject_Z 0). rewrite <- Zlt_Qlt. lia. }
  split.
  - apply Qle_shift_div_l; [exact Hpos|]. rewrite Qmult_0_l.
    change 0%Q with (inject_Z 0). rewrite <- Zle_Qle. lia.
  - apply Qle_shift_div_r; [exact Hpos|]. rewrite Qmult_1_l.
    rewrite <- Zle_Qle. lia.
Qed.

Lemma StronglySorted_lookup_le (l : list Z) :
  StronglySorted Z.le l ->
  forall (i j : nat) (x y : Z),
    (i <= j)%nat -> l !! i = Some x -> l !! j = Some y -> x <= y.
Proof.
  induction 1 as [|a l Hs IH Hall]; intros i j x y Hij Hi Hj.
  - discriminate.
  - destruct i as [|i], j as [|j]; cbn in Hi, Hj.
    + injection Hi as <-. injection Hj as <-. lia.
    + injection Hi as <-. rewrite Forall_forall in Hall.
      apply Hall. eapply list_elem_of_lookup_2. exact Hj.
    + lia.
    + eapply IH; [|exact Hi|exact Hj]. lia.
Qed.

Lemma percentile_index_mono (len : nat) (p q : Q) :
  (p <= q)%Q -> percentile_index len p <= percentile_index len q.
Proof.
  intros Hpq. unfold percentile_index.
  assert (Qceiling (inject_Z (Z.of_nat len) * p)
          <= Qceiling (inject_Z (Z.of_nat len) * q)); [|lia].
  apply Qceiling_resp_le.
  rewrite (Qmult_comm _ p), (Qmult_comm _ q).
  apply Qmult_le_compat_r; [exact Hpq|].
  change 0%Q with (inject_Z 0). rewrite <- Zle_Qle. lia.
Qed.

Lemma percentile_mono (l : list Z) (p q : Q) :
  StronglySorted Z.le l -> (0 < p)%Q -> (p <= q)%Q -> (q <= 1)%Q ->
  percentile l p <= percentile l q.
Proof.
  intros Hs Hp Hpq Hq. unfold percentile. destruct l as [|a l']; [lia|].
  set (l := a :: l') in *.
  assert (Hlen : (0 < length l)%nat) by (cbn; lia).
  pose proof (percentile_index_in_range (length l) p Hlen Hp
                (Qle_trans _ _ _ Hpq Hq)) as Hip.
  pose proof (percentile_index_in_range (length l) q Hlen
                (Qlt_le_trans _ _ _ Hp Hpq) Hq) as Hiq.
  pose proof (percentile_index_mono (length l) p q Hpq) as Hm.
  destruct (lookup_lt_is_Some_2 l (Z.to_nat (percentile_index (length l) p)))
    as [x Hx]; [lia|].
  destruct (lookup_lt_is_Some_2 l (Z.to_nat (percentile_index (length l) q)))
    as [y Hy]; [lia|].
  rewrite Hx, Hy. cbn [default].
  eapply (StronglySorted_lookup_le l Hs); [|exact Hx|exact Hy]. lia.
Qed.

Lemma percentile_elem (l : list Z) (p : Q) :
  l <> [] -> (0 < p)%Q -> (p <= 1)%Q -> percentile l p ∈ l.
Proof.
  intros Hne Hp Hp1. unfold percentile. destruct l as [|a l']; [contradiction|].
  set (l := a :: l') in *.
  assert (Hlen : (0 < length l)%nat) by (cbn; lia).
  pose proof (percentile_index_in_range (length l) p Hlen Hp Hp1) as Hip.
  destruct (lookup_lt_is_Some_2 l (Z.to_nat (percentile_index (length l) p)))
    as [x Hx]; [lia|].
  rewrite Hx. cbn [default]. eapply list_elem_of_lookup_2. exact Hx.
Qed.

(** In every summary the percentiles are ordered, p50 <= p95 <= p99;
    each of them is one of the recorded durations when there is one,
    and 0 when no duration was recorded. *)
Theorem getMetrics_percentiles (op : string) (ms : PerformanceMetrics.t)
        (metric : OperationMetrics) (m : MetricsSummary) :
  ms !! op = Some metric ->
  getMetrics op ms = Some m ->
  p50Duration m <= p95Duration m <= p99Duration m
  /\ (durations metric <> [] ->
      p50Duration m ∈ durations metric
      /\ p95Duration m ∈ durations metric
      /\ p99Duration m ∈ durations metric)
  /\ (durations metric = [] ->
      p50Duration m = 0 /\ p95Duration m = 0 /\ p99Duration m = 0).
Proof.
  intros Hlook Hm. unfold getMetrics in Hm. rewrite Hlook in Hm.
  destruct (count metric =? 0); [discriminate|]. injection Hm as <-.
  cbn [p50Duration p95Duration p99Duration]. unfold sortedDurations.
  pose proof (StronglySorted_merge_sort Z.le (durations metric)) as Hs.
  pose proof (merge_sort_Permutation Z.le (durations metric)) as Hperm.
  split; [|split].
  - split; apply percentile_mono; try exact Hs; reflexivity || (cbv; discriminate).
  - intros Hne.
    assert (Hne' : merge_sort Z.le (durations metric) <> []).
    { intros E. rewrite E in Hperm. symmetry in Hperm.
      apply Permutation_nil_r in Hperm. contradiction. }
    repeat split;
      apply (proj1 (elem_of_Permutation_proper _ _ _ Hperm));
      apply percentile_elem; try exact Hne'; reflexivity || (cbv; discriminate).
  - intros E. rewrite E. repeat split; reflexivity.
Qed.

Definition three_recordings : list Recorded :=
  [Success "search" 300; Success "search" 100; Failure "search" "timeout" (Some 9000)].

Lemma getMetrics_percentiles_witness :
  exists m,
    getMetrics "search" (recorded three_recordings) = Some m
    /\ p50Duration m <= p95Duration m <= p99Duration m.
Proof.
  destruct (getMetrics "search" (recorded three_recordings)) as [m|] eqn:Hm;
    [|vm_compute in Hm; discriminate].
  destruct (recorded three_recordings !! "search") as [metric|] eqn:Hl;
    [|vm_compute in Hl; discriminate].
  exists m. split; [reflexivity|].
  exact (proj1 (getMetrics_percentiles "search" (recorded three_recordings)
                  metric m Hl Hm)).
Defined.

Lemma last_drop_lt {A} (n : nat) (l : list A) :
  (n < length l)%nat -> last (drop n l) = last l.
Proof.
  intros Hn. rewrite <- (take_drop n l) at 2. rewrite last_app.
  destruct (last (drop n l)) eqn:E; [reflexivity|].
  apply last_None in E. apply (f_equal length) in E.
  rewrite length_drop in E. cbn in E. lia.
Qed.

(** [recordSuccess] keeps a window: after it the operation holds at
    most 1000 durations, they are the most recent ones in order, and
    the newest is the one just recorded. [recordError] appends its
    duration without trimming. *)
Theorem recordSuccess_window (op : string) (d : Z) (ms : PerformanceMetrics.t) :
  exists m',
    recordSuccess op d ms !! op = Some m'
    /\ (length (durations m') <= 1000)%nat
    /\ durations m' `suffix_of` durations (getOrCreateMetric op ms) ++ [d]
    /\ last (durations m') = Some d
    /\ forall msg d',
        durations (getOrCreateMetric op (recordError op msg (Some d') ms))
        = durations (getOrCreateMetric op ms) ++ [d'].
Proof.
  unfold recordSuccess. rewrite lookup_insert_eq. eexists. split; [reflexivity|].
  cbn [durations]. set (ds := durations (getOrCreateMetric op ms) ++ [d]).
  assert (Hlast : last ds = Some d) by (unfold ds; apply last_snoc).
  split; [|split; [|split]].
  - destruct (Nat.ltb_spec maxDurations (length ds)) as [H|H].
    + unfold slice_last. rewrite length_drop. unfold maxDurations in *. lia.
    + unfold maxDurations in H. lia.
  - destruct (Nat.ltb maxDurations (length ds)); [|reflexivity].
    unfold slice_last. apply suffix_drop.
  - destruct (Nat.ltb_spec maxDurations (length ds)) as [H|H]; [|exact Hlast].
    unfold slice_last. rewrite last_drop_lt; [exact Hlast|]. unfold maxDurations in *. lia.
  - intros msg d'. unfold recordError, getOrCreateMetric at 1.
    rewrite lookup_insert_eq. reflexivity.
Qed.

End MetricsFacts.

(** ** LRU content cache *)

Section LruFacts.
Import LRUContentCache.
Context {T : Type}.

Definition keys {V} (m : list (string * V)) : list string := map fst m.

Lemma keys_map_delete {V} (k : string) (m : list (string * V)) :
  keys (map_delete k m) = filter (fun x => x <> k) (keys m).
Proof.
  unfold map_delete, keys. induction m as [|[k' v] m IH]; [reflexivity|].
  cbn [map fst]. rewrite !filter_cons. cbn [fst].
  destruct (decide (k' <> k)); cbn [map fst]; now rewrite IH.
Qed.

Lemma map_delete_absent {V} (k : string) (m : list (string * V)) :
  k ∉ keys m -> map_delete k m = m.
Proof.
  unfold map_delete, keys. induction m as [|[k' v] m IH]; intros Hk; [reflexivity|].
  cbn [map fst] in Hk. apply not_elem_of_cons in Hk as [Hne Hk].
  rewrite filter_cons. cbn [fst].
  destruct (decide (k' <> k)) as [_|Habs]; [|exfalso; apply Habs; congruence].
  now rewrite IH.
Qed.

Lemma map_get_None {V} (k : string) (m : list (string * V)) :
  map_get k m = None <-> k ∉ keys m.
Proof.
  unfold map_get, keys. induction m as [|[k' v] m IH].
  - cbn. split; [intros _; apply not_elem_of_nil|reflexivity].
  - cbn [find fst map]. destruct (String.eqb_spec k' k) as [->|Hne].
    + cbn. split; [discriminate|]. intros H. exfalso. apply H. left.
    + rewrite IH. rewrite not_elem_of_cons. split; [intros H; split; congruence|tauto].
Qed.

Lemma map_set_absent {V} (k : string) (v : V) (m : list (string * V)) :
  k ∉ keys m -> map_set k v m = m ++ [(k, v)].
Proof.
  unfold keys. induction m as [|[k' w] m IH]; intros Hk; [reflexivity|].
  cbn [map fst] in Hk. apply not_elem_of_cons in Hk as [Hne Hk].
  cbn [map_set]. destruct (String.eqb_spec k' k); [congruence|].
  cbn [app]. now rewrite IH.
Qed.

Lemma keys_map_set_present {V} (k : string) (v : V) (m : list (string * V)) :
  k ∈ keys m -> keys (map_set k v m) = keys m.
Proof.
  unfold keys. induction m as [|[k' w] m IH]; intros Hk.
  - apply elem_of_nil in Hk. contradiction.
  - cbn [map_set]. destruct (String.eqb_spec k' k) as [->|Hne]; [reflexivity|].
    cbn [map fst] in *. apply elem_of_cons in Hk as [Hk|Hk]; [congruence|].
    now rewrite IH.
Qed.

Lemma map_get_map_set {V} (k : string) (v : V) (m : list (string * V)) :
  map_get k (map_set k v m) = Some v.
Proof.
  unfold map_get. induction m as [|[k' w] m IH].
  - cbn. now rewrite String.eqb_refl.
  - cbn [map_set]. destruct (String.eqb_spec k' k) as [->|Hne].
    + cbn. now rewrite String.eqb_refl.
    + cbn [find fst]. destruct (String.eqb_spec k' k); [congruence|exact IH].
Qed.

Lemma map_delete_shrinks {V} (k : string) (m : list (string * V)) :
  k ∈ keys m -> (length (map_delete k m) < length m)%nat.
Proof.
  unfold keys. intros Hk. apply list_elem_of_fmap in Hk as ([k' v] & -> & Hin).
  unfold map_delete. eapply length_filter_lt; [exact Hin|]. cbn. tauto.
Qed.

Lemma NoDup_keys_map_delete {V} (k : string) (m : list (string * V)) :
  NoDup (keys m) -> NoDup (keys (map_delete k m)) /\ k ∉ keys (map_delete k m).
Proof.
  intros Hnd. rewrite keys_map_delete. split.
  - now apply NoDup_filter.
  - rewrite list_elem_of_filter. tauto.
Qed.

Lemma NoDup_keys_map_set {V} (k : string) (v : V) (m : list (string * V)) :
  NoDup (keys m) -> NoDup (keys (map_set k v m)).
Proof.
  intros Hnd. destruct (decide (k ∈ keys m)) as [Hin|Hout].
  - now rewrite keys_map_set_present.
  - rewrite map_set_absent by exact Hout. unfold keys in *. rewrite map_app.
    apply NoDup_app. split; [exact Hnd|]. split; [|apply NoDup_singleton].
    intros x Hx. cbn. rewrite list_elem_of_singleton. intros ->. contradiction.
Qed.

Lemma length_map_set {V} (k : string) (v : V) (m : list (string * V)) :
  (length (map_set k v m) <= S (length m))%nat.
Proof.
  induction m as [|[k' w] m IH]; cbn [map_set]; [cbn; lia|].
  destruct (String.eqb k' k); cbn [length]; lia.
Qed.

(** The operations a user of the cache performs. *)
Inductive LruOp :=
| DoSet (now : Z) (key : string) (v : T)
| DoGet (now : Z) (key : string)
| DoClear.

Definition perform (c : LRUContentCache.t T) (op : LruOp) : LRUContentCache.t T :=
  match op with
  | DoSet now key v => set now key v c
  | DoGet now key => snd (get now key c)
  | DoClear => clear c
  end.

Definition well_formed (c : LRUContentCache.t T) : Prop :=
  NoDup (keys (cache c)) /\ (size c <= Nat.max 1 (maxSize c))%nat.

Lemma perform_well_formed (c : LRUContentCache.t T) (op : LruOp) :
  well_formed c ->
  well_formed (perform c op)
  /\ maxSize (perform c op) = maxSize c /\ ttl (perform c op) = ttl c.
Proof.
  intros [Hnd Hsz]. unfold well_formed, size in *. destruct op as [now key v|now key|].
  - cbn [perform]. unfold set. cbn [cache maxSize ttl with_cache].
    split; [|split; reflexivity].
    set (m1 := match map_get key (cache c) with
               | Some _ => map_delete key (cache c)
               | None => cache c
               end).
    assert (H1 : NoDup (keys m1) /\ (key ∉ keys m1) /\ (length m1 <= length (cache c))%nat).
    { subst m1. destruct (map_get key (cache c)) eqn:E.
      - destruct (NoDup_keys_map_delete key (cache c) Hnd). repeat split; auto.
        unfold map_delete. apply length_filter.
      - apply map_get_None in E. auto. }
    destruct H1 as (Hnd1 & Hk1 & Hl1).
    set (m2 := if Nat.leb (maxSize c) (length m1) then _ else m1).
    assert (H2 : NoDup (keys m2) /\ (key ∉ keys m2)
                 /\ (S (length m2) <= Nat.max 1 (maxSize c))%nat).
    { subst m2. destruct (Nat.leb_spec (maxSize c) (length m1)) as [Hfull|Hroom].
      - destruct m1 as [|[k0 e0] rest] eqn:Em1; [cbn; repeat split; auto; lia|].
        rewrite <- Em1 in *.
        destruct (NoDup_keys_map_delete k0 m1 Hnd1) as [Hnd2 _].
        split; [exact Hnd2|]. split.
        + rewrite keys_map_delete, list_elem_of_filter. tauto.
        + assert (length (map_delete k0 m1) < length m1)%nat; [|lia].
          apply map_delete_shrinks. rewrite Em1. cbn. left.
      - repeat split; auto. lia. }
    destruct H2 as (Hnd2 & Hk2 & Hl2).
    split; [now apply NoDup_keys_map_set|].
    pose proof (length_map_set key {| value := v; timestamp := now; accessCount := 1 |} m2).
    rewrite map_set_absent by exact Hk2. rewrite length_app. cbn. lia.
  - cbn [perform]. unfold get. destruct (map_get key (cache c)) as [e|] eqn:E.
    + assert (Hin : key ∈ keys (cache c)).
      { destruct (decide (key ∈ keys (cache c))); [assumption|].
        apply map_get_None in n. congruence. }
      destruct (NoDup_keys_map_delete key (cache c) Hnd) as [Hnd' Hk'].
      pose proof (map_delete_shrinks key (cache c) Hin) as Hlt.
      destruct (_ >? _); cbn [snd cache maxSize ttl with_cache];
        (split; [|split; reflexivity]).
      * split; [exact Hnd'|lia].
      * split; [now apply NoDup_keys_map_set|].
        rewrite map_set_absent by exact Hk'. rewrite length_app. cbn. lia.
    + cbn. repeat split; auto.
  - cbn. repeat split; [constructor|lia].
Qed.

(** Whatever is set, read and cleared on a cache, no key is stored
    twice and the number of entries never exceeds [maxSize] (1 for a
    cache created with [maxSize = 0], which still keeps the newest
    entry). *)
Theorem lru_never_exceeds_capacity (capacity : option nat) (ttlMs : option Z)
        (ops : list LruOp) :
  let c := fold_left perform ops (create capacity ttlMs) in
  NoDup (keys (cache c))
  /\ (size c <= Nat.max 1 (default 100%nat capacity))%nat.
Proof.
  cbv zeta.
  assert (H : well_formed (fold_left perform ops (create capacity ttlMs))
              /\ maxSize (fold_left perform ops (create capacity ttlMs))
                 = default 100%nat capacity).
  { induction ops as [|op ops IH] using rev_ind.
    - cbn. split; [split; [constructor|cbn; lia]|reflexivity].
    - rewrite fold_left_app. cbn [fold_left]. destruct IH as [Hwf Hmax].
      destruct (perform_well_formed _ op Hwf) as (Hwf' & Hmax' & _).
      split; [exact Hwf'|congruence]. }
  destruct H as [[Hnd Hsz] Hmax]. rewrite Hmax in Hsz. auto.
Qed.

(** A value that was set is read back, whatever the cache held, as
    long as the read happens no later than [ttl] after the write. *)
Theorem lru_set_then_get (c : LRUContentCache.t T) (key : string) (v : T)
        (written read : Z) :
  read - written <= ttl c ->
  fst (get read key (set written key v c)) = Some v.
Proof.
  intros Hfresh. unfold get, set. cbn [cache with_cache ttl].
  rewrite map_get_map_set. cbn [timestamp value].
  destruct (Z.gtb_spec (read - written) (ttl c)); [lia|reflexivity].
Qed.

(** On a full cache, setting a new key evicts exactly the entry at the
    front (the least recently written or read one) and appends the
    new entry; every other entry stays, in order. *)
Theorem lru_set_evicts_oldest (c : LRUContentCache.t T) (key : string) (v : T)
        (now : Z) (k0 : string) (e0 : CacheEntry T)
        (rest : list (string * CacheEntry T)) :
  cache c = (k0, e0) :: rest ->
  NoDup (keys (cache c)) ->
  length (cache c) = maxSize c ->
  key ∉ keys (cache c) ->
  cache (set now key v c)
  = rest ++ [(key, {| value := v; timestamp := now; accessCount := 1 |})].
Proof.
  intros Hc Hnd Hfull Hnew. unfold set. cbn [cache with_cache].
  rewrite (proj2 (map_get_None key (cache c)) Hnew).
  rewrite <- Hfull, Nat.leb_refl. rewrite Hc in *.
  cbn [keys map fst] in Hnd, Hnew.
  apply NoDup_cons in Hnd as [Hk0 Hnd]. apply not_elem_of_cons in Hnew as [Hne Hnew].
  assert (Hdel : map_delete k0 ((k0, e0) :: rest) = rest).
  { unfold map_delete. rewrite filter_cons. cbn [fst].
    destruct (decide (k0 <> k0)); [congruence|].
    now apply (map_delete_absent k0 rest). }
  rewrite Hdel. now apply map_set_absent.
Qed.

(** A read that hits moves the entry to the back (most recently used)
    and counts the access; the other entries keep their order. *)
Theorem lru_get_refreshes (c : LRUContentCache.t T) (key : string) (now : Z)
        (before after : list (string * CacheEntry T)) (e : CacheEntry T) :
  cache c = before ++ (key, e) :: after ->
  NoDup (keys (cache c)) ->
  now - timestamp e <= ttl c ->
  get now key c
  = (Some (value e),
     with_cache (before ++ after
                 ++ [(key, {| value := value e; timestamp := timestamp e;
                              accessCount := accessCount e + 1 |})]) c).
Proof.
  intros Hc Hnd Hfresh. rewrite Hc in Hnd. unfold keys in Hnd.
  rewrite map_app in Hnd. cbn [map fst] in Hnd.
  apply NoDup_app in Hnd as (_ & Hsep & Hnd).
  apply NoDup_cons in Hnd as [Hafter _].
  assert (Hbefore : key ∉ keys before).
  { intros Hin. apply (Hsep key Hin). left. }
  assert (Hget : map_get key (cache c) = Some e).
  { rewrite Hc. unfold map_get. clear -Hbefore.
    induction before as [|[k' w] before IH]; cbn [app find fst].
    - now rewrite String.eqb_refl.
    - cbn [keys map fst] in Hbefore. apply not_elem_of_cons in Hbefore as [Hne Hb].
      destruct (String.eqb_spec k' key); [congruence|]. now apply IH. }
  assert (Hdel : map_delete key (cache c) = before ++ after).
  { rewrite Hc. unfold map_delete. rewrite filter_app, filter_cons. cbn [fst].
    destruct (decide (key <> key)); [congruence|].
    f_equal; [now apply (map_delete_absent key before)
             |now apply (map_delete_absent key after)]. }
  unfold get. rewrite Hget.
  destruct (Z.gtb_spec (now - timestamp e) (ttl c)); [lia|].
  rewrite Hdel. rewrite map_set_absent.
  - now rewrite <- app_assoc.
  - unfold keys. rewrite map_app, elem_of_app. tauto.
Qed.

End LruFacts.

Section LruExamples.
Import LRUContentCache.

Definition two_slots : LRUContentCache.t string :=
  set 20 "b" "second" (set 10 "a" "first" (create (Some 2%nat) (Some 1000))).

Lemma lru_set_then_get_witness :
  fst (get 1010 "a" (set 10 "a" "first"%string two_slots)) = Some "first"%string.
Proof. apply lru_set_then_get. cbn. lia. Defined.

Lemma lru_set_evicts_oldest_witness :
  keys (cache (set 30 "c" "third"%string two_slots)) = ["b"%string; "c"%string].
Proof.
  rewrite (lru_set_evicts_oldest two_slots "c" "third"%string 30 "a"
             {| value := "first"%string; timestamp := 10; accessCount := 1 |}
             [("b"%string, {| value := "second"%string; timestamp := 20;
                              accessCount := 1 |})]).
  - reflexivity.
  - reflexivity.
  - apply (bool_decide_unpack _). vm_compute. exact I.
  - reflexivity.
  - apply (bool_decide_unpack _). vm_compute. exact I.
Defined.

Lemma lru_get_refreshes_witness :
  keys (cache (snd (get 40 "a" two_slots))) = ["b"%string; "a"%string]
  /\ keys (cache (set 50 "c" "third"%string (snd (get 40 "a" two_slots))))
     = ["a"%string; "c"%string].
Proof.
  rewrite (lru_get_refreshes two_slots "a" 40 []
             [("b"%string, {| value := "second"%string; timestamp := 20;
                              accessCount := 1 |})]
             {| value := "first"%string; timestamp := 10; accessCount := 1 |}).
  - split; reflexivity.
  - reflexivity.
  - apply (bool_decide_unpack _). vm_compute. exact I.
  - cbn. lia.
Defined.

End LruExamples.

(** ** Model provider: cache keys, failures, accounting *)

Section ModelProviderFacts.
Import Shared BatchedModelProvider.

(** The text the cache key is computed from. *)
Definition keyText (params : GenerationParams) : string :=
  (default "" (system params) +:+ "|" +:+ prompt params +:+ "|" +:+ schema params)%string.

Lemma substring_string_of_list (n : nat) (l : list ascii) :
  String.substring 0 n (string_of_list_ascii l) = string_of_list_ascii (take n l).
Proof.
  revert l. induction n as [|n IH]; intros l.
  - destruct l; reflexivity.
  - destruct l as [|c l]; [reflexivity|]. cbn. now rewrite IH.
Qed.

Lemma list_of_substring (n : nat) (s : string) :
  list_ascii_of_string (String.substring 0 n s) = take n (list_ascii_of_string s).
Proof.
  revert s. induction n as [|n IH]; intros s.
  - destruct s; reflexivity.
  - destruct s as [|c s]; [reflexivity|]. cbn. now rewrite IH.
Qed.

(** The first [4k] base64 digits are the encoding of the first [3k]
    bytes. *)
Lemma take_base64_bytes (k : nat) :
  forall bytes : list N,
    take (4 * k) (base64_bytes bytes) = base64_bytes (take (3 * k) bytes).
Proof.
  induction k as [|k IH]; intros bytes.
  - destruct bytes; reflexivity.
  - replace (4 * S k)%nat with (S (S (S (S (4 * k))))) by lia.
    replace (3 * S k)%nat with (S (S (S (3 * k)))) by lia.
    destruct bytes as [|a [|b [|c rest]]].
    + reflexivity.
    + cbn [base64_bytes take]. now rewrite !take_nil.
    + cbn [base64_bytes take]. now rewrite !take_nil.
    + cbn [take]. cbn [base64_bytes]. cbn [app take]. now rewrite IH.
Qed.

Lemma getCacheKey_of_prefix (params : GenerationParams) :
  getCacheKey params = base64 (String.substring 0 48 (keyText params)).
Proof.
  unfold getCacheKey, base64. fold (keyText params).
  rewrite substring_string_of_list.
  change 64%nat with (4 * 16)%nat. rewrite take_base64_bytes.
  rewrite list_of_substring. change (3 * 16)%nat with 48%nat.
  now rewrite <- firstn_map.
Qed.

(** Only the first 48 bytes of [system|prompt|schema] reach the cache
    key: two requests that agree on them have the same key, so a
    stored, unexpired, truthy result of the first is returned for the
    second without a model call, however the rest of their prompts
    differ. *)
Theorem cache_key_ignores_text_after_48_bytes (p1 p2 : GenerationParams) :
  String.substring 0 48 (keyText p1) = String.substring 0 48 (keyText p2) ->
  getCacheKey p1 = getCacheKey p2
  /\ forall (env : Env) (s : BatchedModelProvider.t) (e : CacheEntry),
      cache s !! getCacheKey p1 = Some e ->
      t_lookup env <= timestamp e + ttl e ->
      truthy (result e) = true ->
      returned (generateObject p2 env s) = Ok (result e)
      /\ modelCalls (generateObject p2 env s) = [].
Proof.
  intros Hprefix.
  assert (Hkey : getCacheKey p1 = getCacheKey p2).
  { rewrite !getCacheKey_of_prefix. now rewrite Hprefix. }
  split; [exact Hkey|].
  intros env s e He Hfresh Htruthy. rewrite Hkey in He.
  destruct (generateObject_hit p2 env s e He Hfresh Htruthy) as (Hr & Hc & _).
  split; assumption.
Qed.

Definition long_system_prompt : string :=
  "You are an expert researcher. Today is 2025-01-13. Follow the instructions.".

Definition asks_about (topic : string) : GenerationParams :=
  {| model := "google:gemini-2.5-pro";
     system := Some long_system_prompt;
     prompt := topic;
     schema := "{}" |}.

Definition answers_with (v : JsValue) (t0 : Z) : Env :=
  {| t_start := t0; t_lookup := t0; t_done := t0 + 500; t_store := t0 + 500;
     t_cleanup := t0 + 500;
     sdk_generateObject := fun _ => Generated v (Some 10) |}.

(** Two requests under the same long system prompt: the answer
    generated for the first question is served for the second. *)
Lemma cache_key_ignores_text_after_48_bytes_witness :
  let first := generateObject (asks_about "quantum computing") (answers_with (JStr "qubits") 0)
                              create in
  let second := generateObject (asks_about "medieval farming") (answers_with (JStr "ploughs") 1000)
                               (after first) in
  getCacheKey (asks_about "quantum computing") = getCacheKey (asks_about "medieval farming")
  /\ returned second = Ok (JStr "qubits") /\ modelCalls second = [].
Proof.
  cbv zeta.
  destruct (cache_key_ignores_text_after_48_bytes
              (asks_about "quantum computing") (asks_about "medieval farming"))
    as [Hkey Hserved]; [reflexivity|].
  split; [exact Hkey|].
  apply (Hserved _ _ {| result := JStr "qubits"; timestamp := 500; ttl := 300000 |}).
  - vm_compute. reflexivity.
  - vm_compute. discriminate.
  - reflexivity.
Defined.

(** A model failure is returned as an [AIModelError] carrying the
    failure, and stores nothing: every entry in the cache afterwards
    was there before. *)
Theorem failed_generation_is_not_cached (params : GenerationParams) (env : Env)
        (s : BatchedModelProvider.t) (failure : JsError) :
  truthy (fst (getFromCache (getCacheKey params) (t_lookup env) s)) = false ->
  sdk_generateObject env params = Failed failure ->
  returned (generateObject params env s)
    = Err (new_AIModelError "Failed to generate object" (Some failure))
  /\ modelCalls (generateObject params env s) = [params]
  /\ forall k e, cache (after (generateObject params env s)) !! k = Some e ->
                 cache s !! k = Some e.
Proof.
  intros Hmiss Hfail. unfold generateObject.
  set (s0 := with_stats _ s).
  assert (Hsame : fst (getFromCache (getCacheKey params) (t_lookup env) s0)
                  = fst (getFromCache (getCacheKey params) (t_lookup env) s)
                  /\ forall k e,
                      cache (snd (getFromCache (getCacheKey params) (t_lookup env) s0)) !! k
                        = Some e -> cache s !! k = Some e).
  { unfold getFromCache, s0. cbn [cache with_stats].
    destruct (cache s !! getCacheKey params) as [e0|] eqn:E; [|auto].
    destruct (expired _ e0); cbn [fst snd cache with_cache]; [|auto].
    split; [reflexivity|]. intros k e Hk.
    apply lookup_delete_Some in Hk as [_ Hk]. exact Hk. }
  destruct Hsame as [Hfst Hsub].
  destruct (getFromCache (getCacheKey params) (t_lookup env) s0) as [cached s1].
  cbn [fst snd] in *. rewrite Hfst, Hmiss, Hfail.
  cbn [returned modelCalls after updateStats with_stats cache].
  repeat split; auto.
Qed.

Definition model_is_down : Env :=
  {| t_start := 0; t_lookup := 0; t_done := 30000; t_store := 30000; t_cleanup := 30000;
     sdk_generateObject := fun _ =>
       Failed {| js_name := "APICallError"; js_message := "503" |} |}.

Lemma failed_generation_is_not_cached_witness :
  returned (generateObject (asks_about "quantum computing") model_is_down create)
    = Err (new_AIModelError "Failed to generate object"
             (Some {| js_name := "APICallError"; js_message := "503" |}))
  /\ cache (after (generateObject (asks_about "quantum computing") model_is_down create))
     = ∅.
Proof.
  destruct (failed_generation_is_not_cached (asks_about "quantum computing")
              model_is_down create {| js_name := "APICallError"; js_message := "503" |})
    as (Hr & _ & _); [reflexivity|reflexivity|].
  split; [exact Hr|reflexivity].
Defined.

(** Every call is counted once in [totalCalls], and it is either a
    cache hit, counted in [cacheHits] and made without the model, or
    exactly one model invocation with [cacheHits] unchanged. *)
Theorem generateObject_accounting (params : GenerationParams) (env : Env)
        (s : BatchedModelProvider.t) :
  let o := generateObject params env s in
  totalCalls (stats (after o)) = totalCalls (stats s) + 1
  /\ ((modelCalls o = [] /\ cacheHits (stats (after o)) = cacheHits (stats s) + 1)
      \/ (modelCalls o = [params] /\ cacheHits (stats (after o)) = cacheHits (stats s))).
Proof.
  cbv zeta. unfold generateObject. set (s0 := with_stats _ s).
  assert (Hstats : stats (snd (getFromCache (getCacheKey params) (t_lookup env) s0))
                   = stats s0).
  { unfold getFromCache. destruct (cache s0 !! getCacheKey params) as [e0|]; [|reflexivity].
    destruct (expired _ e0); reflexivity. }
  destruct (getFromCache (getCacheKey params) (t_lookup env) s0) as [cached s1].
  cbn [snd] in Hstats.
  destruct (truthy cached).
  - cbn [after modelCalls with_stats stats totalCalls cacheHits]. rewrite Hstats.
    split; [reflexivity|]. left. split; reflexivity.
  - destruct (sdk_generateObject env params) as [object usage|failure].
    + cbn [after modelCalls]. unfold setCache.
      destruct (Nat.ltb 1000 _);
        cbn [cleanupCache with_cache updateStats with_stats stats totalCalls cacheHits cache];
        rewrite Hstats; (split; [reflexivity|right; split; reflexivity]).
    + cbn [after modelCalls updateStats with_stats stats totalCalls cacheHits].
      rewrite Hstats. split; [reflexivity|right; split; reflexivity].
Qed.

End ModelProviderFacts.

(** ** Tiered cache: lower tiers, round trip, counters *)

Section TieredCacheFacts.
Import CacheService MultiLevelCache.
Context {V S1 S2 S3 : Type}.
Context `{!CacheService V S1, !CacheService V S2, !CacheService V S3}.

(** When the near and the shared tier both miss: with a third tier
    that has the key, the value is returned and copied to the shared
    tier with TTL 3600 and to the near tier with TTL 300; with a third
    tier that misses too, or without a third tier, the read answers
    absent and writes to no tier. *)
Theorem tiered_read_below_shared_tier (key : string) (c : MultiLevelCache.t S1 S2 S3)
        (a : S1) (b : S2) :
  get key (l1 c) = (None, a) ->
  get key (l2 c) = (None, b) ->
  (forall (d d' : S3) (v : V),
      l3 c = Some d -> get key d = (Some v, d') ->
      fst (ml_get key c) = Some v
      /\ l1 (snd (ml_get key c)) = set key v (Some 300) a
      /\ l2 (snd (ml_get key c)) = set key v (Some 3600) b
      /\ l3 (snd (ml_get key c)) = Some d')
  /\
  (l3 c = None \/ (exists d d', l3 c = Some d /\ get key d = (None, d')) ->
   fst (ml_get key c) = None
   /\ l1 (snd (ml_get key c)) = a
   /\ l2 (snd (ml_get key c)) = b).
Proof.
  intros H1 H2. unfold ml_get. rewrite H1, H2. split.
  - intros d d' v H3 Hd. rewrite H3, Hd. cbn. auto.
  - intros [H3 | (d & d' & H3 & Hd)]; rewrite H3; [|rewrite Hd]; cbn; auto.
Qed.

(** With a near tier that returns what was just set in it, a value
    written through the tiered cache is read back through it. *)
Theorem tiered_set_then_get (key : string) (v : V) (ttl : option Z)
        (c : MultiLevelCache.t S1 S2 S3) :
  (forall (k : string) (x : V) (t : option Z) (s : S1),
      fst (get k (set k x t s)) = Some x) ->
  fst (ml_get key (ml_set key v ttl c)) = Some v.
Proof.
  intros Hlaw. unfold ml_get, ml_set. cbn [l1 l2 l3 stats].
  specialize (Hlaw key v (Some (Z.min (default 3600 ttl) 300)) (l1 c)).
  destruct (get key (set key v _ (l1 c))) as [r a]. cbn [fst] in Hlaw.
  subst r. reflexivity.
Qed.

Definition hits_in_all_tiers (c : MultiLevelCache.t S1 S2 S3) : Z :=
  c_hits (s_l1 (stats c)) + c_hits (s_l2 (stats c)) + c_hits (s_l3 (stats c)).

Definition reads_of (t : Counters) : Z := c_hits t + c_misses t.

(** Every read is counted once at the near tier; it is counted at the
    shared tier exactly when the near tier missed; and over all tiers
    it adds one hit when a value is returned and none otherwise. *)
Theorem tiered_read_counters (key : string) (c : MultiLevelCache.t S1 S2 S3) :
  let r := ml_get key c in
  reads_of (s_l1 (stats (snd r))) = reads_of (s_l1 (stats c)) + 1
  /\ reads_of (s_l2 (stats (snd r)))
     = reads_of (s_l2 (stats c))
       + match fst (get key (l1 c)) with Some _ => 0 | None => 1 end
  /\ hits_in_all_tiers (snd r)
     = hits_in_all_tiers c + match fst r with Some _ => 1 | None => 0 end.
Proof.
  cbv zeta. unfold ml_get, hits_in_all_tiers, reads_of.
  destruct (get key (l1 c)) as [[v|] a]; cbn; [lia|].
  destruct (get key (l2 c)) as [[v|] b]; cbn; [lia|].
  destruct (l3 c) as [d|]; cbn; [|lia].
  destruct (get key d) as [[v|] d']; cbn; lia.
Qed.

End TieredCacheFacts.

Section TieredCacheExamples.
Import CacheService MultiLevelCache.
#[local] Existing Instance recording_tier.

Lemma tiered_set_then_get_witness :
  fst (ml_get "k" (ml_set "k" "v"%string (Some 900) cold_near_warm_shared))
  = Some "v"%string.
Proof.
  apply (tiered_set_then_get (V := string)).
  intros k x t s. cbn. now rewrite lookup_insert_eq.
Defined.

Definition only_in_third_tier
  : MultiLevelCache.t (gmap string (string * Z)) (gmap string (string * Z))
                      (gmap string (string * Z)) :=
  create ∅ ∅ (Some {[ "q" := ("archived"%string, 7200) ]}).

Lemma tiered_read_below_shared_tier_witness :
  fst (ml_get "q" only_in_third_tier) = Some "archived"%string
  /\ l1 (snd (ml_get "q" only_in_third_tier)) !! "q" = Some ("archived"%string, 300)
  /\ l2 (snd (ml_get "q" only_in_third_tier)) !! "q" = Some ("archived"%string, 3600).
Proof.
  destruct (tiered_read_below_shared_tier (V := string) "q" only_in_third_tier ∅ ∅)
    as [Hthird _]; [reflexivity | reflexivity |].
  destruct (Hthird {[ "q" := ("archived"%string, 7200) ]}
                   {[ "q" := ("archived"%string, 7200) ]} "archived"%string)
    as (Hv & Hn & Hs & _); [reflexivity | reflexivity |].
  split; [exact Hv|]. split; [rewrite Hn|rewrite Hs]; reflexivity.
Defined.

(** The reported hit rate of a tier is its share of hits among its
    reads, between 0 and 1, and 0 for a tier that was never read. *)
Theorem calculateStats_hitRate (t : Counters) :
  0 <= c_hits t -> 0 <= c_misses t ->
  (0 <= hitRate (calculateStats t) <= 1)%Q
  /\ (c_hits t + c_misses t = 0 -> hitRate (calculateStats t) = 0%Q)
  /\ (0 < c_hits t + c_misses t ->
      hitRate (calculateStats t)
      = (inject_Z (c_hits t) / inject_Z (c_hits t + c_misses t))%Q).
Proof.
  intros Hh Hm. unfold calculateStats. cbn [hitRate].
  destruct (Z.gtb_spec (c_hits t + c_misses t) 0) as [Hpos|Hzero].
  - assert (Hq : (0 < inject_Z (c_hits t + c_misses t))%Q).
    { change 0%Q with (inject_Z 0). rewrite <- Zlt_Qlt. lia. }
    split; [|split; [lia|reflexivity]]. split.
    + apply Qle_shift_div_l; [exact Hq|]. rewrite Qmult_0_l.
      change 0%Q with (inject_Z 0). rewrite <- Zle_Qle. lia.
    + apply Qle_shift_div_r; [exact Hq|]. rewrite Qmult_1_l.
      rewrite <- Zle_Qle. lia.
  - split; [split; discriminate|]. split; [reflexivity|lia].
Qed.

Lemma calculateStats_hitRate_witness :
  hitRate (calculateStats {| c_hits := 3; c_misses := 1 |}) = (3 / 4)%Q
  /\ hitRate (calculateStats {| c_hits := 0; c_misses := 0 |}) = 0%Q.
Proof.
  destruct (calculateStats_hitRate {| c_hits := 3; c_misses := 1 |}) as (_ & _ & H);
    [cbn; lia|cbn; lia|].
  destruct (calculateStats_hitRate {| c_hits := 0; c_misses := 0 |}) as (_ & H0 & _);
    [cbn; lia|cbn; lia|].
  split; [apply H; cbn; lia|apply H0; reflexivity].
Defined.

End TieredCacheExamples.

(** ** Search clients: Firecrawl and the pool *)

Section FirecrawlFacts.
Import Shared FirecrawlSearchClient.

(** [healthCheck] never answers with an error: it answers [Ok true]
    whenever the SDK call returns, even when the SDK reports
    [success = false], and [Ok false] when the SDK call throws. *)
Theorem firecrawl_healthCheck_only_sees_exceptions (env : Env) (s : FirecrawlSearchClient.t) :
  (forall result,
      client_search env "test"
                    {| sdk_timeout := 5000; sdk_limit := 1; sdk_formats := ["markdown"%string] |}
        = Return result ->
      fst (healthCheck env s) = Ok true)
  /\ (forall error,
      client_search env "test"
                    {| sdk_timeout := 5000; sdk_limit := 1; sdk_formats := ["markdown"%string] |}
        = Throw error ->
      fst (healthCheck env s) = Ok false)
  /\ exists healthy, fst (healthCheck env s) = Ok healthy.
Proof.
  unfold healthCheck, search. cbn [timeout limit scrapeOptions number_or default Z.eqb].
  destruct (client_search env "test" _) as [result|error]; cbn.
  - split; [reflexivity|]. split; [discriminate|]. eexists; reflexivity.
  - split; [discriminate|]. split; [reflexivity|]. eexists; reflexivity.
Qed.

Definition sdk_reports_failure : Env :=
  {| t_rate := 1000; t_done := 1400;
     client_search := fun _ _ => Return {| sdk_data := None; sdk_success := false |} |}.

(** A Firecrawl SDK that answers every search with [success = false]
    still passes the health check. *)
Lemma firecrawl_healthCheck_only_sees_exceptions_witness :
  fst (healthCheck sdk_reports_failure
         (create {| apiKey := None; baseUrl := None; cfg_timeout := 15000 |}))
  = Ok true.
Proof.
  destruct (firecrawl_healthCheck_only_sees_exceptions sdk_reports_failure
              (create {| apiKey := None; baseUrl := None; cfg_timeout := 15000 |}))
    as (Hreturns & _ & _).
  apply (Hreturns {| sdk_data := None; sdk_success := false |}). reflexivity.
Defined.

(** The options [search] hands to the SDK: each option of the caller,
    or its default when the option is missing (or is 0). *)
Definition sdk_options_of (options : SearchOptions) (s : FirecrawlSearchClient.t)
  : SdkOptions :=
  {| sdk_timeout := number_or (timeout options) (cfg_timeout (config s));
     sdk_limit := number_or (limit options) 5;
     sdk_formats := default ["markdown"%string] (scrapeOptions options) |}.

(** A search always counts the request and never throws; what it
    answers is decided by the SDK call. When the SDK throws, the
    caller gets [Err] with a [SearchError] that names the query and
    carries the thrown value, and [lastRequestTime] is left as it was.
    When the SDK returns, the caller gets [Ok] with the SDK's
    [success] flag, [lastRequestTime] is set, a missing [data] becomes
    the empty list with no [total], and a present one is passed on
    with its length as [total]. *)
Theorem firecrawl_search_outcomes (query : string) (options : SearchOptions)
        (env : Env) (s : FirecrawlSearchClient.t) :
  let o := search query options env s in
  requestCount (after o) = requestCount s + 1
  /\ (forall error,
      client_search env query (sdk_options_of options s) = Throw error ->
      returned o
      = Err (new_SearchError ("Search failed for query: " +:+ query) (Some error))
      /\ lastRequestTime (after o) = lastRequestTime s)
  /\ (forall result,
      client_search env query (sdk_options_of options s) = Return result ->
      lastRequestTime (after o) = t_done env
      /\ exists r,
          returned o = Ok r
          /\ success r = sdk_success result
          /\ (forall items, sdk_data result = Some items ->
                            data r = items /\ total r = Some (length items))
          /\ (sdk_data result = None -> data r = [] /\ total r = None)).
Proof.
  cbv zeta. unfold search. fold (sdk_options_of options s).
  destruct (client_search env query (sdk_options_of options s)) as [result|error];
    cbn [after returned requestCount lastRequestTime]; (split; [reflexivity|]).
  - split; [discriminate|]. intros result' Hr. injection Hr as <-.
    split; [reflexivity|]. eexists. split; [reflexivity|]. cbn [success data total].
    split; [reflexivity|]. split.
    + intros items ->. split; reflexivity.
    + intros ->. split; reflexivity.
  - split; [|discriminate]. intros error' He. injection He as <-.
    split; reflexivity.
Qed.

Definition sdk_times_out : Env :=
  {| t_rate := 1000; t_done := 1400;
     client_search := fun _ _ =>
       Throw {| js_name := "Error"; js_message := "Request timed out" |} |}.

(** A search whose SDK call times out, on a client that last
    completed a request at time 900. *)
Lemma firecrawl_search_outcomes_witness :
  let s := {| config := {| apiKey := None; baseUrl := None; cfg_timeout := 15000 |};
              requestCount := 3; lastRequestTime := 900 |} in
  let o := search "topic" {| timeout := None; limit := None; scrapeOptions := None |}
                  sdk_times_out s in
  returned o
  = Err (new_SearchError "Search failed for query: topic"
           (Some {| js_name := "Error"; js_message := "Request timed out" |}))
  /\ requestCount (after o) = 4
  /\ lastRequestTime (after o) = 900.
Proof.
  cbv zeta.
  destruct (firecrawl_search_outcomes
              "topic" {| timeout := None; limit := None; scrapeOptions := None |}
              sdk_times_out
              {| config := {| apiKey := None; baseUrl := None; cfg_timeout := 15000 |};
                 requestCount := 3; lastRequestTime := 900 |})
    as (Hcount & Hthrows & _).
  destruct (Hthrows {| js_name := "Error"; js_message := "Request timed out" |} eq_refl)
    as [Hreturned Hlast].
  split; [exact Hreturned|]. split; [exact Hcount|exact Hlast].
Defined.

End FirecrawlFacts.

Section PoolFacts.
Import Shared PooledSearchClient.

(** The callers of [search]: [Start] is the call reaching
    [acquireClient], [Finish] is the caller's search settling, which
    runs [releaseClient] on the client it holds. *)
Inductive PoolEvent :=
| Start (caller : nat)
| Finish (caller : nat).

(** The pool together with who currently holds which client. *)
Record Running := {
  client_pool : PooledSearchClient.t;
  holding : list (nat * nat)
}.

Fixpoint take_holder (caller : nat) (h : list (nat * nat))
  : option (nat * list (nat * nat)) :=
  match h with
  | [] => None
  | (r, c) :: rest =>
      if Nat.eqb r caller then Some (c, rest)
      else match take_holder caller rest with
           | Some (c', rest') => Some (c', (r, c) :: rest')
           | None => None
           end
  end.

Definition pool_step (sys : Running) (ev : PoolEvent) : Running :=
  match ev with
  | Start caller =>
      match acquireClient caller (client_pool sys) with
      | (Some client, s') =>
          {| client_pool := s'; holding := holding sys ++ [(caller, client)] |}
      | (None, s') => {| client_pool := s'; holding := holding sys |}
      end
  | Finish caller =>
      match take_holder caller (holding sys) with
      | None => sys
      | Some (client, others) =>
          match releaseClient client (client_pool sys) with
          | (Some waiter, s') =>
              {| client_pool := s'; holding := others ++ [(waiter, client)] |}
          | (None, s') => {| client_pool := s'; holding := others |}
          end
      end
  end.

Definition pool_run (poolSize : nat) (events : list PoolEvent) : Running :=
  fold_left pool_step events {| client_pool := create poolSize; holding := [] |}.

Definition pool_invariant (sys : Running) : Prop :=
  activeConnections (client_pool sys) = Z.of_nat (length (holding sys))
  /\ map snd (holding sys) ++ available (client_pool sys) ≡ₚ pool (client_pool sys)
  /\ (waiting (client_pool sys) <> [] -> available (client_pool sys) = []).

Lemma take_holder_spec (caller : nat) (h : list (nat * nat)) (c : nat)
      (rest : list (nat * nat)) :
  take_holder caller h = Some (c, rest) ->
  map snd h ≡ₚ c :: map snd rest /\ length h = S (length rest).
Proof.
  revert c rest. induction h as [|[r c0] h IH]; intros c rest H; [discriminate|].
  cbn [take_holder] in H. destruct (Nat.eqb r caller).
  - injection H as <- <-. split; reflexivity.
  - destruct (take_holder caller h) as [[c' rest']|]; [|discriminate].
    injection H as <- <-. destruct (IH c' rest' eq_refl) as [Hp Hl].
    cbn [map snd length]. split; [|lia].
    rewrite Hp. apply Permutation_swap.
Qed.

Lemma last_removelast {A} (l : list A) (x : A) :
  last l = Some x -> l = removelast l ++ [x].
Proof.
  intros H. destruct (decide (l = [])) as [->|Hne]; [discriminate|].
  rewrite (app_removelast_last x Hne) at 1. f_equal. f_equal.
  clear Hne. induction l as [|a [|b l] IH]; [discriminate| |].
  - now injection H as <-.
  - cbn [List.last]. apply IH. exact H.
Qed.

Lemma pool_step_invariant (sys : Running) (ev : PoolEvent) :
  pool_invariant sys ->
  pool_invariant (pool_step sys ev)
  /\ pool (client_pool (pool_step sys ev)) = pool (client_pool sys).
Proof.
  intros (Hact & Hperm & Hwait). unfold pool_invariant.
  destruct ev as [caller|caller]; cbn [pool_step].
  - unfold acquireClient. destruct (last (available (client_pool sys))) as [c|] eqn:E.
    + apply last_removelast in E.
      cbn [client_pool holding activeConnections available waiting pool].
      split; [|reflexivity]. split; [rewrite length_app; cbn; lia|]. split.
      * rewrite <- Hperm. rewrite E at 2. rewrite map_app. cbn [map snd].
        rewrite <- !app_assoc. apply Permutation_app_head. apply Permutation_app_comm.
      * intros Hw. apply Hwait in Hw. rewrite Hw in E. destruct (removelast []); discriminate.
    + apply last_None in E.
      cbn [client_pool holding activeConnections available waiting pool].
      split; [|reflexivity]. repeat split; auto.
  - destruct (take_holder caller (holding sys)) as [[client others]|] eqn:E;
      [|split; [repeat split; auto|reflexivity]].
    apply take_holder_spec in E as [Hp Hl].
    unfold releaseClient. destruct (waiting (client_pool sys)) as [|waiter more] eqn:Ew;
      cbn [client_pool holding activeConnections available waiting pool];
      (split; [|reflexivity]).
    + split; [lia|]. split; [|intros Hw; contradiction].
      rewrite <- Hperm, Hp, app_assoc. cbn [app].
      symmetry. apply Permutation_cons_append.
    + assert (Hnone : available (client_pool sys) = []) by (apply Hwait; discriminate).
      split; [rewrite length_app; cbn; lia|]. split; [|auto].
      rewrite <- Hperm, Hp, Hnone, !app_nil_r, map_app. cbn [map snd].
      symmetry. apply Permutation_cons_append.
Qed.

Lemma pool_run_invariant (poolSize : nat) (events : list PoolEvent) :
  pool_invariant (pool_run poolSize events)
  /\ pool (client_pool (pool_run poolSize events)) = seq 0 poolSize.
Proof.
  induction events as [|ev events [IH Hpool]] using rev_ind.
  - split; [|reflexivity]. split; [reflexivity|]. split; [reflexivity|].
    intros H. contradiction.
  - unfold pool_run in *. rewrite fold_left_app. cbn [fold_left].
    destruct (pool_step_invariant _ ev IH) as [Hinv Hsame].
    split; [exact Hinv|congruence].
Qed.

(** Whatever searches start and finish, in whatever order: no client
    is held by two callers at once, [activeConnections] is the number
    of clients in use, the clients in use and the available ones add up
    to the pool, and callers wait only while every client is in use. *)
Theorem pool_clients_are_exclusive (poolSize : nat) (events : list PoolEvent) :
  let sys := pool_run poolSize events in
  NoDup (map snd (holding sys))
  /\ activeConnections (client_pool sys) = Z.of_nat (length (holding sys))
  /\ (length (holding sys) + length (available (client_pool sys)) = poolSize)%nat
  /\ (waiting (client_pool sys) <> [] ->
      available (client_pool sys) = [] /\ length (holding sys) = poolSize).
Proof.
  cbv zeta. destruct (pool_run_invariant poolSize events) as [(Hact & Hperm & Hwait) Hpool].
  rewrite Hpool in Hperm.
  assert (Hnd : NoDup (map snd (holding (pool_run poolSize events))
                       ++ available (client_pool (pool_run poolSize events)))).
  { rewrite Hperm. apply NoDup_ListNoDup, List.seq_NoDup. }
  assert (Hlen : (length (holding (pool_run poolSize events))
                  + length (available (client_pool (pool_run poolSize events)))
                  = poolSize)%nat).
  { apply Permutation_length in Hperm.
    rewrite length_app, length_map, length_seq in Hperm. exact Hperm. }
  split; [apply NoDup_app in Hnd; tauto|]. split; [exact Hact|]. split; [exact Hlen|].
  intros Hw. apply Hwait in Hw. split; [exact Hw|]. rewrite Hw in Hlen. cbn in Hlen. lia.
Qed.

(** On a pool of at least one client, however it has been used,
    [healthCheck] never reports ['No clients available']: it asks the
    first available client, and answers [Ok true] without asking
    anyone when every client is in use. *)
Theorem pool_healthCheck (poolSize : nat) (events : list PoolEvent)
        (client_healthCheck : nat -> Result bool ResearchError) :
  (1 <= poolSize)%nat ->
  let s := client_pool (pool_run poolSize events) in
  healthCheck client_healthCheck s
  = match available s with
    | client :: _ => client_healthCheck client
    | [] => Ok true
    end.
Proof.
  intros Hsize. cbv zeta.
  destruct (pool_run_invariant poolSize events) as [(Hact & Hperm & _) Hpool].
  rewrite Hpool in Hperm. apply Permutation_length in Hperm.
  rewrite length_app, length_map, length_seq in Hperm. unfold healthCheck.
  destruct (Nat.eqb_spec (length (available (client_pool (pool_run poolSize events)))) 0)
    as [Hnone|Hsome]; [|reflexivity].
  destruct (Z.eqb_spec (activeConnections (client_pool (pool_run poolSize events))) 0)
    as [Hidle|Hbusy]; [lia|].
  reflexivity.
Qed.

Lemma pool_healthCheck_witness :
  healthCheck (fun _ => Ok false)
              (client_pool (pool_run 1 [Start 7; Start 8])) = Ok true
  /\ holding (pool_run 1 [Start 7; Start 8; Finish 7]) = [(8%nat, 0%nat)].
Proof.
  split; [|reflexivity].
  rewrite (pool_healthCheck 1 [Start 7; Start 8] (fun _ => Ok false)); [reflexivity|lia].
Defined.

End PoolFacts.

(** ** Research service: planner failures and the search step *)

Section ResearchServiceFacts.
Import Shared ResearchTypes DefaultResearchService.

Variable search : string -> SearchOptions -> Exc (Result SearchResult ResearchError).
Variable plan : QueryGenerationContext -> Exc (list SearchQuery).
Variable pLimit : Z -> Exc unit.
Variable process : list SearchResult -> ResearchParams -> string -> Processed.
Variable config : Config.

Definition planning_failed : JsError :=
  {| js_name := "ResearchError"; js_message := "Query generation failed" |}.

Definition planning_input (params : ResearchParams) (context : ResearchContext.t)
  : QueryGenerationContext :=
  {| g_query := query params; g_context := context; g_breadth := breadth params;
     g_sourcePreferences := sourcePreferences params |}.

(** A planner failure is fatal for the whole call and keeps nothing:
    at any level that still has to run, whatever the context has
    accumulated, a planner that throws makes [executeResearchDepth]
    throw 'Query generation failed'; and [conductResearch] turns a
    failure at the first level into [Err] 'Research execution failed'
    with that cause, not into a partial result. *)
Theorem planner_failure_discards_results (params : ResearchParams) (cid : string) :
  (forall (context : ResearchContext.t) (remainingDepth : Z) (failure : JsError),
      0 < remainingDepth ->
      plan (planning_input params context) = Throw failure ->
      executeResearchDepth search plan pLimit process config params context
                           remainingDepth cid
      = Throw planning_failed)
  /\
  (forall failure : JsError,
      0 < depth params ->
      plan (planning_input params
              {| ResearchContext.learnings := [];
                 ResearchContext.learningReliabilities := [];
                 ResearchContext.visitedUrls := [];
                 ResearchContext.researchDirections := [] |}) = Throw failure ->
      conductResearch search plan pLimit process config params cid
      = Err (new_ResearchError "Research execution failed" (Some planning_failed))).
Proof.
  assert (Hlevel : forall context remainingDepth failure,
             0 < remainingDepth ->
             plan (planning_input params context) = Throw failure ->
             executeResearchDepth search plan pLimit process config params context
                                  remainingDepth cid = Throw planning_failed).
  { intros context remainingDepth failure Hpos Hplan. unfold executeResearchDepth.
    destruct (Z.to_nat remainingDepth) as [|n] eqn:E; [lia|].
    cbn [executeResearchLevels]. unfold generateQueries.
    fold (planning_input params context). rewrite Hplan. reflexivity. }
  split; [exact Hlevel|].
  intros failure Hpos Hplan. unfold conductResearch.
  now rewrite (Hlevel _ _ failure Hpos Hplan).
Qed.

(** In the file as written, where nothing binds [pLimit], no level of
    research can complete. [executeSearches] throws the
    [ReferenceError] for every list of queries, also the empty one,
    before any search is started. So, whatever the search client and
    the processing step are: a session with [depth <= 0] returns [Ok]
    with the empty result; a session with [depth >= 1] returns [Err]
    'Research execution failed', caused by the [ReferenceError] when
    the planner returned queries and by 'Query generation failed' when
    the planner threw; and [conductResearch] succeeds exactly when
    [depth <= 0]. *)
Theorem research_stops_at_unbound_pLimit (params : ResearchParams) (cid : string) :
  let run := conductResearch search plan pLimit_not_defined process config params cid in
  (forall queries cid',
      executeSearches search pLimit_not_defined config queries cid'
      = Throw ReferenceError_pLimit)
  /\ (depth params <= 0 -> run = Ok nothing_found)
  /\ (0 < depth params ->
      (forall queries,
          plan (planning_input params empty_context) = Return queries ->
          run = Err (new_ResearchError "Research execution failed"
                                       (Some ReferenceError_pLimit)))
      /\ (forall failure,
          plan (planning_input params empty_context) = Throw failure ->
          run = Err (new_ResearchError "Research execution failed"
                                       (Some planning_failed))))
  /\ (isOk run = true <-> depth params <= 0).
Proof.
  cbv zeta.
  assert (Hnone : depth params <= 0 ->
                  conductResearch search plan pLimit_not_defined process config params cid
                  = Ok nothing_found)
    by apply conductResearch_without_levels.
  assert (Hsome : 0 < depth params ->
                  exists cause,
                    conductResearch search plan pLimit_not_defined process config params
                                    cid
                    = Err (new_ResearchError "Research execution failed" (Some cause))
                    /\ (forall queries,
                           plan (planning_input params empty_context) = Return queries ->
                           cause = ReferenceError_pLimit)
                    /\ (forall failure,
                           plan (planning_input params empty_context) = Throw failure ->
                           cause = planning_failed)).
  { intros Hpos. unfold conductResearch, executeResearchDepth.
    destruct (Z.to_nat (depth params)) as [|n] eqn:E; [lia|].
    cbn [executeResearchLevels]. unfold generateQueries.
    fold empty_context. fold (planning_input params empty_context).
    destruct (plan (planning_input params empty_context)) as [queries|failure].
    - exists ReferenceError_pLimit. cbn.
      split; [reflexivity|]. split; [reflexivity|discriminate].
    - exists planning_failed. cbn.
      split; [reflexivity|]. split; [discriminate|reflexivity]. }
  split; [reflexivity|]. split; [exact Hnone|]. split.
  - intros Hpos. destruct (Hsome Hpos) as (cause & -> & Hq & Hf).
    split; [intros queries H; now rewrite (Hq queries H)
           |intros failure H; now rewrite (Hf failure H)].
  - split.
    + intros Hok. destruct (Z_le_gt_dec (depth params) 0) as [Hle|Hgt]; [exact Hle|].
      destruct (Hsome ltac:(lia)) as (cause & Hrun & _).
      rewrite Hrun in Hok. discriminate.
    + intros Hle. now rewrite (Hnone Hle).
Qed.

End ResearchServiceFacts.

Section ResearchServiceExamples.
Import Shared ResearchTypes DefaultResearchService.

(** A two-level session whose planner is down, on the file as
    written. *)
Lemma planner_failure_discards_results_witness :
  conductResearch finds_one_page planner_is_down pLimit_not_defined
                  processSearchResults a_config two_levels "research_1"
  = Err (new_ResearchError "Research execution failed" (Some planning_failed)).
Proof.
  destruct (planner_failure_discards_results finds_one_page planner_is_down
              pLimit_not_defined processSearchResults a_config two_levels
              "research_1") as [_ H].
  apply (H {| js_name := "APICallError"; js_message := "429" |}); [cbn; lia|reflexivity].
Defined.

(** A two-level session whose planner and search client both answer:
    it fails at the first search step. *)
Lemma research_stops_at_unbound_pLimit_witness :
  conductResearch finds_one_page asks_one_query pLimit_not_defined
                  processSearchResults a_config two_levels "research_1"
  = Err (new_ResearchError "Research execution failed" (Some ReferenceError_pLimit)).
Proof.
  destruct (research_stops_at_unbound_pLimit finds_one_page asks_one_query
              processSearchResults a_config two_levels "research_1")
    as (_ & _ & Hlevels & _).
  destruct Hlevels as [Hqueries _]; [cbn; lia|].
  apply (Hqueries [{| sq_query := "topic"; sq_limit := None |}]). reflexivity.
Defined.

End ResearchServiceExamples.

(** ** Error guidance and log queries *)

Section GuidanceFacts.
Import ErrorGuidance.

(** [message] has [pattern] somewhere inside. *)
Definition contains (message pattern : string) : Prop :=
  exists before after : string, message = (before +:+ pattern +:+ after)%string.

Lemma startsWith_spec (pattern s : string) :
  startsWith pattern s = true <-> exists after, s = (pattern +:+ after)%string.
Proof.
  revert s. induction pattern as [|p pattern IH]; intros s.
  - cbn. split; [intros _; exists s; reflexivity|reflexivity].
  - destruct s as [|c s]; cbn [startsWith].
    + split; [discriminate|]. intros [after H]. discriminate.
    + rewrite andb_true_iff, IH. split.
      * intros [Hc [after ->]]. apply Ascii.eqb_eq in Hc as ->. now exists after.
      * intros [after H]. cbn in H. injection H as -> ->.
        split; [apply Ascii.eqb_refl|now exists after].
Qed.

Lemma includes_spec (s pattern : string) :
  includes s pattern = true <-> contains s pattern.
Proof.
  unfold contains. induction s as [|c s IH].
  - cbn [includes]. rewrite orb_false_r, startsWith_spec. split.
    + intros [after H]. exists ""%string, after. exact H.
    + intros (before & after & H). destruct before; [now exists after|discriminate].
  - cbn [includes]. rewrite orb_true_iff, startsWith_spec, IH. split.
    + intros [[after H] | (before & after & H)].
      * exists ""%string, after. exact H.
      * exists (String c before), after. cbn. now rewrite H.
    + intros (before & after & H). destruct before as [|b before].
      * left. now exists after.
      * right. cbn in H. injection H as -> ->. now exists before, after.
Qed.

Lemma first_match_spec (message : string) (entries : list (string * Guidance)) :
  match first_match message entries with
  | Some g =>
      exists (i : nat) (pattern : string),
        entries !! i = Some (pattern, g)
        /\ contains message pattern
        /\ forall (j : nat) pattern' g',
            (j < i)%nat -> entries !! j = Some (pattern', g') ->
            ~ contains message pattern'
  | None => forall pattern g, (pattern, g) ∈ entries -> ~ contains message pattern
  end.
Proof.
  induction entries as [|[pattern g] rest IH]; cbn [first_match].
  - intros pattern g H. apply elem_of_nil in H. contradiction.
  - destruct (includes message pattern) eqn:E.
    + exists 0%nat, pattern. split; [reflexivity|]. split; [now apply includes_spec|].
      intros j ? ? Hj. lia.
    + assert (Hno : ~ contains message pattern).
      { intros H. apply includes_spec in H. congruence. }
      destruct (first_match message rest) as [g0|].
      * destruct IH as (i & pat & Hi & Hc & Hbefore).
        exists (S i), pat. split; [exact Hi|]. split; [exact Hc|].
        intros [|j] pattern' g' Hj Hlook.
        -- cbn in Hlook. injection Hlook as <- <-. exact Hno.
        -- eapply Hbefore; [|exact Hlook]. lia.
      * intros pattern' g' Hin. apply elem_of_cons in Hin as [Heq|Hin].
        -- injection Heq as -> ->. exact Hno.
        -- eapply IH. exact Hin.
Qed.

(** The guidance for an error message is the entry of the first
    pattern, in the order of the table, that occurs anywhere in the
    message (case-sensitively), and the 'Unknown error' guidance when
    none occurs; so a message that mentions a failed source
    evaluation always gets the source-evaluation guidance, whatever
    else it says. Every guidance lists at least one debug step and one
    log operation. *)
Theorem getErrorGuidance_first_pattern (message : string) :
  let g := getErrorGuidance message in
  ((exists (i : nat) (pattern : string),
       ERROR_GUIDANCE !! i = Some (pattern, g)
       /\ contains message pattern
       /\ forall (j : nat) pattern' g',
           (j < i)%nat -> ERROR_GUIDANCE !! j = Some (pattern', g') ->
           ~ contains message pattern')
   \/ (g = unknown_error
       /\ forall pattern g', (pattern, g') ∈ ERROR_GUIDANCE -> ~ contains message pattern))
  /\ (contains message "Failed to evaluate source reliability" ->
      description g = "AI model failed during source evaluation"%string)
  /\ debugSteps g <> [] /\ logOperations g <> [].
Proof.
  cbv zeta. unfold getErrorGuidance.
  pose proof (first_match_spec message ERROR_GUIDANCE) as Hspec.
  assert (Hall : Forall (fun e : string * Guidance =>
                           debugSteps (snd e) <> [] /\ logOperations (snd e) <> [])
                        ERROR_GUIDANCE).
  { repeat constructor; discriminate. }
  split; [|split].
  - destruct (first_match message ERROR_GUIDANCE) as [g|]; [left|right]; auto.
  - intros Hc. apply includes_spec in Hc.
    unfold ERROR_GUIDANCE. cbn [first_match]. rewrite Hc. reflexivity.
  - destruct (first_match message ERROR_GUIDANCE) as [g|].
    + destruct Hspec as (i & pattern & Hi & _).
      rewrite Forall_forall in Hall.
      apply (Hall (pattern, g)). eapply list_elem_of_lookup_2. exact Hi.
    + split; discriminate.
Qed.

Lemma getErrorGuidance_first_pattern_witness :
  logOperations
    (getErrorGuidance "Research failed: Failed to evaluate source reliability (timeout)")
  = ["source_evaluation"%string; "ai_model_call"%string]
  /\ description (getErrorGuidance "research failed") = "Unknown error occurred"%string.
Proof.
  destruct (getErrorGuidance_first_pattern
              "Research failed: Failed to evaluate source reliability (timeout)")
    as (_ & Hfirst & _).
  assert (Hc : contains "Research failed: Failed to evaluate source reliability (timeout)"
                        "Failed to evaluate source reliability").
  { exists "Research failed: "%string, " (timeout)"%string. reflexivity. }
  specialize (Hfirst Hc). split; reflexivity.
Defined.

End GuidanceFacts.

Section LogReaderFacts.
Import StreamingContentProcessor LogReader.
Variable JSON_parse : JsString -> option LogEntry.

Lemma length_omap_le {A B} (f : A -> option B) (l : list A) :
  (length (omap f l) <= length l)%nat.
Proof.
  induction l as [|x l IH]; [reflexivity|]. cbn. destruct (f x); cbn; lia.
Qed.

Lemma length_slice_from_end {A} (n : nat) (l : list A) :
  (1 <= n)%nat -> (length (slice_from_end n l) <= n)%nat.
Proof.
  intros Hn. unfold slice_from_end. destruct n as [|n]; [lia|].
  rewrite length_drop. lia.
Qed.


End LogReaderFacts.

(** ** MCP tools: accepted arguments and failures of the imports *)

Section McpToolFacts.
Import Shared ResearchTypes McpServer.

Lemma z_string_min1_Ok (path : string) (v : option JsValue) (s : string) :
  z_string_min1 path v = Ok s <-> v = Some (JStr s) /\ s <> ""%string.
Proof.
  unfold z_string_min1. destruct v as [[| | |s'| |]|]; try (split; [discriminate|intros [H _]; discriminate]).
  destruct s' as [|c s']; cbn.
  - split; [discriminate|]. intros [H Hne]. injection H as <-. contradiction.
  - split; [intros H; injection H as <-; split; [reflexivity|discriminate]|].
    intros [H _]. now injection H as <-.
Qed.

Lemma z_number_min_max_Ok (path : string) (v : option JsValue) (q : Q) :
  z_number_min_max 1 5 path v = Ok q <-> v = Some (JNum q) /\ (1 <= q)%Q /\ (q <= 5)%Q.
Proof.
  unfold z_number_min_max. destruct v as [[| |q'| | |]|]; try (split; [discriminate|intros [H _]; discriminate]).
  destruct (Qle_bool 1 q') eqn:Elo; cbn [negb].
  - destruct (Qle_bool q' 5) eqn:Ehi; cbn [negb].
    + apply Qle_bool_iff in Elo, Ehi. split.
      * intros H. injection H as <-. auto.
      * intros [H _]. now injection H as <-.
    + split; [discriminate|]. intros (H & _ & Hhi). injection H as <-.
      apply Qle_bool_iff in Hhi. congruence.
  - split; [discriminate|]. intros (H & Hlo & _). injection H as <-.
    apply Qle_bool_iff in Hlo. congruence.
Qed.

Lemma z_string_optional_Ok (path : string) (v : option JsValue) (o : option string) :
  z_string_optional path v = Ok o <-> v = JStr <$> o.
Proof.
  unfold z_string_optional. destruct v as [[| | |s| |]|], o as [s0|]; cbn;
    split; intros H; try discriminate; try reflexivity; now injection H as <-.
Qed.

Lemma z_number_optional_Ok (path : string) (v : option JsValue) (o : option Q) :
  z_number_optional path v = Ok o <-> v = JNum <$> o.
Proof.
  unfold z_number_optional. destruct v as [[| |q| | |]|], o as [q0|]; cbn;
    split; intros H; try discriminate; try reflexivity; now injection H as <-.
Qed.

(** The arguments the research tools accept are exactly these: [query]
    a non-empty string, [depth] and [breadth] numbers between 1 and 5
    inclusive (whole or not), and [model], [tokenBudget],
    [sourcePreferences] each absent or of its type; the parsed value
    carries them unchanged. *)
Theorem researchToolSchema_accepts (arguments : gmap string JsValue)
        (a : ResearchArguments) :
  researchToolSchema arguments = Ok a <->
  arguments !! "query" = Some (JStr (query a)) /\ query a <> ""%string
  /\ arguments !! "depth" = Some (JNum (depth a)) /\ (1 <= depth a)%Q /\ (depth a <= 5)%Q
  /\ arguments !! "breadth" = Some (JNum (breadth a))
  /\ (1 <= breadth a)%Q /\ (breadth a <= 5)%Q
  /\ arguments !! "model" = JStr <$> model a
  /\ arguments !! "tokenBudget" = JNum <$> tokenBudget a
  /\ arguments !! "sourcePreferences" = JStr <$> sourcePreferences a.
Proof.
  unfold researchToolSchema. split.
  - intros H.
    destruct (z_string_min1 "query" _) as [q'|] eqn:Eq;
      destruct (z_number_min_max 1 5 "depth" _) as [d'|] eqn:Ed;
      destruct (z_number_min_max 1 5 "breadth" _) as [b'|] eqn:Eb;
      destruct (z_string_optional "model" _) as [m'|] eqn:Em;
      destruct (z_number_optional "tokenBudget" _) as [t'|] eqn:Et;
      destruct (z_string_optional "sourcePreferences" _) as [p'|] eqn:Ep;
      try discriminate.
    injection H as <-. cbn [query depth breadth model tokenBudget sourcePreferences].
    apply z_string_min1_Ok in Eq as [? ?].
    apply z_number_min_max_Ok in Ed as (? & ? & ?).
    apply z_number_min_max_Ok in Eb as (? & ? & ?).
    apply z_string_optional_Ok in Em. apply z_number_optional_Ok in Et.
    apply z_string_optional_Ok in Ep. repeat split; assumption.
  - intros (Hq & Hq' & Hd & Hd1 & Hd5 & Hb & Hb1 & Hb5 & Hm & Ht & Hp).
    rewrite (proj2 (z_string_min1_Ok "query" _ (query a))) by auto.
    rewrite (proj2 (z_number_min_max_Ok "depth" _ (depth a))) by auto.
    rewrite (proj2 (z_number_min_max_Ok "breadth" _ (breadth a))) by auto.
    rewrite (proj2 (z_string_optional_Ok "model" _ (model a))) by auto.
    rewrite (proj2 (z_number_optional_Ok "tokenBudget" _ (tokenBudget a))) by auto.
    rewrite (proj2 (z_string_optional_Ok "sourcePreferences" _ (sourcePreferences a)))
      by auto.
    destruct a; reflexivity.
Qed.

(** With accepted arguments the callback always answers with a
    response and never throws: a failure of [getModel] is answered as
    an error response carrying its message, without [deepResearch]
    being called; a failure of [deepResearch] likewise, after exactly
    one [deepResearch] call. *)
Theorem tool_failures_are_error_responses
        (variant : Variant) (imports : Imports) (tool : Tool)
        (arguments : gmap string JsValue) (a : ResearchArguments) :
  researchToolSchema arguments = Ok a ->
  (exists response calls,
      callTool variant imports tool arguments = (Responded response, GetModel (model a) :: calls))
  /\ (forall error,
        getModel imports (model a) = Throw error ->
        callTool variant imports tool arguments
        = (Responded (IsError (js_message error)), [GetModel (model a)]))
  /\ (forall m error,
        getModel imports (model a) = Return m ->
        deepResearch imports a m = Throw error ->
        callTool variant imports tool arguments
        = (Responded (IsError (js_message error)), [GetModel (model a); DeepResearch a])).
Proof.
  intros Hargs. unfold callTool. rewrite Hargs.
  split; [|split].
  - destruct tool; unfold deep_research, research_sources;
      destruct (getModel imports (model a)) as [m|e]; try (eexists _, _; reflexivity);
      destruct (deepResearch imports a m) as [r|e]; try (eexists _, _; reflexivity).
    destruct (writeFinalReport imports _ _ _); eexists _, _; reflexivity.
  - intros error Hm. destruct tool; unfold deep_research, research_sources;
      rewrite Hm; reflexivity.
  - intros m error Hm Hd. destruct tool; unfold deep_research, research_sources;
      rewrite Hm, Hd; reflexivity.
Qed.

Definition no_api_key : Imports :=
  {| getModel := fun _ =>
       Throw {| js_name := "Error"; js_message := "No model available" |};
     deepResearch := deepResearch finds_nothing;
     writeFinalReport := writeFinalReport finds_nothing |}.

Lemma tool_failures_are_error_responses_witness :
  callTool Current no_api_key tool_research_sources one_level
  = (Responded (IsError "No model available"), [GetModel None]).
Proof.
  destruct (tool_failures_are_error_responses Current no_api_key tool_research_sources
              one_level
              {| query := "topic"; depth := 1; breadth := 2; model := None;
                 tokenBudget := None; sourcePreferences := None |}) as (_ & Hmodel & _);
    [reflexivity|].
  apply (Hmodel {| js_name := "Error"; js_message := "No model available" |}).
  reflexivity.
Defined.

Lemma researchToolSchema_accepts_witness :
  researchToolSchema
    {[ "query" := JStr "topic"; "depth" := JNum (5 # 2); "breadth" := JNum 5 ]}
  = Ok {| query := "topic"; depth := (5 # 2)%Q; breadth := 5%Q; model := None;
          tokenBudget := None; sourcePreferences := None |}.
Proof.
  apply researchToolSchema_accepts. cbn.
  repeat split; try reflexivity; try discriminate.
Defined.

End McpToolFacts.

(** ** Reliability evaluator: the successful path *)

Section ReliabilityEvaluatorFacts.
Import Shared DefaultSourceEvaluationService.

(** The domain the evaluator resolves: the host of the URL, and the
    empty string when there is no URL or it does not parse. *)
Definition resolved_domain (cap : Capabilities) (i : SourceItem) : string :=
  match url i with
  | Some u =>
      if String.eqb u "" then ""%string
      else match URL_hostname cap u with
           | Return host => host
           | Throw _ => ""%string
           end
  | None => ""%string
  end.

(** Preferences that hold white space only, a no-break space
    included, count as no preferences. *)
Example prefBlock_of_blank_preferences :
  prefBlock (Some (String (ascii_of_nat 194) (String (ascii_of_nat 160) " "))%string)
  = "No special user preferences provided."%string.
Proof. reflexivity. Qed.

(** When [trimPrompt], [systemPrompt] and the model return, the
    assessment is the model's score, reasoning, use decision and
    preference reason, unchanged, with the resolved domain; a URL that
    is missing or does not parse gives the empty domain, not an error. *)
Theorem evaluateReliability_success (cap : Capabilities) (params : SourceEvaluationParams)
        (model snippet sys : string) (o : GeneratedObject) :
  trimPrompt cap (default "" (markdown (item params))) 4000 = Return snippet ->
  systemPrompt cap tt = Return sys ->
  (forall req, generateObject cap req = Return {| object := Some o |}) ->
  evaluateReliability cap params model
  = Return (Ok {| score := o_score o;
                  reasoning := o_reasoning o;
                  use := o_use o;
                  preferenceReason := o_preferenceReason o;
                  domain := resolved_domain cap (item params) |}).
Proof.
  intros Htrim Hsys Hgen. unfold evaluateReliability, resolved_domain.
  destruct (url (item params)) as [u|]; cbn [default from_option id].
  - destruct (String.eqb u ""); [|destruct (URL_hostname cap u)];
      cbn [try_catch bind]; rewrite Htrim; cbn [try_catch bind];
      rewrite Hsys; cbn [try_catch bind]; rewrite Hgen; reflexivity.
  - rewrite String.eqb_refl. cbn [try_catch bind]. rewrite Htrim. cbn [try_catch bind].
    rewrite Hsys. cbn [try_catch bind]. rewrite Hgen. reflexivity.
Qed.

Definition rejects_urls : Capabilities :=
  {| URL_hostname := fun _ => Throw {| js_name := "TypeError"; js_message := "Invalid URL" |};
     trimPrompt := fun s _ => Return s;
     systemPrompt := fun _ => Return "You are a researcher."%string;
     generateObject := fun _ =>
       Return {| object := Some {| o_score := (7 # 10)%Q; o_reasoning := "blog";
                                   o_use := true; o_preferenceReason := None |} |} |}.

Lemma evaluateReliability_success_witness :
  evaluateReliability rejects_urls
    {| item := {| url := Some "not a url"%string; title := None; markdown := None |};
       query := "topic"; sourcePreferences := Some "  "%string |}
    "google:gemini-2.5-pro"
  = Return (Ok {| score := (7 # 10)%Q; reasoning := "blog"; use := true;
                  preferenceReason := None; domain := "" |}).
Proof.
  rewrite (evaluateReliability_success rejects_urls _ _ ""%string
             "You are a researcher."%string
             {| o_score := (7 # 10)%Q; o_reasoning := "blog";
                o_use := true; o_preferenceReason := None |});
    reflexivity.
Defined.

(** A reply without an [object] makes the read of [res.object.score]
    throw inside the [try]: like every other failure it comes back as
    an [AIModelError], here with the [TypeError] as its cause. *)
Lemma evaluateReliability_reply_without_object
      (cap : Capabilities) (params : SourceEvaluationParams)
      (model snippet sys : string) :
  trimPrompt cap (default "" (markdown (item params))) 4000 = Return snippet ->
  systemPrompt cap tt = Return sys ->
  (forall req, generateObject cap req = Return {| object := None |}) ->
  evaluateReliability cap params model
  = Return (Err (new_AIModelError "Failed to evaluate source reliability"
                                  (Some TypeError_object_undefined))).
Proof.
  intros Htrim Hsys Hgen. unfold evaluateReliability.
  destruct (url (item params)) as [u|]; cbn [default from_option id].
  - destruct (String.eqb u ""); [|destruct (URL_hostname cap u)];
      cbn [try_catch bind]; rewrite Htrim; cbn [try_catch bind];
      rewrite Hsys; cbn [try_catch bind]; rewrite Hgen; reflexivity.
  - rewrite String.eqb_refl. cbn [try_catch bind]. rewrite Htrim. cbn [try_catch bind].
    rewrite Hsys. cbn [try_catch bind]. rewrite Hgen. reflexivity.
Qed.

End ReliabilityEvaluatorFacts.

(** ** Content processing: words, key points, chunks *)

Section ContentProcessingFacts.
Import StreamingContentProcessor.

Lemma split_spaces_nonempty (s : JsString) : (1 <= length (split_spaces s))%nat.
Proof.
  induction s as [|c rest IH]; [cbn; lia|].
  cbn [split_spaces]. destruct (is_space c).
  - destruct rest as [|d rest']; [cbn; lia|].
    destruct (is_space d); [exact IH|cbn [length]; lia].
  - destruct (split_spaces rest); cbn [length] in *; lia.
Qed.

Lemma trimStart_spaces (s : JsString) :
  Forall (fun c => is_space c = true) s -> trimStart s = [].
Proof.
  induction 1 as [|c s Hc _ IH]; [reflexivity|]. cbn. now rewrite Hc.
Qed.

(** [countWords] is never 0: a text that is empty or all white space
    counts as one word. *)
Theorem countWords_at_least_one (text : JsString) :
  (1 <= countWords text)%nat
  /\ (Forall (fun c => is_space c = true) text -> countWords text = 1%nat).
Proof.
  unfold countWords. split; [apply split_spaces_nonempty|].
  intros Hall. unfold trim. rewrite (trimStart_spaces text Hall). reflexivity.
Qed.

Example countWords_examples :
  map countWords [units ""; units "   "; units "one"; units "  two  words "]
  = [1; 1; 1; 2]%nat.
Proof. reflexivity. Qed.

Example digits_examples :
  map digits [0; 7; 12; 305]%nat = [units "0"; units "7"; units "12"; units "305"].
Proof. reflexivity. Qed.

(** At most ten key points are extracted, and each is a line of some
    chunk, trimmed, that starts with a bullet ([-], [*] or the bullet
    sign) or a number and a dot, followed by white space. *)
Theorem extractKeyPoints_bounded (processed : list ContentChunk) :
  (length (extractKeyPoints processed) <= 10)%nat
  /\ Forall (fun point =>
               (bullet_line point = true \/ numbered_line point = true)
               /\ exists chunk line,
                   In chunk processed
                   /\ In line (split_on NEWLINE (content chunk))
                   /\ point = trim line)
            (extractKeyPoints processed).
Proof.
  unfold extractKeyPoints. split; [rewrite length_take; lia|].
  apply Forall_take. apply Forall_concat. apply Forall_forall.
  intros points Hpoints. apply list_elem_of_In, in_map_iff in Hpoints
    as (chunk & <- & Hchunk).
  apply Forall_forall. intros point Hpoint. unfold keyPointsOf in Hpoint.
  apply list_elem_of_In, List.filter_In in Hpoint as [Hline Hmatch].
  apply in_map_iff in Hline as (line & <- & Hline).
  apply orb_true_iff in Hmatch. split; [exact Hmatch|].
  exists chunk, line. auto.
Qed.

(** Only the first 100000 units of a document are processed: what
    follows changes nothing in the result. Chunk [i] of the result is
    the [i]-th piece of that prefix, trimmed, and records its index,
    the number of chunks and the URL. *)
Theorem processContent_chunks (u content : JsString) :
  processContent u content = processContent u (take maxTotalSize content)
  /\ let raw := createChunks u (take maxTotalSize content) in
     length (chunks (processContent u content)) = length raw
     /\ forall (i : nat) (c : ContentChunk),
         chunks (processContent u content) !! i = Some c ->
         exists piece,
           raw !! i = Some piece
           /\ StreamingContentProcessor.content c = trim piece
           /\ chunkIndex (metadata c) = i
           /\ totalChunks (metadata c) = length raw
           /\ url (metadata c) = u
           /\ id c = u ++ units "_chunk_" ++ digits i.
Proof.
  assert (Htrunc : forall text : JsString,
             (if Nat.ltb maxTotalSize (length text) then slice 0 maxTotalSize text
              else text) = take maxTotalSize text).
  { intros text. destruct (Nat.ltb_spec maxTotalSize (length text)).
    - unfold slice. now rewrite Nat.sub_0_r, drop_0.
    - now rewrite take_ge. }
  assert (Hsame : processContent u content = processContent u (take maxTotalSize content)).
  { unfold processContent. rewrite !Htrunc. now rewrite take_take, Nat.min_id. }
  split; [exact Hsame|]. cbv zeta.
  unfold processContent. rewrite Htrunc. cbn [chunks].
  split; [apply length_imap|].
  intros i c Hc. rewrite list_lookup_imap in Hc.
  destruct (createChunks u (take maxTotalSize content) !! i) as [piece|]; [|discriminate].
  cbn in Hc. injection Hc as <-. exists piece. repeat split.
Qed.

End ContentProcessingFacts.

(** ** Dispatcher: pacing of adjustments *)

Section AdaptivePacing.
Import PerformanceMetrics AdaptiveSearchClient.

(** The ceiling changes at most once per adjustment interval. A search
    that completes less than 10 s after the last change leaves the
    ceiling, the gate and [lastAdjustment] as they are; a search that
    changes the ceiling does so at least 10 s after the last change,
    rebuilds the gate with the new ceiling and restarts the interval
    at its own clock reading; a search that leaves the ceiling
    unchanged does not restart the interval. *)
Theorem ceiling_changes_once_per_interval (c : Call) (s : AdaptiveSearchClient.t) :
  (adjustedAt c - lastAdjustment s < adjustmentInterval ->
   concurrency (search c s) = concurrency s
   /\ limit (search c s) = limit s
   /\ lastAdjustment (search c s) = lastAdjustment s)
  /\ (concurrency (search c s) <> concurrency s ->
      adjustmentInterval <= adjustedAt c - lastAdjustment s
      /\ limit (search c s) = concurrency (search c s)
      /\ lastAdjustment (search c s) = adjustedAt c)
  /\ (concurrency (search c s) = concurrency s ->
      limit (search c s) = limit s
      /\ lastAdjustment (search c s) = lastAdjustment s).
Proof.
  unfold search. cbv zeta.
  set (ms := match outcome c with
             | Succeeded => _
             | Unsuccessful => _
             | Threw msg => _
             end).
  unfold adjustConcurrencyIfNeeded. cbn [lastAdjustment with_metrics metrics concurrency].
  destruct (Z.ltb_spec (adjustedAt c - lastAdjustment s) adjustmentInterval) as [Hlt|Hge].
  - cbn. repeat split; intros; try reflexivity; try lia; contradiction.
  - destruct (getMetrics "search" ms) as [m|].
    + destruct (s_count m <? 5).
      * cbn. repeat split; intros; try reflexivity; try lia; contradiction.
      * cbv zeta. destruct (Z.eqb_spec (adjusted m (concurrency s)) (concurrency s)) as [E|E].
        -- cbn. repeat split; intros; try reflexivity; try lia; contradiction.
        -- cbn. repeat split; intros; try reflexivity; try lia; contradiction.
    + cbn. repeat split; intros; try reflexivity; try lia; contradiction.
Qed.

Definition slow_calls : list Call :=
  map (fun at_ => {| outcome := Succeeded; start := at_ - 12000; finished := at_;
                     adjustedAt := at_ |})
      [1000; 2000; 3000; 4000; 5000; 12000].

(** After six searches of 12 s each the ceiling has dropped to 1 at
    the sixth; a seventh slow search 5 s later changes nothing. *)
Lemma ceiling_changes_once_per_interval_witness :
  concurrency (run 0 slow_calls) = 1
  /\ lastAdjustment (run 0 slow_calls) = 12000
  /\ concurrency (search {| outcome := Succeeded; start := 5000; finished := 17000;
                            adjustedAt := 17000 |} (run 0 slow_calls)) = 1
  /\ lastAdjustment (search {| outcome := Succeeded; start := 5000; finished := 17000;
                               adjustedAt := 17000 |} (run 0 slow_calls)) = 12000.
Proof.
  assert (H1 : concurrency (run 0 slow_calls) = 1) by (vm_compute; reflexivity).
  assert (H2 : lastAdjustment (run 0 slow_calls) = 12000) by (vm_compute; reflexivity).
  destruct (ceiling_changes_once_per_interval
              {| outcome := Succeeded; start := 5000; finished := 17000;
                 adjustedAt := 17000 |} (run 0 slow_calls)) as [Hquiet _].
  destruct Hquiet as (Hc & _ & Hl).
  { cbn [adjustedAt]. rewrite H2. unfold adjustmentInterval. lia. }
  rewrite Hc, Hl. auto.
Defined.

End AdaptivePacing.
